(** * Happy Thoughts API: a shallow embedding of the request handlers

    The repository holds three generations of one Express server:
    - the in-memory server (filters [thoughtData] with array methods),
    - [server.js] (Mongoose queries, no authentication),
    - the authenticated server (users, sessions, owner checks, like/unlike).

    The authenticated server is embedded at top level, route by route; of
    the two earlier generations the [GET /thoughts] handlers are embedded,
    in the modules [InMemory] and [ServerJs].

    Modelling conventions:
    - JavaScript numbers that the handlers compute with (heart counts, page
      numbers, limits, timestamps) are integers and are taken in [Z];
    - strings are [string]: the bytes of the UTF-8 encoding of the
      JavaScript string, which is taken well formed; [length] counts
      UTF-16 code units and white space is the ECMAScript one;
    - a number read by [parseInt] is the double nearest to the integer
      written (no infinity); the arithmetic on page and limit is exact,
      which it is in JavaScript as long as the values stay within 2^53;
    - a query-string or body field is [option string]: [None] is
      [undefined], the field being absent;
    - the document store is a pair of lists in insertion order; each store
      operation is atomic and the store is reachable, so the only
      exceptions are the ones the inputs can raise (ObjectId casts, schema
      validation, duplicate keys, a negative skip, an ill-formed regular
      expression);
    - a handler is a function from the request and the store to what the
      client gets and the store afterwards; what the environment draws
      while a request is served (salt, new ids, tokens, the clock) comes
      with the request;
    - what the libraries decide and the sources do not (which strings cast
      to an ObjectId, regular-expression matching, bcrypt) is a Section
      variable. *)

From Stdlib Require Import ZArith List String Ascii Bool Lia Sorted.
Import ListNotations.

Local Open Scope string_scope.
Local Open Scope Z_scope.

(** ** JavaScript primitives used by the handlers *)

Module JS.

(** [if (x)] on a value that is [undefined] or a string. *)
Definition truthy (x : option string) : bool :=
  match x with
  | None => false
  | Some s => negb (s =? "")%string
  end.

(** The white space and the line terminators of ECMAScript, which [trim]
    and [parseInt] strip, by the bytes of their UTF-8 encoding.  One byte:
    TAB, LF, VT, FF, CR and SP. *)
Definition is_ws (c : ascii) : bool :=
  let n := nat_of_ascii c in
  ((n =? 9) || (n =? 10) || (n =? 11) || (n =? 12) || (n =? 13) || (n =? 32))%nat.

(** Two bytes: U+00A0 (C2 A0). *)
Definition is_ws2 (c1 c2 : ascii) : bool :=
  ((nat_of_ascii c1 =? 194) && (nat_of_ascii c2 =? 160))%nat.

(** Three bytes: U+1680 (E1 9A 80), U+2000 to U+200A (E2 80 80 to 8A),
    U+2028, U+2029, U+202F (E2 80 A8, A9, AF), U+205F (E2 81 9F),
    U+3000 (E3 80 80) and U+FEFF (EF BB BF). *)
Definition is_ws3 (c1 c2 c3 : ascii) : bool :=
  let n1 := nat_of_ascii c1 in
  let n2 := nat_of_ascii c2 in
  let n3 := nat_of_ascii c3 in
  (((n1 =? 225) && (n2 =? 154) && (n3 =? 128))
   || ((n1 =? 226) && (n2 =? 128)
       && (((128 <=? n3) && (n3 <=? 138)) || (n3 =? 168) || (n3 =? 169)
           || (n3 =? 175)))
   || ((n1 =? 226) && (n2 =? 129) && (n3 =? 159))
   || ((n1 =? 227) && (n2 =? 128) && (n3 =? 128))
   || ((n1 =? 239) && (n2 =? 187) && (n3 =? 191)))%nat.

Definition digit_of (c : ascii) : option Z :=
  let n := Z.of_nat (nat_of_ascii c) in
  if (48 <=? n) && (n <=? 57) then Some (n - 48) else None.

Section Skip.
(** The characters to strip, by their one, two or three bytes. *)
Variable p1 : ascii -> bool.
Variable p2 : ascii -> ascii -> bool.
Variable p3 : ascii -> ascii -> ascii -> bool.

(** Whether a string begins with one of the characters. *)
Definition begins (s : string) : bool :=
  match s with
  | String c1 s1 =>
      p1 c1
      || match s1 with
         | String c2 s2 =>
             p2 c1 c2
             || match s2 with
                | String c3 _ => p3 c1 c2 c3
                | EmptyString => false
                end
         | EmptyString => false
         end
  | EmptyString => false
  end.

(** The string without the characters it begins with. *)
Fixpoint skip (s : string) : string :=
  match s with
  | String c1 s1 =>
      if p1 c1 then skip s1
      else
        match s1 with
        | String c2 s2 =>
            if p2 c1 c2 then skip s2
            else
              match s2 with
              | String c3 s3 => if p3 c1 c2 c3 then skip s3 else s
              | EmptyString => s
              end
        | EmptyString => s
        end
  | EmptyString => EmptyString
  end.
End Skip.

(** Leading white space stripped. *)
Definition skip_ws : string -> string := skip is_ws is_ws2 is_ws3.

(** The same on a string read from its end: the bytes of a character come
    last first. *)
Definition skip_ws_end : string -> string :=
  skip is_ws (fun c1 c2 => is_ws2 c2 c1) (fun c1 c2 c3 => is_ws3 c3 c2 c1).

(** The double nearest to an integer, ties to the even significand: what
    a JavaScript number holds of it.  (No integer is taken to infinity.) *)
Definition to_double (z : Z) : Z :=
  let a := Z.abs z in
  if a <? 2 ^ 53 then z
  else
    let e := Z.log2 a - 52 in
    let q := a / 2 ^ e in
    let r := a mod 2 ^ e in
    let half := 2 ^ (e - 1) in
    let q' :=
      if r <? half then q
      else if half <? r then q + 1
      else if Z.even q then q else q + 1 in
    Z.sgn z * (q' * 2 ^ e).

(** The longest prefix of decimal digits, as a number; [None] when the
    prefix is empty. *)
Fixpoint digits (acc : option Z) (s : string) : option Z :=
  match s with
  | String c s' =>
      match digit_of c with
      | Some d =>
          digits (Some (10 * match acc with Some a => a | None => 0 end + d)) s'
      | None => acc
      end
  | EmptyString => acc
  end.

(** [parseInt(x, 10)]; [None] is [NaN]. *)
Definition parseInt (x : option string) : option Z :=
  match x with
  | None => None
  | Some s =>
      option_map to_double
        match skip_ws s with
        | String "-"%char r => option_map Z.opp (digits None r)
        | String "+"%char r => digits None r
        | r => digits None r
        end
  end.

(** [n || d] where [n] is a number: [NaN] and [0] are falsy. *)
Definition or_default (n : option Z) (d : Z) : Z :=
  match n with
  | Some z => if z =? 0 then d else z
  | None => d
  end.

Definition drop (n : nat) (s : string) : string :=
  substring n (String.length s - n) s.

(** [s.replace(pat, rep)] with a string pattern: only the first
    occurrence is replaced, wherever it is. *)
Fixpoint replace (pat rep s : string) : string :=
  if prefix pat s then rep ++ drop (String.length pat) s
  else
    match s with
    | EmptyString => EmptyString
    | String c s' => String c (replace pat rep s')
    end.

(** [s.includes(pat)]. *)
Fixpoint includes (pat s : string) : bool :=
  if prefix pat s then true
  else
    match s with
    | EmptyString => false
    | String _ s' => includes pat s'
    end.

Fixpoint rev_string (acc s : string) : string :=
  match s with
  | EmptyString => acc
  | String c s' => rev_string (String c acc) s'
  end.

(** [s.trim()]. *)
Definition trim (s : string) : string :=
  rev_string "" (skip_ws_end (rev_string "" (skip_ws s))).

(** [s.length]: the UTF-16 code units of a string given by its UTF-8
    bytes.  A continuation byte adds nothing, the first byte of a
    four-byte character (a surrogate pair) adds two, any other byte one. *)
Fixpoint length (s : string) : nat :=
  match s with
  | EmptyString => 0
  | String c s' =>
      let n := nat_of_ascii c in
      ((if (128 <=? n) && (n <? 192) then 0 else if 240 <=? n then 2 else 1)
       + length s')%nat
  end.

Definition lower (c : ascii) : ascii :=
  let n := nat_of_ascii c in
  if ((65 <=? n) && (n <=? 90))%nat then ascii_of_nat (n + 32) else c.

(** [s.toLowerCase()] on the letters A to Z, every other byte kept: the
    function on strings of ASCII characters.  Where a handler lowers
    arbitrary text it takes the function as a parameter. *)
Fixpoint toLowerCase (s : string) : string :=
  match s with
  | EmptyString => EmptyString
  | String c s' => String (lower c) (toLowerCase s')
  end.

(** [a.slice(start, end)]: a negative index counts from the end. *)
Definition slice {A} (start stop : Z) (a : list A) : list A :=
  let len := Z.of_nat (List.length a) in
  let k := if start <? 0 then Z.max (len + start) 0 else Z.min start len in
  let fin := if stop <? 0 then Z.max (len + stop) 0 else Z.min stop len in
  firstn (Z.to_nat (Z.max (fin - k) 0)) (skipn (Z.to_nat k) a).

Section Sort.
Context {A : Type}.
(** The comparator of [Array.prototype.sort]: negative when its first
    argument goes first. *)
Variable cmp : A -> A -> Z.

(** [x] goes in front of the first element it is strictly before. *)
Fixpoint insert (x : A) (l : list A) : list A :=
  match l with
  | [] => [x]
  | y :: l' => if cmp x y <? 0 then x :: l else y :: insert x l'
  end.

(** A stable sort: elements the comparator does not separate keep their
    relative order. *)
Definition sort (l : list A) : list A :=
  fold_left (fun acc x => insert x acc) l [].
End Sort.

End JS.

(** A scalar of a JSON body, for fields the handlers only test. *)
Inductive Json :=
| JNull
| JBool (b : bool)
| JNum (n : Z)
| JStr (s : string).

(** [if (x)] on a body field. *)
Definition truthy_json (x : option Json) : bool :=
  match x with
  | None | Some JNull => false
  | Some (JBool b) => b
  | Some (JNum n) => negb (n =? 0)
  | Some (JStr s) => negb (s =? "")%string
  end.

(** ** Documents and the store *)

(** [userSchema]; [user_id] is the document's [_id], in its string form. *)
Record User := mkUser {
  user_id : string;
  name : string;
  email : string;
  password : string;
  accessToken : string
}.

(** [thoughtSchema]; [thought_id] is the document's [_id]. *)
Record Thought := mkThought {
  thought_id : string;
  message : string;
  hearts : Z;
  createdAt : Z;
  userId : string
}.

Record Store := mkStore {
  users : list User;
  thoughts : list Thought
}.

(** ** Responses *)

(** The [response] member of the envelope. *)
Inductive Payload :=
| PNull
| PError
| PValidationErrors
| PInfo
| PNewUser (id token nm mail : string)
| PSession (id token nm : string)
| PSecret (secret : string)
| PThought (t : Thought)
| PPage (totalResults currentPage resultsPerPage : Z) (page : list Thought).

(** [res.status(status).json({success, response, message})]. *)
Record Response := mkResponse {
  status : Z;
  success : bool;
  response : Payload;
  res_message : string
}.

(** What the client sees: a response, or none when the handler's promise
    rejects outside every [try]. *)
Inductive Outcome :=
| Reply (r : Response)
| Uncaught.

(** Early [return] inside a handler. *)
Inductive Step (A : Type) :=
| Continue (a : A)
| Stop (o : Outcome).
Arguments Continue {A} a.
Arguments Stop {A} o.

Definition bind {A} (s : Step A) (k : A -> Outcome) : Outcome :=
  match s with
  | Continue a => k a
  | Stop o => o
  end.

Notation "x <- s ;; k" := (bind s (fun x => k))
  (at level 61, s at next level, right associativity).

(** Exceptions a store operation raises. *)
Inductive Exn :=
| CastError
| ValidationError
| DuplicateKey
| OtherError.

Inductive Try (A : Type) :=
| Ok (a : A)
| Raise (e : Exn).
Arguments Ok {A} a.
Arguments Raise {A} e.

(** ** Schema validation *)

(** The [message] path of [thoughtSchema]: [trim], then [required],
    [minlength: 5], [maxlength: 140].  The result is the value stored. *)
Definition validate_message (m : option string) : option string :=
  match m with
  | None => None
  | Some s =>
      let t := JS.trim s in
      let n := Z.of_nat (JS.length t) in
      if (n =? 0) || (n <? 5) || (140 <? n) then None else Some t
  end.

(** [required: true] on a string path. *)
Definition required (x : option string) : option string :=
  match x with
  | Some s => if (s =? "")%string then None else Some s
  | None => None
  end.

(** ** Store operations *)

Fixpoint update_first (o : string) (f : Thought -> Thought) (l : list Thought)
  : list Thought :=
  match l with
  | [] => []
  | t :: l' =>
      if (thought_id t =? o)%string then f t :: l'
      else t :: update_first o f l'
  end.

Fixpoint remove_first (o : string) (l : list Thought) : list Thought :=
  match l with
  | [] => []
  | t :: l' =>
      if (thought_id t =? o)%string then l' else t :: remove_first o l'
  end.

Definition lookup (o : string) (l : list Thought) : option Thought :=
  find (fun t => (thought_id t =? o)%string) l.

(** The update documents the handlers build. *)
Record UpdateFields := mkUpdateFields {
  set_message : option string;
  set_hearts : option Z
}.

Inductive Update :=
| Inc_hearts (n : Z)
| Set_fields (f : UpdateFields).

(** The filter document of [GET /thoughts]. *)
Record Query := mkQuery {
  query_id : option string;
  query_hearts_gte : option Z;
  query_message_regex : option (string -> bool)
}.

Inductive SortOptions :=
| NoSort
| ByCreatedAt (dir : Z)
| ByHearts (dir : Z).

(** [.sort(sortOptions)]: descending for [-1], ascending otherwise; no
    key leaves the storage order.  Ties keep the storage order. *)
Definition mongo_sort (so : SortOptions) (l : list Thought) : list Thought :=
  match so with
  | NoSort => l
  | ByCreatedAt dir =>
      if dir <? 0 then JS.sort (fun a b => createdAt b - createdAt a) l
      else JS.sort (fun a b => createdAt a - createdAt b) l
  | ByHearts dir =>
      if dir <? 0 then JS.sort (fun a b => hearts b - hearts a) l
      else JS.sort (fun a b => hearts a - hearts b) l
  end.

(** [.limit(n)]: [0] is no limit, a negative [n] is [-n] in one batch. *)
Definition mongo_limit (n : Z) (l : list Thought) : list Thought :=
  if n =? 0 then l else firstn (Z.to_nat (Z.abs n)) l.

(** ** The authenticated server *)

Section Server.

(** Mongoose's cast of a route or query string to an ObjectId: [None] is
    the CastError, [Some o] the id in the form documents carry it. *)
Variable castObjectId : string -> option string.

(** [new RegExp(source, 'i')]: [None] is the SyntaxError of an ill-formed
    source, [Some matches] the predicate [$regex] applies to a message. *)
Variable RegExp_i : string -> option (string -> bool).

(** [bcrypt.hashSync(password, salt)] and [bcrypt.compareSync]. *)
Variable hashSync : string -> string -> string.
Variable compareSync : string -> string -> bool.

(** [Thought.findById(id)]. *)
Definition findById (id : string) (st : Store) : Try (option Thought) :=
  match castObjectId id with
  | None => Raise CastError
  | Some o => Ok (lookup o (thoughts st))
  end.

(** [Thought.findByIdAndDelete(id)]: the removed document, if any. *)
Definition findByIdAndDelete (id : string) (st : Store)
  : Try (option Thought * Store) :=
  match castObjectId id with
  | None => Raise CastError
  | Some o =>
      Ok (lookup o (thoughts st),
          mkStore (users st) (remove_first o (thoughts st)))
  end.

(** The casting of an update document: the setters of the schema run
    ([trim]), and with [runValidators] a [message] that is set goes through
    the validators. *)
Definition cast_update (up : Update) (runValidators : bool) : Try Update :=
  match up with
  | Inc_hearts n => Ok (Inc_hearts n)
  | Set_fields f =>
      match set_message f with
      | None => Ok (Set_fields f)
      | Some m =>
          match (if runValidators then validate_message (Some m)
                 else Some (JS.trim m)) with
          | Some m' => Ok (Set_fields (mkUpdateFields (Some m') (set_hearts f)))
          | None => Raise ValidationError
          end
      end
  end.

(** The document after a cast update. *)
Definition apply_update (up : Update) (t : Thought) : Thought :=
  match up with
  | Inc_hearts n =>
      mkThought (thought_id t) (message t) (hearts t + n) (createdAt t) (userId t)
  | Set_fields f =>
      mkThought (thought_id t)
        (match set_message f with Some m => m | None => message t end)
        (match set_hearts f with Some h => h | None => hearts t end)
        (createdAt t) (userId t)
  end.

(** [Thought.findByIdAndUpdate(id, update, {new: true, runValidators})]:
    the document after the update, if there is one. *)
Definition findByIdAndUpdate (id : string) (up : Update) (runValidators : bool)
    (st : Store) : Try (option Thought * Store) :=
  match castObjectId id with
  | None => Raise CastError
  | Some o =>
      match cast_update up runValidators with
      | Raise e => Raise e
      | Ok up' =>
          Ok (option_map (apply_update up') (lookup o (thoughts st)),
              mkStore (users st) (update_first o (apply_update up') (thoughts st)))
      end
  end.

(** Whether a document satisfies a filter whose [_id] is already cast. *)
Definition matches (oid : option string) (q : Query) (t : Thought) : bool :=
  match oid with Some o => (thought_id t =? o)%string | None => true end
  && match query_hearts_gte q with Some m => m <=? hearts t | None => true end
  && match query_message_regex q with Some re => re (message t) | None => true end.

(** The documents a filter selects, in storage order. *)
Definition select (q : Query) (st : Store) : Try (list Thought) :=
  match query_id q with
  | None => Ok (filter (matches None q) (thoughts st))
  | Some id =>
      match castObjectId id with
      | None => Raise CastError
      | Some o => Ok (filter (matches (Some o) q) (thoughts st))
      end
  end.

(** [Thought.countDocuments(query)]. *)
Definition countDocuments (q : Query) (st : Store) : Try Z :=
  match select q st with
  | Ok l => Ok (Z.of_nat (List.length l))
  | Raise e => Raise e
  end.

(** [Thought.find(query).sort(so).skip(k).limit(n)]; the server refuses a
    negative skip. *)
Definition find_sort_skip_limit (q : Query) (so : SortOptions) (k n : Z)
    (st : Store) : Try (list Thought) :=
  match select q st with
  | Ok l =>
      if k <? 0 then Raise OtherError
      else Ok (mongo_limit n (skipn (Z.to_nat k) (mongo_sort so l)))
  | Raise e => Raise e
  end.

(** [User.findOne({ accessToken })]. *)
Definition findOne_accessToken (tok : string) (st : Store) : option User :=
  find (fun u => (accessToken u =? tok)%string) (users st).

(** [User.findOne({ email })]. *)
Definition findOne_email (mail : string) (st : Store) : option User :=
  find (fun u => (email u =? mail)%string) (users st).

(** *** Authentication middleware *)

(** [req.header("Authorization")?.replace("Bearer ", "")]. *)
Definition bearer_token (authorization : option string) : option string :=
  option_map (JS.replace "Bearer " "") authorization.

(** [authenticateUser]: the response it sends itself, or the user it
    attaches to the request before calling [next()]. *)
Definition authenticateUser (authorization : option string) (st : Store)
  : Response + User :=
  let token := bearer_token authorization in
  if negb (JS.truthy token) then
    inl (mkResponse 401 false PNull "Unauthorized: No access token provided.")
  else
    match token with
    | Some tok =>
        match findOne_accessToken tok st with
        | Some user => inr user
        | None =>
            inl (mkResponse 401 false PNull
                   "Unauthorized: Access token invalid or missing.")
        end
    | None =>
        inl (mkResponse 401 false PNull "Unauthorized: No access token provided.")
    end.

(** A route registered as [app.METHOD(path, authenticateUser, handler)]. *)
Definition protected (handler : User -> Store -> Outcome * Store)
    (authorization : option string) (st : Store) : Outcome * Store :=
  match authenticateUser authorization st with
  | inl r => (Reply r, st)
  | inr user => handler user st
  end.

(** *** Requests *)

(** [req.query] of [GET /thoughts]. *)
Record ThoughtsQuery := mkThoughtsQuery {
  q_hearts : option string;
  q_message : option string;
  q_page : option string;
  q_limit : option string;
  q_sort : option string;
  q_id : option string
}.

(** [req.body] of [PATCH /thoughts/:id]; [body_message], when present, is
    a JSON string. *)
Record PatchBody := mkPatchBody {
  body_message : option string;
  body_unlike : option Json
}.

(** [req.body] of [POST /users]. *)
Record UserBody := mkUserBody {
  body_name : option string;
  body_email : option string;
  body_password : option string
}.

(** *** Handlers *)

(** [app.get("/")]. *)
Definition get_root (st : Store) : Outcome * Store :=
  (Reply (mkResponse 200 true PInfo "API information retrieved successfully."),
   st).

(** [app.post("/users")]; [salt] is [bcrypt.genSaltSync()], [new_id] and
    [new_token] the [_id] and [accessToken] the new document gets. *)
Definition post_users (body : UserBody) (salt new_id new_token : string)
    (st : Store) : Outcome * Store :=
  match body_password body with
  | None =>
      (Reply (mkResponse 500 false PError "Failed to create user."), st)
  | Some pw =>
      let hash := hashSync pw salt in
      match required (body_name body), required (body_email body),
            required (Some hash) with
      | Some nm, Some mail, Some h =>
          if existsb (fun u => (name u =? nm)%string || (email u =? mail)%string)
               (users st)
          then
            (Reply (mkResponse 409 false PError
                      "User with this name or email already exists."), st)
          else
            (Reply (mkResponse 201 true (PNewUser new_id new_token nm mail)
                      "User created successfully"),
             mkStore (users st ++ [mkUser new_id nm mail h new_token])
               (thoughts st))
      | _, _, _ =>
          (Reply (mkResponse 400 false PValidationErrors
                    "Validation failed for user creation."), st)
      end
  end.

(** [app.get("/secrets", authenticateUser, ...)]. *)
Definition get_secrets : option string -> Store -> Outcome * Store :=
  protected (fun user st =>
    (Reply (mkResponse 200 true
              (PSecret ("This is a secret, accessible only to authenticated user: "
                        ++ name user))
              "Secret retrieved successfully."), st)).

(** [app.post("/sessions")]. *)
Definition post_sessions (mail pw : string) (st : Store) : Outcome * Store :=
  match findOne_email mail st with
  | Some user =>
      if compareSync pw (password user) then
        (Reply (mkResponse 200 true
                  (PSession (user_id user) (accessToken user) (name user))
                  "Login successful."), st)
      else
        (Reply (mkResponse 401 false PNull
                  "Login failed: Invalid email or password."), st)
  | None =>
      (Reply (mkResponse 401 false PNull
                "Login failed: Invalid email or password."), st)
  end.

(** [if (id) query._id = id]: the [_id] member of the filter. *)
Definition id_filter (q : ThoughtsQuery) : option string :=
  if JS.truthy (q_id q) then q_id q else None.

(** The [hearts] stage of [GET /thoughts]: the [$gte] bound, if any. *)
Definition hearts_stage (q : ThoughtsQuery) : Step (option Z) :=
  if JS.truthy (q_hearts q) then
    match JS.parseInt (q_hearts q) with
    | Some minHearts => Continue (Some minHearts)
    | None =>
        Stop (Reply (mkResponse 400 false PNull
                       "Invalid 'hearts' parameter. Must be a number."))
    end
  else Continue None.

(** The [message] stage: [new RegExp(message, 'i')] is built outside the
    handler's [try]. *)
Definition message_stage (q : ThoughtsQuery) : Step (option (string -> bool)) :=
  match q_message q with
  | Some m =>
      if JS.truthy (q_message q) then
        match RegExp_i m with
        | Some re => Continue (Some re)
        | None => Stop Uncaught
        end
      else Continue None
  | None => Continue None
  end.

(** The [sort] stage. *)
Definition sort_stage (q : ThoughtsQuery) : Step SortOptions :=
  match q_sort q with
  | Some sort =>
      if JS.truthy (q_sort q) then
        if (sort =? "createdAt_desc")%string || (sort =? "createdAt")%string
        then Continue (ByCreatedAt (-1))
        else if (sort =? "createdAt_asc")%string
        then Continue (ByCreatedAt 1)
        else if (sort =? "hearts")%string
        then Continue (ByHearts (-1))
        else
          Stop (Reply (mkResponse 400 false PNull
                         "Invalid 'sort' parameter. Valid options are 'createdAt_desc', 'createdAt_asc', or 'hearts'."))
      else Continue NoSort
  | None => Continue NoSort
  end.

(** [parseInt(page, 10) || 1] and [parseInt(limit, 10) || 10]. *)
Definition pageNum (q : ThoughtsQuery) : Z :=
  JS.or_default (JS.parseInt (q_page q)) 1.

Definition limitNum (q : ThoughtsQuery) : Z :=
  JS.or_default (JS.parseInt (q_limit q)) 10.

(** The [try] block of [GET /thoughts]. *)
Definition run_query (query : Query) (sortOptions : SortOptions)
    (page limit : Z) (st : Store) : Outcome :=
  let startIndex := (page - 1) * limit in
  match countDocuments query st with
  | Ok totalResults =>
      match find_sort_skip_limit query sortOptions startIndex limit st with
      | Ok thoughts =>
          Reply (mkResponse 200 true
                   (PPage totalResults page (Z.of_nat (List.length thoughts))
                      thoughts)
                   "Thoughts retrieved successfully.")
      | Raise _ =>
          Reply (mkResponse 500 false PError "Failed to retrieve thoughts.")
      end
  | Raise _ =>
      Reply (mkResponse 500 false PError "Failed to retrieve thoughts.")
  end.

(** [app.get("/thoughts")]. *)
Definition get_thoughts (q : ThoughtsQuery) (st : Store) : Outcome :=
  minHearts <- hearts_stage q ;;
  regex <- message_stage q ;;
  sortOptions <- sort_stage q ;;
  run_query (mkQuery (id_filter q) minHearts regex) sortOptions
    (pageNum q) (limitNum q) st.

(** [app.get("/thoughts/:id/")]. *)
Definition get_thought (id : string) (st : Store) : Outcome * Store :=
  match findById id st with
  | Ok None =>
      (Reply (mkResponse 404 false PNull
                ("Thought with id '" ++ id ++ "' not found.")), st)
  | Ok (Some thought) =>
      (Reply (mkResponse 200 true (PThought thought)
                ("Thought with id '" ++ id ++ "' retrieved successfully.")), st)
  | Raise _ =>
      (Reply (mkResponse 400 false PError "Invalid thought ID format."), st)
  end.

(** [app.post("/thoughts", authenticateUser, ...)]; [new_id] and [now] are
    the [_id] and the [createdAt] default of the new document. *)
Definition post_thoughts (msg : option string) (new_id : string) (now : Z)
  : option string -> Store -> Outcome * Store :=
  protected (fun user st =>
    match validate_message msg, required (Some (user_id user)) with
    | Some m, Some uid =>
        let newThought := mkThought new_id m 0 now uid in
        (Reply (mkResponse 201 true (PThought newThought)
                  "Thought created successfully"),
         mkStore (users st) (thoughts st ++ [newThought]))
    | _, _ =>
        (Reply (mkResponse 400 false PValidationErrors
                  "Validation failed for thought creation."), st)
    end).

Definition payload_of (t : option Thought) : Payload :=
  match t with
  | Some t => PThought t
  | None => PNull
  end.

(** [app.delete("/thoughts/:id", authenticateUser, ...)]. *)
Definition delete_thought (id : string)
  : option string -> Store -> Outcome * Store :=
  protected (fun user st =>
    let authenticatedUserId := user_id user in
    match findById id st with
    | Ok None =>
        (Reply (mkResponse 404 false PNull
                  "Thought could not be found, can't delete."), st)
    | Ok (Some thoughtToDelete) =>
        if negb (userId thoughtToDelete =? authenticatedUserId)%string then
          (Reply (mkResponse 403 false PNull
                    "You are not authorized to delete this thought."), st)
        else
          match findByIdAndDelete id st with
          | Ok (deletedThought, st') =>
              (Reply (mkResponse 200 true (payload_of deletedThought)
                        "Thought was successfully deleted."), st')
          | Raise _ =>
              (Reply (mkResponse 500 false PError "Failed to delete thought."),
               st)
          end
    | Raise _ =>
        (Reply (mkResponse 500 false PError "Failed to delete thought."), st)
    end).

(** [app.patch("/thoughts/:id/like")]. *)
Definition patch_like (id : string) (st : Store) : Outcome * Store :=
  match findByIdAndUpdate id (Inc_hearts 1) false st with
  | Ok (None, st') =>
      (Reply (mkResponse 404 false PNull "Thought could not be found to like."),
       st')
  | Ok (Some updatedThought, st') =>
      (Reply (mkResponse 200 true (PThought updatedThought)
                "Thought successfully liked."), st')
  | Raise _ =>
      (Reply (mkResponse 400 false PError
                "Failed to like thought due to invalid ID or server error."), st)
  end.

(** The [catch] of [PATCH /thoughts/:id]. *)
Definition patch_catch (e : Exn) : Response :=
  match e with
  | ValidationError =>
      mkResponse 400 false PValidationErrors "Validation failed for thought update."
  | _ => mkResponse 500 false PError "Could not edit thought."
  end.

(** What [PATCH /thoughts/:id] collects once the message edit is allowed:
    [updateFields] and [performUpdate]. *)
Definition patch_fields (thought : Thought) (body : PatchBody)
  : UpdateFields * bool :=
  let updateFields := mkUpdateFields (body_message body) None in
  let performUpdate :=
    match body_message body with Some _ => true | None => false end in
  let newHearts :=
    if truthy_json (body_unlike body) then Z.max 0 (hearts thought - 1)
    else hearts thought in
  if truthy_json (body_unlike body) && negb (newHearts =? hearts thought)
  then (mkUpdateFields (set_message updateFields) (Some newHearts), true)
  else (updateFields, performUpdate).

(** [app.patch("/thoughts/:id", authenticateUser, ...)]. *)
Definition patch_thought (id : string) (body : PatchBody)
  : option string -> Store -> Outcome * Store :=
  protected (fun user st =>
    let authenticatedUserId := user_id user in
    match findById id st with
    | Ok None =>
        (Reply (mkResponse 404 false PNull "Thought could not be found."), st)
    | Ok (Some thought) =>
        if match body_message body with
           | Some _ => negb (userId thought =? authenticatedUserId)%string
           | None => false
           end
        then
          (Reply (mkResponse 403 false PNull
                    "You are not authorized to edit this thought's message."), st)
        else
          let (updateFields, performUpdate) := patch_fields thought body in
          if negb performUpdate then
            (Reply (mkResponse 200 true (PThought thought)
                      "No valid update fields provided, thought not modified."),
             st)
          else
            match findByIdAndUpdate id (Set_fields updateFields) true st with
            | Ok (None, st') =>
                (Reply (mkResponse 404 false PNull
                          "Thought could not be found after update attempt."),
                 st')
            | Ok (Some updatedThought, st') =>
                (Reply (mkResponse 200 true (PThought updatedThought)
                          "Thought was successfully updated."), st')
            | Raise e => (Reply (patch_catch e), st)
            end
    | Raise e => (Reply (patch_catch e), st)
    end).

(** *** The router *)

(** One request to one of the registered routes, with what the handler
    reads of it and what the environment draws while serving it. *)
Inductive Request :=
| GET_root
| POST_users (body : UserBody) (salt new_id new_token : string)
| GET_secrets (authorization : option string)
| POST_sessions (mail pw : string)
| GET_thoughts (q : ThoughtsQuery)
| GET_thought (id : string)
| POST_thoughts (authorization : option string) (msg : option string)
    (new_id : string) (now : Z)
| DELETE_thought (authorization : option string) (id : string)
| PATCH_like (id : string)
| PATCH_thought (authorization : option string) (id : string) (body : PatchBody).

Definition handle (r : Request) (st : Store) : Outcome * Store :=
  match r with
  | GET_root => get_root st
  | POST_users body salt new_id new_token =>
      post_users body salt new_id new_token st
  | GET_secrets a => get_secrets a st
  | POST_sessions mail pw => post_sessions mail pw st
  | GET_thoughts q => (get_thoughts q st, st)
  | GET_thought id => get_thought id st
  | POST_thoughts a msg new_id now => post_thoughts msg new_id now a st
  | DELETE_thought a id => delete_thought id a st
  | PATCH_like id => patch_like id st
  | PATCH_thought a id body => patch_thought id body a st
  end.

End Server.

(** ** Seeding

    [seedDatabase], run at start-up when [RESET_DB] is set. *)

(** An entry of [thoughtData] ([data.json]); [seed_createdAt], when
    present, is a date string, given by the instant it denotes. *)
Record SeedThought := mkSeedThought {
  seed_message : option string;
  seed_hearts : option Z;
  seed_createdAt : option Z;
  seed_userId : option string
}.

(** [new Thought({...})] of the loop body, then what [save()] stores:
    [None] when validation throws. *)
Definition seed_document (thought : SeedThought) (new_id : string) (now : Z)
  : option Thought :=
  let hearts := JS.or_default (seed_hearts thought) 0 in
  let createdAt :=
    match seed_createdAt thought with Some d => d | None => now end in
  let userId :=
    if JS.truthy (seed_userId thought) then
      match seed_userId thought with Some u => u | None => "seed-user-id" end
    else "seed-user-id" in
  match validate_message (seed_message thought), required (Some userId) with
  | Some m, Some uid => Some (mkThought new_id m hearts createdAt uid)
  | _, _ => None
  end.

Section Seeding.
(** The [_id] and the clock reading the [i]-th document of the loop gets. *)
Variable fresh : nat -> string * Z.

(** The [for ... of] loop: the first [save()] that throws ends it, in the
    [catch] around the loop. *)
Fixpoint seed_loop (thoughtData : list SeedThought) (i : nat)
    (saved : list Thought) : list Thought :=
  match thoughtData with
  | [] => saved
  | thought :: rest =>
      match seed_document thought (fst (fresh i)) (snd (fresh i)) with
      | Some newThought => seed_loop rest (S i) (saved ++ [newThought])
      | None => saved
      end
  end.

(** [seedDatabase]: [Thought.deleteMany({})], then the loop. *)
Definition seedDatabase (thoughtData : list SeedThought) (st : Store) : Store :=
  mkStore (users st) (seed_loop thoughtData 0 []).

End Seeding.

(** ** [server.js]: the server before authentication

    Its [GET /thoughts] builds the same filter from [hearts] and [message]
    (it reads no [id]) and knows two sort values. *)

Module ServerJs.
Section Server.
Variable castObjectId : string -> option string.
Variable RegExp_i : string -> option (string -> bool).

Definition sort_stage (q : ThoughtsQuery) : Step SortOptions :=
  match q_sort q with
  | Some sort =>
      if JS.truthy (q_sort q) then
        if (sort =? "createdAt")%string then Continue (ByCreatedAt (-1))
        else if (sort =? "hearts")%string then Continue (ByHearts (-1))
        else
          Stop (Reply (mkResponse 400 false PNull
                         "Invalid 'sort' parameter. Valid options are 'createdAt' or 'hearts'."))
      else Continue NoSort
  | None => Continue NoSort
  end.

(** [app.get("/thoughts")] of [server.js]. *)
Definition get_thoughts (q : ThoughtsQuery) (st : Store) : Outcome :=
  minHearts <- hearts_stage q ;;
  regex <- message_stage RegExp_i q ;;
  sortOptions <- sort_stage q ;;
  run_query castObjectId (mkQuery None minHearts regex) sortOptions
    (pageNum q) (limitNum q) st.

(** [app.get("/thoughts/:id/")] of [server.js]. *)
Definition get_thought (id : string) (st : Store) : Outcome * Store :=
  match findById castObjectId id st with
  | Ok None =>
      (Reply (mkResponse 404 false PNull
                ("Thought with id '" ++ id ++ "' not found.")), st)
  | Ok (Some thought) =>
      (Reply (mkResponse 200 true (PThought thought)
                ("Thought with id '" ++ id ++ "' retrieved successfully.")), st)
  | Raise _ =>
      (Reply (mkResponse 400 false PError "Invalid thought ID format."), st)
  end.

(** [app.delete("/thoughts/:id")] of [server.js].  Its [catch] has no
    binding and builds its body from an undeclared [error]: reaching it
    throws again, outside every [try], before anything is sent. *)
Definition delete_thought (id : string) (st : Store) : Outcome * Store :=
  match findByIdAndDelete castObjectId id st with
  | Ok (None, st') =>
      (Reply (mkResponse 404 false PNull
                "Thought could not be found, can't delete."), st')
  | Ok (Some deletedThought, st') =>
      (Reply (mkResponse 200 true (PThought deletedThought)
                "Thought was successfully deleted."), st')
  | Raise _ => (Uncaught, st)
  end.

End Server.
End ServerJs.

(** ** The in-memory server

    [GET /thoughts] filters, sorts and slices the array [thoughtData] and
    answers without the envelope. *)

Module InMemory.

Inductive Answer :=
| Error400 (error : string)
| Page (totalResults currentPage resultsPerPage : Z) (thoughts : list Thought).

(** The [hearts] filter. *)
Definition filter_hearts (q : ThoughtsQuery) (filteredThoughts : list Thought)
  : Answer + list Thought :=
  if JS.truthy (q_hearts q) then
    match JS.parseInt (q_hearts q) with
    | Some minHearts =>
        inr (filter (fun thought => minHearts <=? hearts thought)
               filteredThoughts)
    | None => inl (Error400 "Invalid hearts parameter. Must be a number")
    end
  else inr filteredThoughts.

Section Handler.
(** [String.prototype.toLowerCase], which follows the Unicode case
    mapping. *)
Variable toLowerCase : string -> string.

(** The [message] filter. *)
Definition filter_message (q : ThoughtsQuery) (filteredThoughts : list Thought)
  : list Thought :=
  match q_message q with
  | Some m =>
      if JS.truthy (q_message q) then
        let searchMessage := toLowerCase m in
        filter (fun thought =>
                  JS.includes searchMessage (toLowerCase (message thought)))
          filteredThoughts
      else filteredThoughts
  | None => filteredThoughts
  end.

(** The [sort] stage. *)
Definition sort_thoughts (q : ThoughtsQuery) (filteredThoughts : list Thought)
  : Answer + list Thought :=
  match q_sort q with
  | Some sort =>
      if JS.truthy (q_sort q) then
        if (sort =? "createdAt")%string then
          inr (JS.sort (fun a b => createdAt b - createdAt a) filteredThoughts)
        else if (sort =? "hearts")%string then
          inr (JS.sort (fun a b => hearts b - hearts a) filteredThoughts)
        else
          inl (Error400
                 "Invalid 'sort' parameter. Valid options are 'createdAt' or 'hearts'.")
      else inr filteredThoughts
  | None => inr filteredThoughts
  end.

(** The page cut out of the filtered and sorted array. *)
Definition paginate (q : ThoughtsQuery) (filteredThoughts : list Thought)
  : Answer :=
  let pageNum := pageNum q in
  let limitNum := limitNum q in
  let startIndex := (pageNum - 1) * limitNum in
  let endIndex := pageNum * limitNum in
  let paginatedThoughts := JS.slice startIndex endIndex filteredThoughts in
  Page (Z.of_nat (List.length filteredThoughts)) pageNum
    (Z.of_nat (List.length paginatedThoughts)) paginatedThoughts.

(** [app.get("/thoughts")] of the in-memory server. *)
Definition get_thoughts (thoughtData : list Thought) (q : ThoughtsQuery)
  : Answer :=
  match filter_hearts q thoughtData with
  | inl e => e
  | inr filteredThoughts =>
      match sort_thoughts q (filter_message q filteredThoughts) with
      | inl e => e
      | inr filteredThoughts => paginate q filteredThoughts
      end
  end.

End Handler.

End InMemory.

(** ** A sample deployment

    Concrete choices for what the libraries decide, and a small store, on
    which the statements below are run. *)

Module Sample.

Definition is_hex (c : ascii) : bool :=
  let n := nat_of_ascii c in
  (((48 <=? n) && (n <=? 57)) || ((97 <=? n) && (n <=? 102))
   || ((65 <=? n) && (n <=? 70)))%nat.

Fixpoint all_hex (s : string) : bool :=
  match s with
  | EmptyString => true
  | String c s' => is_hex c && all_hex s'
  end.

(** Twenty-four hexadecimal digits cast to an ObjectId. *)
Definition castObjectId (s : string) : option string :=
  if ((String.length s =? 24)%nat && all_hex s)%bool
  then Some (JS.toLowerCase s) else None.

(** Sources without an opening parenthesis, matched as substrings. *)
Definition RegExp_i (source : string) : option (string -> bool) :=
  if JS.includes "(" source then None
  else Some (fun s => JS.includes (JS.toLowerCase source) (JS.toLowerCase s)).

(** Lower-casing of the letters A to Z. *)
Definition toLowerCase : string -> string := JS.toLowerCase.

Definition hashSync (pw salt : string) : string := salt ++ "$" ++ pw.

Definition compareSync (pw hash : string) : bool :=
  JS.includes ("$" ++ pw) hash.

Definition alice : User :=
  mkUser "aaaaaaaaaaaaaaaaaaaaaaaa" "alice" "alice@x.com" "s$secret123" "c0ffee".

Definition bob : User :=
  mkUser "bbbbbbbbbbbbbbbbbbbbbbbb" "bob" "bob@x.com" "s$hunter22" "f00d".

Definition hello : Thought :=
  mkThought "111111111111111111111111" "hello world" 3 100
    "aaaaaaaaaaaaaaaaaaaaaaaa".

Definition happy : Thought :=
  mkThought "222222222222222222222222" "happy days" 0 200
    "bbbbbbbbbbbbbbbbbbbbbbbb".

Definition coffee : Thought :=
  mkThought "333333333333333333333333" "coffee time" 7 150
    "bbbbbbbbbbbbbbbbbbbbbbbb".

Definition store : Store := mkStore [alice; bob] [hello; happy; coffee].

Definition query (hearts message page limit sort : option string)
  : ThoughtsQuery :=
  mkThoughtsQuery hearts message page limit sort None.

End Sample.

(** ** Vocabulary of the statements *)

(** A thought with another heart count. *)
Definition with_hearts (t : Thought) (h : Z) : Thought :=
  mkThought (thought_id t) (message t) h (createdAt t) (userId t).

(** No stored thought has a negative heart count. *)
Definition nonneg_hearts (st : Store) : Prop :=
  Forall (fun t => 0 <= hearts t) (thoughts st).

Fixpoint all_digits (s : string) : bool :=
  match s with
  | EmptyString => true
  | String c s' =>
      match JS.digit_of c with Some _ => all_digits s' | None => false end
  end.

(** One or more decimal digits: a non-negative integer in the usual
    notation. *)
Definition numeric (s : string) : bool :=
  negb (s =? "")%string && all_digits s.

(** The records at positions [(page-1)*limit, page*limit) of a list. *)
Definition window {A} (page limit : Z) (l : list A) : list A :=
  firstn (Z.to_nat limit) (skipn (Z.to_nat ((page - 1) * limit)) l).

(** The four sort values of the authenticated server. *)
Definition known_sort (s : string) : bool :=
  ((s =? "createdAt") || (s =? "createdAt_desc") || (s =? "createdAt_asc")
   || (s =? "hearts"))%string.

(** A query with another [sort] value. *)
Definition set_sort (q : ThoughtsQuery) (sort : option string) : ThoughtsQuery :=
  mkThoughtsQuery (q_hearts q) (q_message q) (q_page q) (q_limit q) sort (q_id q).


(** Newest first. *)
Definition newest_first (l : list Thought) : Prop :=
  StronglySorted (fun a b => createdAt b <= createdAt a) l.

(** What of a thought no request is meant to change. *)
Definition identity (t : Thought) : string * Z * string :=
  (thought_id t, createdAt t, userId t).

(** Stored messages respect the schema's bounds. *)
Definition valid_messages (st : Store) : Prop :=
  Forall (fun t => 5 <= Z.of_nat (JS.length (message t)) <= 140)
    (thoughts st).

(** No two stored thoughts share an [_id]. *)
Definition unique_ids (st : Store) : Prop :=
  NoDup (map thought_id (thoughts st)).

(** No two users share a name, nor an email: the two unique indexes. *)
Definition unique_users (st : Store) : Prop :=
  NoDup (map name (users st)) /\ NoDup (map email (users st)).

(** Most hearts first, and oldest first. *)
Definition most_hearts_first (l : list Thought) : Prop :=
  StronglySorted (fun a b => hearts b <= hearts a) l.

Definition oldest_first (l : list Thought) : Prop :=
  StronglySorted (fun a b => createdAt a <= createdAt b) l.

(** The pages [1 .. n] of a list, one after the other. *)
Definition pages {A} (n : nat) (limit : Z) (l : list A) : list A :=
  List.concat (map (fun p => window (Z.of_nat p + 1) limit l) (seq 0 n)).

(** Stored messages carry no surrounding whitespace. *)
Definition trimmed_messages (st : Store) : Prop :=
  Forall (fun t => JS.trim (message t) = message t) (thoughts st).

(** Whether a string has no white space to strip at its beginning. *)
Definition starts_clean (s : string) : bool :=
  negb (JS.begins JS.is_ws JS.is_ws2 JS.is_ws3 s).

(** * Properties *)

(** ** Strings and lists *)

Lemma includes_unfold (pat s : string) :
  JS.includes pat s
  = if prefix pat s then true
    else match s with
         | EmptyString => false
         | String _ s' => JS.includes pat s'
         end.
Proof. now destruct s. Qed.

Lemma replace_unfold (pat rep s : string) :
  JS.replace pat rep s
  = if prefix pat s then rep ++ JS.drop (String.length pat) s
    else match s with
         | EmptyString => EmptyString
         | String c s' => String c (JS.replace pat rep s')
         end.
Proof. now destruct s. Qed.

Lemma replace_absent (pat rep s : string) :
  JS.includes pat s = false -> JS.replace pat rep s = s.
Proof.
  induction s as [|c s IH]; rewrite includes_unfold, replace_unfold;
    destruct (prefix pat _); intros H; try discriminate H.
  - reflexivity.
  - now rewrite IH.
Qed.

Lemma find_absent {A} (f : A -> bool) (l : list A) :
  (forall x, In x l -> f x = false) -> find f l = None.
Proof.
  intros H. destruct (find f l) as [x|] eqn:E; [|reflexivity].
  apply find_some in E. destruct E as [Hin Hf].
  rewrite (H x Hin) in Hf. discriminate.
Qed.


Lemma lookup_update_first (o : string) (f : Thought -> Thought)
    (l : list Thought) (t : Thought) :
  (forall x, thought_id (f x) = thought_id x) ->
  lookup o l = Some t ->
  lookup o (update_first o f l) = Some (f t).
Proof.
  unfold lookup. intros Hid. induction l as [|x l IH]; simpl; [intros H; discriminate H|].
  destruct (thought_id x =? o)%string eqn:E; cbn.
  - intros H. injection H as ->. simpl. now rewrite Hid, E.
  - intros H. simpl. rewrite E. auto.
Qed.

Lemma store_eta (st : Store) : mkStore (users st) (thoughts st) = st.
Proof. now destruct st. Qed.

Lemma apply_update_id (up : Update) (t : Thought) :
  thought_id (apply_update up t) = thought_id t.
Proof. now destruct up. Qed.

(** ** Authentication *)

Lemma truthy_nonempty (tok : string) :
  tok <> "" -> JS.truthy (Some tok) = true.
Proof.
  intros H. simpl. destruct (tok =? "")%string eqn:E; [|reflexivity].
  apply String.eqb_eq in E. contradiction.
Qed.

Lemma authenticateUser_found (header tok : string) (user : User) (st : Store) :
  bearer_token (Some header) = Some tok -> tok <> "" ->
  findOne_accessToken tok st = Some user ->
  authenticateUser (Some header) st = inr user.
Proof.
  intros Hb Hne Hf. unfold authenticateUser. rewrite Hb.
  rewrite (truthy_nonempty tok Hne). simpl. now rewrite Hf.
Qed.

Lemma authenticateUser_matching (header tok : string) (u : User) (st : Store) :
  bearer_token (Some header) = Some tok -> tok <> "" ->
  In u (users st) -> accessToken u = tok ->
  exists user,
    In user (users st) /\ accessToken user = tok
    /\ authenticateUser (Some header) st = inr user.
Proof.
  intros Hb Hne Hin Htok.
  destruct (findOne_accessToken tok st) as [user|] eqn:Hf.
  - pose proof Hf as Hf'. unfold findOne_accessToken in Hf'.
    apply find_some in Hf'. destruct Hf' as [Hin' He].
    apply String.eqb_eq in He.
    exists user. repeat split; auto.
    now apply authenticateUser_found with tok.
  - unfold findOne_accessToken in Hf.
    pose proof (find_none _ _ Hf u Hin) as Hc. simpl in Hc.
    apply String.eqb_neq in Hc. contradiction.
Qed.

(** C2. On a protected route: without an Authorization header the
    middleware answers 401 "Unauthorized: No access token provided." and
    the handler does not run, whatever it is; with a token that no user
    record carries it answers 401 "Unauthorized: Access token invalid or
    missing."; with a token some user record carries, a user carrying
    exactly that token is attached and the next stage runs with it. *)
Theorem authenticateUser_contract
    (handler : User -> Store -> Outcome * Store) (st : Store) :
  (authenticateUser None st
   = inl (mkResponse 401 false PNull "Unauthorized: No access token provided.")
   /\ protected handler None st
      = (Reply (mkResponse 401 false PNull
                  "Unauthorized: No access token provided."), st))
  /\ (forall header tok,
        bearer_token (Some header) = Some tok -> tok <> "" ->
        (forall u, In u (users st) -> accessToken u <> tok) ->
        authenticateUser (Some header) st
        = inl (mkResponse 401 false PNull
                 "Unauthorized: Access token invalid or missing.")
        /\ protected handler (Some header) st
           = (Reply (mkResponse 401 false PNull
                       "Unauthorized: Access token invalid or missing."), st))
  /\ (forall header tok u,
        bearer_token (Some header) = Some tok -> tok <> "" ->
        In u (users st) -> accessToken u = tok ->
        exists user,
          In user (users st) /\ accessToken user = tok
          /\ authenticateUser (Some header) st = inr user
          /\ protected handler (Some header) st = handler user st).
Proof.
  split; [split; reflexivity|]. split.
  - intros header tok Hb Hne Hno.
    assert (Ha : authenticateUser (Some header) st
                 = inl (mkResponse 401 false PNull
                          "Unauthorized: Access token invalid or missing.")).
    { unfold authenticateUser. rewrite Hb, (truthy_nonempty tok Hne). simpl.
      unfold findOne_accessToken. rewrite find_absent; [reflexivity|].
      intros x Hin. apply String.eqb_neq. now apply Hno. }
    split; [exact Ha|]. unfold protected. now rewrite Ha.
  - intros header tok u Hb Hne Hin Htok.
    destruct (authenticateUser_matching header tok u st Hb Hne Hin Htok)
      as (user & Hin' & Htok' & Ha).
    exists user. repeat split; auto.
    unfold protected. now rewrite Ha.
Qed.

Lemma authenticateUser_contract_witness :
  authenticateUser (Some "Bearer deadbeef") Sample.store
  = inl (mkResponse 401 false PNull
           "Unauthorized: Access token invalid or missing.")
  /\ exists user,
       accessToken user = "c0ffee"
       /\ authenticateUser (Some "Bearer c0ffee") Sample.store = inr user.
Proof.
  destruct (authenticateUser_contract (fun _ st => (Uncaught, st)) Sample.store)
    as [_ [Hbad Hgood]].
  split.
  - apply (Hbad "Bearer deadbeef" "deadbeef").
    + reflexivity.
    + discriminate.
    + simpl. intros u [<-|[<-|[]]]; discriminate.
  - destruct (Hgood "Bearer c0ffee" "c0ffee" Sample.alice)
      as [user [_ [Htok [Ha _]]]].
    + reflexivity.
    + discriminate.
    + simpl. auto.
    + reflexivity.
    + exists user. split; assumption.
Defined.

(** C10, as stated, fails: a header that does not begin with "Bearer " but
    contains it further on loses that occurrence, so the token looked up
    is not the header value.  Here the header "c0fBearer fee" signs in
    the user whose token is "c0ffee". *)
Lemma header_not_used_whole :
  prefix "Bearer " "c0fBearer fee" = false
  /\ bearer_token (Some "c0fBearer fee") = Some "c0ffee"
  /\ authenticateUser (Some "c0fBearer fee") Sample.store = inr Sample.alice
  /\ accessToken Sample.alice <> "c0fBearer fee"
  /\ ~ (forall header,
          prefix "Bearer " header = false ->
          bearer_token (Some header) = Some header).
Proof.
  repeat split; try reflexivity.
  - discriminate.
  - intros H. specialize (H "c0fBearer fee" eq_refl). discriminate H.
Qed.

(** C10, amended. When the Authorization header does not contain
    "Bearer " anywhere, the middleware uses the entire header value as the
    token: a bare access token that is some user's [accessToken]
    authenticates, and the handler runs with a user carrying it. *)
Theorem bare_token_authenticates
    (header : string) (u : User) (st : Store)
    (handler : User -> Store -> Outcome * Store) :
  JS.includes "Bearer " header = false ->
  header <> "" ->
  In u (users st) -> accessToken u = header ->
  bearer_token (Some header) = Some header
  /\ exists user,
       In user (users st) /\ accessToken user = header
       /\ authenticateUser (Some header) st = inr user
       /\ protected handler (Some header) st = handler user st.
Proof.
  intros Hinc Hne Hin Htok.
  assert (Hb : bearer_token (Some header) = Some header).
  { unfold bearer_token. simpl. now rewrite replace_absent. }
  split; [exact Hb|].
  destruct (authenticateUser_matching header header u st Hb Hne Hin Htok)
    as (user & Hin' & Htok' & Ha).
  exists user. repeat split; auto.
  unfold protected. now rewrite Ha.
Qed.

Lemma bare_token_authenticates_witness :
  exists user,
    accessToken user = "f00d"
    /\ authenticateUser (Some "f00d") Sample.store = inr user.
Proof.
  destruct (bare_token_authenticates "f00d" Sample.bob Sample.store
              (fun _ st => (Uncaught, st)))
    as (_ & user & _ & Htok & Ha & _).
  - reflexivity.
  - discriminate.
  - simpl. auto.
  - reflexivity.
  - exists user. split; assumption.
Defined.

(** ** Ownership *)

Lemma authenticateUser_401 (authorization : option string) (st : Store)
    (r : Response) :
  authenticateUser authorization st = inl r -> status r = 401.
Proof.
  unfold authenticateUser.
  destruct (negb (JS.truthy (bearer_token authorization))).
  - intros H. injection H as <-. reflexivity.
  - destruct (bearer_token authorization) as [tok|].
    + destruct (findOne_accessToken tok st).
      * intros H. discriminate H.
      * intros H. injection H as <-. reflexivity.
    + intros H. injection H as <-. reflexivity.
Qed.

(** Closes a goal whose hypothesis [H] equates a reply of known status
    with a reply [r] that [Hs] says has another status. *)
Ltac status_clash H Hs :=
  injection H as <- <-; simpl in Hs; discriminate Hs.

Section Ownership.
Variable castObjectId : string -> option string.

(** C1. Deleting a thought and editing its message answer 200 only to the
    thought's owner (and deleting does answer 200 to the owner, removing
    the thought); an authenticated caller who is not the owner gets 403
    and the store is unchanged; a caller without a valid token gets the
    middleware's 401, the store is unchanged and the handler, with its
    ownership check, does not run. *)
Theorem owner_only (id : string) (authorization : option string) (st : Store) :
  (forall r st',
      delete_thought castObjectId id authorization st = (Reply r, st') ->
      status r = 200 ->
      exists u t,
        authenticateUser authorization st = inr u
        /\ findById castObjectId id st = Ok (Some t)
        /\ userId t = user_id u)
  /\ (forall m unlike r st',
        patch_thought castObjectId id (mkPatchBody (Some m) unlike)
          authorization st = (Reply r, st') ->
        status r = 200 ->
        exists u t,
          authenticateUser authorization st = inr u
          /\ findById castObjectId id st = Ok (Some t)
          /\ userId t = user_id u)
  /\ (forall u t,
        authenticateUser authorization st = inr u ->
        findById castObjectId id st = Ok (Some t) ->
        userId t = user_id u ->
        exists o,
          castObjectId id = Some o
          /\ delete_thought castObjectId id authorization st
             = (Reply (mkResponse 200 true (PThought t)
                         "Thought was successfully deleted."),
                mkStore (users st) (remove_first o (thoughts st))))
  /\ (forall u t,
        authenticateUser authorization st = inr u ->
        findById castObjectId id st = Ok (Some t) ->
        userId t <> user_id u ->
        delete_thought castObjectId id authorization st
        = (Reply (mkResponse 403 false PNull
                    "You are not authorized to delete this thought."), st)
        /\ forall m unlike,
            patch_thought castObjectId id (mkPatchBody (Some m) unlike)
              authorization st
            = (Reply (mkResponse 403 false PNull
                        "You are not authorized to edit this thought's message."),
               st))
  /\ (forall r,
        authenticateUser authorization st = inl r ->
        status r = 401
        /\ (forall handler, protected handler authorization st = (Reply r, st))
        /\ delete_thought castObjectId id authorization st = (Reply r, st)
        /\ forall body,
            patch_thought castObjectId id body authorization st = (Reply r, st)).
Proof.
  repeat apply conj.
  - intros r st' H Hs. unfold delete_thought, protected in H.
    destruct (authenticateUser authorization st) as [r0|u] eqn:Ha.
    + apply authenticateUser_401 in Ha. injection H as <- <-.
      rewrite Ha in Hs. discriminate Hs.
    + destruct (findById castObjectId id st) as [[t|]|e] eqn:Hf.
      * destruct (userId t =? user_id u)%string eqn:He; cbn in H.
        -- apply String.eqb_eq in He. now exists u, t.
        -- status_clash H Hs.
      * status_clash H Hs.
      * status_clash H Hs.
  - intros m unlike r st' H Hs. unfold patch_thought, protected in H.
    destruct (authenticateUser authorization st) as [r0|u] eqn:Ha.
    + apply authenticateUser_401 in Ha. injection H as <- <-.
      rewrite Ha in Hs. discriminate Hs.
    + destruct (findById castObjectId id st) as [[t|]|e] eqn:Hf.
      * cbn in H.
        destruct (userId t =? user_id u)%string eqn:He; cbn in H.
        -- apply String.eqb_eq in He. now exists u, t.
        -- status_clash H Hs.
      * status_clash H Hs.
      * injection H as <- <-. destruct e; discriminate Hs.
  - intros u t Ha Hf Ho. unfold delete_thought, protected.
    rewrite Ha, Hf. apply String.eqb_eq in Ho. rewrite Ho. cbn.
    unfold findById in Hf. unfold findByIdAndDelete.
    destruct (castObjectId id) as [o|]; [|discriminate Hf].
    injection Hf as Hf. rewrite Hf. now exists o.
  - intros u t Ha Hf Ho. apply String.eqb_neq in Ho. split.
    + unfold delete_thought, protected. now rewrite Ha, Hf, Ho.
    + intros m unlike. unfold patch_thought, protected.
      rewrite Ha, Hf. cbn. now rewrite Ho.
  - intros r Ha. split; [now apply authenticateUser_401 in Ha|].
    split; [|split].
    + intros handler. unfold protected. now rewrite Ha.
    + unfold delete_thought, protected. now rewrite Ha.
    + intros body. unfold patch_thought, protected. now rewrite Ha.
Qed.

End Ownership.

Lemma owner_only_witness :
  delete_thought Sample.castObjectId "111111111111111111111111"
    (Some "Bearer f00d") Sample.store
  = (Reply (mkResponse 403 false PNull
              "You are not authorized to delete this thought."), Sample.store)
  /\ (exists o,
        Sample.castObjectId "111111111111111111111111" = Some o
        /\ delete_thought Sample.castObjectId "111111111111111111111111"
             (Some "Bearer c0ffee") Sample.store
           = (Reply (mkResponse 200 true (PThought Sample.hello)
                       "Thought was successfully deleted."),
              mkStore (users Sample.store)
                (remove_first o (thoughts Sample.store))))
  /\ delete_thought Sample.castObjectId "111111111111111111111111"
       (Some "Bearer") Sample.store
     = (Reply (mkResponse 401 false PNull
                 "Unauthorized: Access token invalid or missing."),
        Sample.store).
Proof.
  split; [|split].
  - apply (owner_only Sample.castObjectId "111111111111111111111111"
             (Some "Bearer f00d") Sample.store) with (u := Sample.bob)
                                                      (t := Sample.hello).
    + reflexivity.
    + reflexivity.
    + discriminate.
  - apply (owner_only Sample.castObjectId "111111111111111111111111"
             (Some "Bearer c0ffee") Sample.store) with (u := Sample.alice).
    + reflexivity.
    + reflexivity.
    + reflexivity.
  - apply (owner_only Sample.castObjectId "111111111111111111111111"
             (Some "Bearer") Sample.store).
    reflexivity.
Defined.

(** ** Heart counts *)

Lemma Forall_update_first (P : Thought -> Prop) (o : string)
    (f : Thought -> Thought) (l : list Thought) :
  (forall t, P t -> P (f t)) -> Forall P l -> Forall P (update_first o f l).
Proof.
  intros Hf. induction 1 as [|t l Ht Hl IH]; simpl; [constructor|].
  destruct (thought_id t =? o)%string; constructor; auto.
Qed.

Lemma Forall_remove_first (P : Thought -> Prop) (o : string) (l : list Thought) :
  Forall P l -> Forall P (remove_first o l).
Proof.
  induction 1 as [|t l Ht Hl IH]; simpl; [constructor|].
  destruct (thought_id t =? o)%string; [assumption | now constructor].
Qed.

Lemma with_hearts_same (t : Thought) (h : Z) :
  h = hearts t -> with_hearts t h = t.
Proof. intros ->. now destruct t. Qed.

Lemma cast_update_hearts (f : UpdateFields) (rv : bool) (up' : Update)
    (x : Thought) :
  cast_update (Set_fields f) rv = Ok up' ->
  hearts (apply_update up' x)
  = match set_hearts f with Some h => h | None => hearts x end.
Proof.
  unfold cast_update. destruct (set_message f) as [m|].
  - destruct (if rv then _ else _); intros H; [|discriminate H].
    now injection H as <-.
  - intros H. now injection H as <-.
Qed.

Lemma patch_fields_hearts (t : Thought) (body : PatchBody) (h : Z) :
  set_hearts (fst (patch_fields t body)) = Some h -> 0 <= h.
Proof.
  unfold patch_fields.
  destruct (truthy_json (body_unlike body)); simpl.
  - destruct (negb _); simpl; intros H; [|discriminate H].
    injection H as <-. lia.
  - intros H. discriminate H.
Qed.

Section Hearts.
Variable castObjectId : string -> option string.
Variable RegExp_i : string -> option (string -> bool).
Variable hashSync : string -> string -> string.
Variable compareSync : string -> string -> bool.

Lemma patch_like_found (id o : string) (t : Thought) (st : Store) :
  castObjectId id = Some o ->
  lookup o (thoughts st) = Some t ->
  patch_like castObjectId id st
  = (Reply (mkResponse 200 true (PThought (with_hearts t (hearts t + 1)))
              "Thought successfully liked."),
     mkStore (users st)
       (update_first o (apply_update (Inc_hearts 1)) (thoughts st))).
Proof.
  intros Hc Hl. unfold patch_like, findByIdAndUpdate.
  now rewrite Hc, Hl.
Qed.

Lemma patch_like_stored (id o : string) (t : Thought) (st : Store) :
  castObjectId id = Some o ->
  lookup o (thoughts st) = Some t ->
  lookup o (thoughts (snd (patch_like castObjectId id st)))
  = Some (with_hearts t (hearts t + 1)).
Proof.
  intros Hc Hl. rewrite (patch_like_found id o t st Hc Hl). simpl.
  apply (lookup_update_first o (apply_update (Inc_hearts 1))); [|assumption].
  intros x. apply apply_update_id.
Qed.

(** An unlike without a message, by any authenticated caller. *)
Lemma unlike_applied (id o : string) (t : Thought) (st : Store)
    (authorization : option string) (u : User) (unlike : option Json) :
  castObjectId id = Some o ->
  lookup o (thoughts st) = Some t ->
  authenticateUser authorization st = inr u ->
  truthy_json unlike = true ->
  let res := patch_thought castObjectId id (mkPatchBody None unlike)
               authorization st in
  (exists r,
      fst res = Reply r /\ status r = 200
      /\ response r = PThought (with_hearts t (Z.max 0 (hearts t - 1))))
  /\ lookup o (thoughts (snd res))
     = Some (with_hearts t (Z.max 0 (hearts t - 1)))
  /\ (hearts t = 0 -> snd res = st).
Proof.
  intros Hc Hl Ha Hu. unfold patch_thought, protected, findById.
  rewrite Ha, Hc, Hl. unfold patch_fields.
  cbn -[Z.max Z.eqb Z.sub]. rewrite Hu. cbn -[Z.max Z.eqb Z.sub].
  destruct (Z.max 0 (hearts t - 1) =? hearts t) eqn:E;
    cbn -[Z.max Z.eqb Z.sub].
  - apply Z.eqb_eq in E. rewrite (with_hearts_same t _ E).
    split; [eexists; repeat split|]. split; [assumption | reflexivity].
  - unfold findByIdAndUpdate. rewrite Hc, Hl. cbn -[Z.max Z.eqb Z.sub].
    split; [eexists; repeat split|]. split.
    + apply (lookup_update_first o
               (apply_update
                  (Set_fields (mkUpdateFields None
                                 (Some (Z.max 0 (hearts t - 1))))))
               (thoughts st) t); [|assumption].
      intros x. apply apply_update_id.
    + intros H0. rewrite H0 in E. discriminate E.
Qed.

Lemma handle_nonneg (r : Request) (st : Store) :
  nonneg_hearts st ->
  nonneg_hearts
    (snd (handle castObjectId RegExp_i hashSync compareSync r st)).
Proof.
  unfold nonneg_hearts. intros H.
  destruct r as [|body salt new_id new_token|a|mail pw|q|id|a msg new_id now
                 |a id|id|a id body]; simpl.
  - assumption.
  - unfold post_users. destruct (body_password body); [|assumption].
    destruct (required (body_name body)); [|assumption].
    destruct (required (body_email body)); [|assumption].
    destruct (required _); [|assumption].
    destruct (existsb _ _); assumption.
  - unfold get_secrets, protected. now destruct (authenticateUser a st).
  - unfold post_sessions. destruct (findOne_email mail st); [|assumption].
    now destruct (compareSync pw _).
  - assumption.
  - unfold get_thought. now destruct (findById castObjectId id st) as [[t|]|e].
  - unfold post_thoughts, protected.
    destruct (authenticateUser a st) as [r|u]; [assumption|].
    destruct (validate_message msg); [|assumption].
    destruct (required _); [|assumption]. simpl.
    apply Forall_app. split; [assumption|]. constructor; [simpl; lia|constructor].
  - unfold delete_thought, protected.
    destruct (authenticateUser a st) as [r|u]; [assumption|].
    destruct (findById castObjectId id st) as [[t|]|e]; try assumption.
    destruct (negb _); [assumption|]. unfold findByIdAndDelete.
    destruct (castObjectId id); [|assumption]. simpl.
    now apply Forall_remove_first.
  - unfold patch_like, findByIdAndUpdate.
    destruct (castObjectId id) as [o|]; [|assumption]. cbn.
    assert (Hu : Forall (fun t => 0 <= hearts t)
                   (update_first o (apply_update (Inc_hearts 1)) (thoughts st))).
    { apply Forall_update_first; [|assumption]. intros t Ht. simpl. lia. }
    now destruct (lookup o (thoughts st)).
  - unfold patch_thought, protected.
    destruct (authenticateUser a st) as [r|u]; [assumption|].
    destruct (findById castObjectId id st) as [[t|]|e]; try assumption.
    destruct (match body_message body with Some _ => _ | None => false end);
      [assumption|].
    destruct (patch_fields t body) as [f perform] eqn:Hpf.
    destruct (negb perform); [assumption|].
    unfold findByIdAndUpdate.
    destruct (castObjectId id) as [o|]; [|assumption].
    destruct (cast_update (Set_fields f) true) as [up'|e] eqn:Hup; [|assumption].
    assert (Hu : Forall (fun t => 0 <= hearts t)
                   (update_first o (apply_update up') (thoughts st))).
    { apply Forall_update_first; [|assumption]. intros x Hx.
      rewrite (cast_update_hearts _ _ _ x Hup).
      pose proof (patch_fields_hearts t body) as Hh. rewrite Hpf in Hh.
      simpl in Hh. destruct (set_hearts f); [now apply Hh | assumption]. }
    now destruct (lookup o (thoughts st)).
Qed.

(** C3. A like answers with the heart count raised by exactly 1 and
    stores it, so two likes raise it by exactly 2; an unlike stores
    [max(0, hearts - 1)], which at 0 leaves the store as it is; and no
    request makes a heart count negative. *)
Theorem hearts_never_negative :
  (forall id o t st,
      castObjectId id = Some o ->
      lookup o (thoughts st) = Some t ->
      let once := patch_like castObjectId id st in
      let twice := patch_like castObjectId id (snd once) in
      fst once
      = Reply (mkResponse 200 true (PThought (with_hearts t (hearts t + 1)))
                 "Thought successfully liked.")
      /\ lookup o (thoughts (snd once)) = Some (with_hearts t (hearts t + 1))
      /\ fst twice
         = Reply (mkResponse 200 true (PThought (with_hearts t (hearts t + 2)))
                    "Thought successfully liked.")
      /\ lookup o (thoughts (snd twice)) = Some (with_hearts t (hearts t + 2)))
  /\ (forall id o t st authorization u unlike,
        castObjectId id = Some o ->
        lookup o (thoughts st) = Some t ->
        authenticateUser authorization st = inr u ->
        truthy_json unlike = true ->
        let res := patch_thought castObjectId id (mkPatchBody None unlike)
                     authorization st in
        (exists r,
            fst res = Reply r /\ status r = 200
            /\ response r = PThought (with_hearts t (Z.max 0 (hearts t - 1))))
        /\ lookup o (thoughts (snd res))
           = Some (with_hearts t (Z.max 0 (hearts t - 1)))
        /\ (hearts t = 0 -> snd res = st))
  /\ (forall r st,
        nonneg_hearts st ->
        nonneg_hearts
          (snd (handle castObjectId RegExp_i hashSync compareSync r st))).
Proof.
  split; [|split].
  - intros id o t st Hc Hl once twice.
    pose proof (patch_like_stored id o t st Hc Hl) as Hl1.
    fold once in Hl1.
    assert (E : with_hearts (with_hearts t (hearts t + 1))
                  (hearts (with_hearts t (hearts t + 1)) + 1)
                = with_hearts t (hearts t + 2)).
    { unfold with_hearts. simpl. f_equal. lia. }
    split; [|split; [|split]].
    + unfold once. now rewrite (patch_like_found id o t st Hc Hl).
    + exact Hl1.
    + unfold twice. rewrite (patch_like_found id o _ _ Hc Hl1). cbn [fst].
      now rewrite E.
    + unfold twice. rewrite (patch_like_stored id o _ _ Hc Hl1).
      now rewrite E.
  - intros. now apply unlike_applied with u.
  - apply handle_nonneg.
Qed.

End Hearts.

Lemma hearts_never_negative_witness :
  fst (patch_like Sample.castObjectId "222222222222222222222222" Sample.store)
  = Reply (mkResponse 200 true
             (PThought (with_hearts Sample.happy (hearts Sample.happy + 1)))
             "Thought successfully liked.")
  /\ snd (patch_thought Sample.castObjectId "222222222222222222222222"
            (mkPatchBody None (Some (JBool true))) (Some "Bearer c0ffee")
            Sample.store)
     = Sample.store
  /\ nonneg_hearts
       (snd (handle Sample.castObjectId Sample.RegExp_i Sample.hashSync
               Sample.compareSync
               (PATCH_thought (Some "Bearer c0ffee") "111111111111111111111111"
                  (mkPatchBody None (Some (JNum 1))))
               Sample.store)).
Proof.
  destruct (hearts_never_negative Sample.castObjectId Sample.RegExp_i
              Sample.hashSync Sample.compareSync) as (Hlike & Hunlike & Hinv).
  split; [|split].
  - destruct (Hlike "222222222222222222222222" "222222222222222222222222"
                Sample.happy Sample.store eq_refl eq_refl) as (H & _).
    exact H.
  - destruct (Hunlike "222222222222222222222222" "222222222222222222222222"
                Sample.happy Sample.store (Some "Bearer c0ffee") Sample.alice
                (Some (JBool true)) eq_refl eq_refl eq_refl eq_refl)
      as (_ & _ & H).
    exact (H eq_refl).
  - apply Hinv. unfold nonneg_hearts. simpl.
    repeat constructor; simpl; lia.
Defined.

(** ** Listing thoughts *)

Lemma Forall_insert {A} (P : A -> Prop) (cmp : A -> A -> Z) (x : A) (l : list A) :
  P x -> Forall P l -> Forall P (JS.insert cmp x l).
Proof.
  intros Hx. induction 1 as [|y l Hy Hl IH]; simpl.
  - now repeat constructor.
  - destruct (cmp x y <? 0); repeat constructor; auto.
Qed.

Lemma Forall_sort {A} (P : A -> Prop) (cmp : A -> A -> Z) (l : list A) :
  Forall P l -> Forall P (JS.sort cmp l).
Proof.
  unfold JS.sort. generalize (@nil A) (Forall_nil P).
  induction l as [|x l IH]; intros acc Hacc Hl; simpl; [assumption|].
  inversion Hl; subst. apply IH; [|assumption]. now apply Forall_insert.
Qed.

Lemma Forall_mongo_sort (P : Thought -> Prop) (so : SortOptions) (l : list Thought) :
  Forall P l -> Forall P (mongo_sort so l).
Proof.
  intros H. destruct so as [|dir|dir]; simpl; [assumption| |];
    destruct (dir <? 0); now apply Forall_sort.
Qed.

Lemma Forall_skipn' {A} (P : A -> Prop) (n : nat) (l : list A) :
  Forall P l -> Forall P (skipn n l).
Proof.
  revert l. induction n as [|n IH]; intros l H; [assumption|].
  destruct l as [|x l]; [constructor|]. inversion H; subst. now apply IH.
Qed.

Lemma Forall_firstn' {A} (P : A -> Prop) (n : nat) (l : list A) :
  Forall P l -> Forall P (firstn n l).
Proof.
  revert l. induction n as [|n IH]; intros l H; [constructor|].
  destruct l as [|x l]; [constructor|]. inversion H; subst.
  constructor; auto.
Qed.

Lemma Forall_mongo_limit (P : Thought -> Prop) (n : Z) (l : list Thought) :
  Forall P l -> Forall P (mongo_limit n l).
Proof.
  intros H. unfold mongo_limit. destruct (n =? 0); [assumption|].
  now apply Forall_firstn'.
Qed.

Lemma Forall_slice {A} (P : A -> Prop) (i j : Z) (l : list A) :
  Forall P l -> Forall P (JS.slice i j l).
Proof.
  intros H. unfold JS.slice. now apply Forall_firstn', Forall_skipn'.
Qed.

Lemma Forall_filter {A} (f : A -> bool) (l : list A) :
  Forall (fun x => f x = true) (filter f l).
Proof.
  apply Forall_forall. intros x Hx. now apply filter_In in Hx.
Qed.

Lemma Forall_filter_keep {A} (P : A -> Prop) (f : A -> bool) (l : list A) :
  Forall P l -> Forall P (filter f l).
Proof.
  rewrite !Forall_forall. intros H x Hx. apply filter_In in Hx. now apply H.
Qed.

Lemma length_sort_insert {A} (cmp : A -> A -> Z) (x : A) (l : list A) :
  List.length (JS.insert cmp x l) = S (List.length l).
Proof.
  induction l as [|y l IH]; simpl; [reflexivity|].
  destruct (cmp x y <? 0); simpl; now rewrite ?IH.
Qed.

Section Listing.
Variable castObjectId : string -> option string.
Variable RegExp_i : string -> option (string -> bool).



(** What a 200 answer of [GET /thoughts] was built from. *)
Lemma get_thoughts_200 (q : ThoughtsQuery) (st : Store) (r : Response) :
  get_thoughts castObjectId RegExp_i q st = Reply r ->
  status r = 200 ->
  exists minHearts regex so all,
    hearts_stage q = Continue minHearts
    /\ message_stage RegExp_i q = Continue regex
    /\ sort_stage q = Continue so
    /\ select castObjectId (mkQuery (id_filter q) minHearts regex) st = Ok all
    /\ 0 <= (pageNum q - 1) * limitNum q
    /\ r = let thoughts :=
               mongo_limit (limitNum q)
                 (skipn (Z.to_nat ((pageNum q - 1) * limitNum q))
                    (mongo_sort so all)) in
           mkResponse 200 true
             (PPage (Z.of_nat (List.length all)) (pageNum q)
                (Z.of_nat (List.length thoughts)) thoughts)
             "Thoughts retrieved successfully.".
Proof.
  intros H Hs. unfold get_thoughts in H.
  destruct (hearts_stage q) as [minHearts|o] eqn:Hh.
  2:{ unfold hearts_stage in Hh. destruct (JS.truthy (q_hearts q)); [|discriminate Hh].
      destruct (JS.parseInt (q_hearts q)); [discriminate Hh|].
      injection Hh as <-. cbn in H. injection H as <-. discriminate Hs. }
  destruct (message_stage RegExp_i q) as [regex|o] eqn:Hm.
  2:{ unfold message_stage in Hm. destruct (q_message q) as [m|]; [|discriminate Hm].
      destruct (JS.truthy (Some m)); [|discriminate Hm].
      destruct (RegExp_i m); [discriminate Hm|].
      injection Hm as <-. cbn in H. discriminate H. }
  destruct (sort_stage q) as [so|o] eqn:Hso.
  2:{ unfold sort_stage in Hso. destruct (q_sort q) as [sort|]; [|discriminate Hso].
      destruct (JS.truthy (Some sort)); [|discriminate Hso].
      repeat match type of Hso with
             | (if ?b then _ else _) = _ => destruct b; [discriminate Hso|]
             end.
      injection Hso as <-. cbn in H. injection H as <-. discriminate Hs. }
  cbn in H.
  exists minHearts, regex, so.
  unfold run_query, countDocuments, find_sort_skip_limit in H.
  destruct (select castObjectId (mkQuery (id_filter q) minHearts regex) st)
    as [all|e] eqn:Hsel.
  2:{ injection H as <-. discriminate Hs. }
  exists all.
  destruct ((pageNum q - 1) * limitNum q <? 0) eqn:E.
  { injection H as <-. discriminate Hs. }
  apply Z.ltb_ge in E. injection H as <-. repeat split; auto.
Qed.

Lemma select_hearts (query : Query) (st : Store) (all : list Thought) (m : Z) :
  select castObjectId query st = Ok all ->
  query_hearts_gte query = Some m ->
  Forall (fun t => m <= hearts t) all.
Proof.
  intros Hsel Hm. unfold select in Hsel.
  assert (Hf : forall oid,
             Forall (fun t => m <= hearts t)
               (filter (matches oid query) (thoughts st))).
  { intros oid. eapply Forall_impl; [|apply Forall_filter].
    intros t Ht. unfold matches in Ht. rewrite Hm in Ht.
    apply andb_prop in Ht. destruct Ht as [Ht _].
    apply andb_prop in Ht. destruct Ht as [_ Ht]. now apply Z.leb_le. }
  destruct (query_id query) as [id|].
  - destruct (castObjectId id); [|discriminate Hsel]. injection Hsel as <-. apply Hf.
  - injection Hsel as <-. apply Hf.
Qed.

End Listing.

(** *** The [hearts] filter *)

(** C4, as stated, fails: [parseInt] reads the leading digits and drops the
    rest, accepts a sign, and an empty value is never parsed.  None of
    "12abc", "-1" and "" is a non-negative integer, and each is answered
    with 200. *)
Lemma hearts_not_numeric_accepted :
  numeric "12abc" = false
  /\ get_thoughts Sample.castObjectId Sample.RegExp_i
       (Sample.query (Some "12abc") None None None None) Sample.store
     = Reply (mkResponse 200 true (PPage 0 1 0 [])
                "Thoughts retrieved successfully.")
  /\ numeric "-1" = false
  /\ get_thoughts Sample.castObjectId Sample.RegExp_i
       (Sample.query (Some "-1") None None None None) Sample.store
     = Reply (mkResponse 200 true
                (PPage 3 1 3 [Sample.hello; Sample.happy; Sample.coffee])
                "Thoughts retrieved successfully.")
  /\ numeric "" = false
  /\ get_thoughts Sample.castObjectId Sample.RegExp_i
       (Sample.query (Some "") None None None None) Sample.store
     = Reply (mkResponse 200 true
                (PPage 3 1 3 [Sample.hello; Sample.happy; Sample.coffee])
                "Thoughts retrieved successfully.")
  /\ ~ (forall q st s,
          q_hearts q = Some s -> numeric s = false ->
          get_thoughts Sample.castObjectId Sample.RegExp_i q st
          = Reply (mkResponse 400 false PNull
                     "Invalid 'hearts' parameter. Must be a number.")).
Proof.
  repeat split; try reflexivity.
  intros H.
  specialize (H (Sample.query (Some "12abc") None None None None) Sample.store
                "12abc" eq_refl eq_refl).
  discriminate H.
Qed.

Lemma in_memory_page (toLowerCase : string -> string) (data : list Thought) (q : ThoughtsQuery)
    (total page count : Z) (l : list Thought) :
  InMemory.get_thoughts toLowerCase data q = InMemory.Page total page count l ->
  exists kept sorted,
    InMemory.filter_hearts q data = inr kept
    /\ InMemory.sort_thoughts q (InMemory.filter_message toLowerCase q kept) = inr sorted
    /\ total = Z.of_nat (List.length sorted)
    /\ page = pageNum q
    /\ l = JS.slice ((pageNum q - 1) * limitNum q) (pageNum q * limitNum q) sorted
    /\ count = Z.of_nat (List.length l).
Proof.
  unfold InMemory.get_thoughts. intros H.
  destruct (InMemory.filter_hearts q data) as [e|kept] eqn:Hk.
  { unfold InMemory.filter_hearts in Hk.
    destruct (JS.truthy (q_hearts q)); [|discriminate Hk].
    destruct (JS.parseInt (q_hearts q)); [discriminate Hk|].
    injection Hk as <-. discriminate H. }
  destruct (InMemory.sort_thoughts q (InMemory.filter_message toLowerCase q kept))
    as [e|sorted] eqn:Hs.
  { unfold InMemory.sort_thoughts in Hs.
    destruct (q_sort q) as [sort|]; [|discriminate Hs].
    destruct (JS.truthy (Some sort)); [|discriminate Hs].
    destruct (sort =? "createdAt")%string; [discriminate Hs|].
    destruct (sort =? "hearts")%string; [discriminate Hs|].
    injection Hs as <-. discriminate H. }
  exists kept, sorted. unfold InMemory.paginate in H.
  injection H as <- <- <- <-. repeat split. exact Hs.
Qed.

Lemma in_memory_sorted_keeps (P : Thought -> Prop) (q : ThoughtsQuery)
    (l sorted : list Thought) :
  InMemory.sort_thoughts q l = inr sorted -> Forall P l -> Forall P sorted.
Proof.
  unfold InMemory.sort_thoughts. intros H Hl.
  destruct (q_sort q) as [sort|].
  - destruct (JS.truthy (Some sort)).
    + destruct (sort =? "createdAt")%string.
      * injection H as <-. now apply Forall_sort.
      * destruct (sort =? "hearts")%string; [|discriminate H].
        injection H as <-. now apply Forall_sort.
    + now injection H as <-.
  - now injection H as <-.
Qed.

Lemma in_memory_message_keeps (toLowerCase : string -> string)
    (P : Thought -> Prop) (q : ThoughtsQuery)
    (l : list Thought) :
  Forall P l -> Forall P (InMemory.filter_message toLowerCase q l).
Proof.
  unfold InMemory.filter_message. intros H.
  destruct (q_message q); [|assumption].
  destruct (JS.truthy _); [now apply Forall_filter_keep | assumption].
Qed.

Lemma in_memory_hearts (toLowerCase : string -> string) (data : list Thought) (q : ThoughtsQuery) (m : Z)
    (total page count : Z) (l : list Thought) :
  JS.truthy (q_hearts q) = true ->
  JS.parseInt (q_hearts q) = Some m ->
  InMemory.get_thoughts toLowerCase data q = InMemory.Page total page count l ->
  Forall (fun t => m <= hearts t) l.
Proof.
  intros Ht Hp H.
  destruct (in_memory_page toLowerCase data q total page count l H)
    as (kept & sorted & Hk & Hs & _ & _ & -> & _).
  unfold InMemory.filter_hearts in Hk. rewrite Ht, Hp in Hk.
  injection Hk as <-.
  apply Forall_slice.
  apply (in_memory_sorted_keeps _ q _ sorted Hs).
  apply in_memory_message_keeps.
  eapply Forall_impl; [|apply Forall_filter]. intros t. apply Z.leb_le.
Qed.

(** C4, amended. When [hearts] is present and not empty it is read with
    [parseInt(hearts, 10)] (leading whitespace and a sign are accepted,
    what follows the leading digits is dropped).  If that is a number [m],
    negative or not, every thought of a 200 answer has at least [m]
    hearts; if it is [NaN] the answer is 400 with "Invalid 'hearts'
    parameter. Must be a number." and nothing else.  The in-memory server
    decides the same way and answers the [NaN] case with the error
    "Invalid hearts parameter. Must be a number". *)
Theorem hearts_filter
    (castObjectId : string -> option string)
    (RegExp_i : string -> option (string -> bool))
    (toLowerCase : string -> string)
    (q : ThoughtsQuery) (st : Store) (data : list Thought) :
  JS.truthy (q_hearts q) = true ->
  (JS.parseInt (q_hearts q) = None ->
   get_thoughts castObjectId RegExp_i q st
   = Reply (mkResponse 400 false PNull
              "Invalid 'hearts' parameter. Must be a number.")
   /\ InMemory.get_thoughts toLowerCase data q
      = InMemory.Error400 "Invalid hearts parameter. Must be a number")
  /\ (forall m,
        JS.parseInt (q_hearts q) = Some m ->
        (forall total page count l msg,
            get_thoughts castObjectId RegExp_i q st
            = Reply (mkResponse 200 true (PPage total page count l) msg) ->
            Forall (fun t => m <= hearts t) l)
        /\ (forall total page count l,
              InMemory.get_thoughts toLowerCase data q = InMemory.Page total page count l ->
              Forall (fun t => m <= hearts t) l)).
Proof.
  intros Ht. split.
  - intros Hp. split.
    + unfold get_thoughts, hearts_stage. now rewrite Ht, Hp.
    + unfold InMemory.get_thoughts, InMemory.filter_hearts. now rewrite Ht, Hp.
  - intros m Hp. split.
    + intros total page count l msg H.
      destruct (get_thoughts_200 castObjectId RegExp_i q st _ H eq_refl)
        as (minHearts & regex & so & all & Hh & _ & _ & Hsel & _ & Hr).
      unfold hearts_stage in Hh. rewrite Ht, Hp in Hh. injection Hh as <-.
      cbv zeta in Hr. injection Hr as _ _ _ ->.
      apply Forall_mongo_limit, Forall_skipn', Forall_mongo_sort.
      now apply (select_hearts castObjectId _ st all m Hsel).
    + intros total page count l. now apply in_memory_hearts.
Qed.

Lemma hearts_filter_witness :
  (forall total page count l msg,
      get_thoughts Sample.castObjectId Sample.RegExp_i
        (Sample.query (Some "3 or more") None None None None) Sample.store
      = Reply (mkResponse 200 true (PPage total page count l) msg) ->
      Forall (fun t => 3 <= hearts t) l)
  /\ get_thoughts Sample.castObjectId Sample.RegExp_i
       (Sample.query (Some "many") None None None None) Sample.store
     = Reply (mkResponse 400 false PNull
                "Invalid 'hearts' parameter. Must be a number.").
Proof.
  split.
  - destruct (hearts_filter Sample.castObjectId Sample.RegExp_i
                Sample.toLowerCase
                (Sample.query (Some "3 or more") None None None None)
                Sample.store [] eq_refl) as [_ H].
    destruct (H 3 eq_refl) as [H3 _]. exact H3.
  - destruct (hearts_filter Sample.castObjectId Sample.RegExp_i
                Sample.toLowerCase
                (Sample.query (Some "many") None None None None)
                Sample.store [] eq_refl) as [H _].
    destruct (H eq_refl) as [H400 _]. exact H400.
Defined.

(** *** The [sort] parameter *)

(** C5, as stated, fails: [sort] is only looked at when it is truthy, so
    the present but empty value, which is none of the four, is answered
    with 200; and [server.js] answers 400 to "createdAt_desc". *)
Lemma empty_sort_accepted :
  known_sort "" = false
  /\ get_thoughts Sample.castObjectId Sample.RegExp_i
       (Sample.query None None None None (Some "")) Sample.store
     = Reply (mkResponse 200 true
                (PPage 3 1 3 [Sample.hello; Sample.happy; Sample.coffee])
                "Thoughts retrieved successfully.")
  /\ known_sort "createdAt_desc" = true
  /\ ServerJs.get_thoughts Sample.castObjectId Sample.RegExp_i
       (Sample.query None None None None (Some "createdAt_desc")) Sample.store
     = Reply (mkResponse 400 false PNull
                "Invalid 'sort' parameter. Valid options are 'createdAt' or 'hearts'.")
  /\ ~ (forall q st s,
          q_sort q = Some s -> known_sort s = false ->
          exists r,
            get_thoughts Sample.castObjectId Sample.RegExp_i q st = Reply r
            /\ status r = 400).
Proof.
  repeat split; try reflexivity.
  intros H.
  destruct (H (Sample.query None None None None (Some "")) Sample.store
              "" eq_refl eq_refl) as [r [Hr Hs]].
  injection Hr as <-. discriminate Hs.
Qed.

Lemma known_sort_false (s : string) :
  known_sort s = false ->
  (s =? "createdAt")%string = false
  /\ (s =? "createdAt_desc")%string = false
  /\ (s =? "createdAt_asc")%string = false
  /\ (s =? "hearts")%string = false.
Proof.
  unfold known_sort. intros H.
  apply orb_false_elim in H. destruct H as [H H4].
  apply orb_false_elim in H. destruct H as [H H3].
  apply orb_false_elim in H. destruct H as [H1 H2]. auto.
Qed.

(** C5, amended. For a [sort] value that is present and not empty: the
    authenticated server accepts exactly [createdAt], [createdAt_desc]
    (both newest first), [createdAt_asc] and [hearts]; any other value
    stops the request at the sort stage with 400 "Invalid 'sort'
    parameter. Valid options are 'createdAt_desc', 'createdAt_asc', or
    'hearts'.", which is the answer whenever the [hearts] and [message]
    stages pass, and in no case is there an answer other than a 400
    without results.  [server.js] and the in-memory server accept exactly
    [createdAt] and [hearts] and answer 400 to every other value. *)
Theorem sort_values
    (castObjectId : string -> option string)
    (RegExp_i : string -> option (string -> bool))
    (q : ThoughtsQuery) (st : Store) (s : string) :
  q_sort q = Some s -> s <> "" ->
  (known_sort s = true ->
   sort_stage q
   = Continue (if (s =? "createdAt_asc")%string then ByCreatedAt 1
               else if (s =? "hearts")%string then ByHearts (-1)
               else ByCreatedAt (-1)))
  /\ (known_sort s = false ->
      sort_stage q
      = Stop (Reply (mkResponse 400 false PNull
                       "Invalid 'sort' parameter. Valid options are 'createdAt_desc', 'createdAt_asc', or 'hearts'."))
      /\ (forall minHearts regex,
             hearts_stage q = Continue minHearts ->
             message_stage RegExp_i q = Continue regex ->
             get_thoughts castObjectId RegExp_i q st
             = Reply (mkResponse 400 false PNull
                        "Invalid 'sort' parameter. Valid options are 'createdAt_desc', 'createdAt_asc', or 'hearts'."))
      /\ (forall r,
             get_thoughts castObjectId RegExp_i q st = Reply r ->
             status r = 400 /\ response r = PNull))
  /\ ((s = "createdAt" \/ s = "hearts") ->
      ServerJs.sort_stage q
      = Continue (if (s =? "hearts")%string then ByHearts (-1)
                  else ByCreatedAt (-1))
      /\ forall l, exists sorted, InMemory.sort_thoughts q l = inr sorted)
  /\ (s <> "createdAt" -> s <> "hearts" ->
      ServerJs.sort_stage q
      = Stop (Reply (mkResponse 400 false PNull
                       "Invalid 'sort' parameter. Valid options are 'createdAt' or 'hearts'."))
      /\ forall l,
          InMemory.sort_thoughts q l
          = inl (InMemory.Error400
                   "Invalid 'sort' parameter. Valid options are 'createdAt' or 'hearts'.")).
Proof.
  intros Hq Hne.
  assert (Ht : JS.truthy (q_sort q) = true).
  { rewrite Hq. now apply truthy_nonempty. }
  repeat apply conj.
  - intros Hk. unfold sort_stage. rewrite Hq. rewrite <- Hq, Ht.
    unfold known_sort in Hk.
    destruct (s =? "createdAt_desc")%string eqn:E1.
    { apply String.eqb_eq in E1. now subst s. }
    destruct (s =? "createdAt")%string eqn:E2.
    { apply String.eqb_eq in E2. now subst s. }
    destruct (s =? "createdAt_asc")%string eqn:E3; [reflexivity|].
    destruct (s =? "hearts")%string eqn:E4; [reflexivity|discriminate Hk].
  - intros Hk. apply known_sort_false in Hk. destruct Hk as (E1 & E2 & E3 & E4).
    assert (Hstop :
              sort_stage q
              = Stop (Reply (mkResponse 400 false PNull
                               "Invalid 'sort' parameter. Valid options are 'createdAt_desc', 'createdAt_asc', or 'hearts'."))).
    { unfold sort_stage. rewrite Hq. rewrite <- Hq, Ht.
      now rewrite E1, E2, E3, E4. }
    split; [exact Hstop|]. split.
    + intros minHearts regex Hh Hm. unfold get_thoughts.
      now rewrite Hh, Hm, Hstop.
    + intros r H. unfold get_thoughts in H.
      destruct (hearts_stage q) as [minHearts|o] eqn:Hh.
      * destruct (message_stage RegExp_i q) as [regex|o] eqn:Hm.
        -- rewrite Hstop in H. cbn in H. now injection H as <-.
        -- unfold message_stage in Hm.
           destruct (q_message q) as [m|]; [|discriminate Hm].
           destruct (JS.truthy (Some m)); [|discriminate Hm].
           destruct (RegExp_i m); [discriminate Hm|].
           injection Hm as <-. discriminate H.
      * unfold hearts_stage in Hh.
        destruct (JS.truthy (q_hearts q)); [|discriminate Hh].
        destruct (JS.parseInt (q_hearts q)); [discriminate Hh|].
        injection Hh as <-. cbn in H. now injection H as <-.
  - intros [-> | ->].
    + split.
      * unfold ServerJs.sort_stage. now rewrite Hq.
      * intros l. unfold InMemory.sort_thoughts. rewrite Hq. eexists. reflexivity.
    + split.
      * unfold ServerJs.sort_stage. now rewrite Hq.
      * intros l. unfold InMemory.sort_thoughts. rewrite Hq. eexists. reflexivity.
  - intros H1 H2.
    apply String.eqb_neq in H1. apply String.eqb_neq in H2. split.
    + unfold ServerJs.sort_stage. rewrite Hq. rewrite <- Hq, Ht.
      now rewrite H1, H2.
    + intros l. unfold InMemory.sort_thoughts. rewrite Hq. rewrite <- Hq, Ht.
      now rewrite H1, H2.
Qed.

Lemma sort_values_witness :
  get_thoughts Sample.castObjectId Sample.RegExp_i
    (Sample.query (Some "1") (Some "e") None None (Some "newest")) Sample.store
  = Reply (mkResponse 400 false PNull
             "Invalid 'sort' parameter. Valid options are 'createdAt_desc', 'createdAt_asc', or 'hearts'.")
  /\ sort_stage (Sample.query None None None None (Some "createdAt_asc"))
     = Continue (ByCreatedAt 1).
Proof.
  split.
  - destruct (sort_values Sample.castObjectId Sample.RegExp_i
                (Sample.query (Some "1") (Some "e") None None (Some "newest"))
                Sample.store "newest" eq_refl) as (_ & H & _).
    + discriminate.
    + destruct (H eq_refl) as (_ & Hreply & _).
      apply (Hreply (Some 1)
               (Some (fun s => JS.includes (JS.toLowerCase "e") (JS.toLowerCase s))));
        reflexivity.
  - destruct (sort_values Sample.castObjectId Sample.RegExp_i
                (Sample.query None None None None (Some "createdAt_asc"))
                Sample.store "createdAt_asc" eq_refl) as (H & _).
    + discriminate.
    + exact (H eq_refl).
Defined.

(** *** Stages that stop *)

Lemma hearts_stage_stop (q : ThoughtsQuery) (o : Outcome) :
  hearts_stage q = Stop o ->
  o = Reply (mkResponse 400 false PNull
               "Invalid 'hearts' parameter. Must be a number.").
Proof.
  unfold hearts_stage. destruct (JS.truthy (q_hearts q)); [|intros H; discriminate H].
  destruct (JS.parseInt (q_hearts q)); intros H; [discriminate H|].
  now injection H as <-.
Qed.

Lemma message_stage_stop (RegExp_i : string -> option (string -> bool))
    (q : ThoughtsQuery) (o : Outcome) :
  message_stage RegExp_i q = Stop o -> o = Uncaught.
Proof.
  unfold message_stage. destruct (q_message q) as [m|]; [|intros H; discriminate H].
  destruct (JS.truthy (Some m)); [|intros H; discriminate H].
  destruct (RegExp_i m); intros H; [discriminate H|].
  now injection H as <-.
Qed.

Lemma run_query_200 (castObjectId : string -> option string) (query : Query)
    (so : SortOptions) (page limit : Z) (st : Store) (r : Response) :
  run_query castObjectId query so page limit st = Reply r ->
  status r = 200 ->
  exists all,
    select castObjectId query st = Ok all
    /\ 0 <= (page - 1) * limit
    /\ r = let thoughts :=
               mongo_limit limit
                 (skipn (Z.to_nat ((page - 1) * limit)) (mongo_sort so all)) in
           mkResponse 200 true
             (PPage (Z.of_nat (List.length all)) page
                (Z.of_nat (List.length thoughts)) thoughts)
             "Thoughts retrieved successfully.".
Proof.
  intros H Hs. unfold run_query, countDocuments, find_sort_skip_limit in H.
  destruct (select castObjectId query st) as [all|e] eqn:Hsel.
  2:{ injection H as <-. discriminate Hs. }
  exists all.
  destruct ((page - 1) * limit <? 0) eqn:E.
  { injection H as <-. discriminate Hs. }
  apply Z.ltb_ge in E. injection H as <-. repeat split; auto.
Qed.

Lemma server_js_200 (castObjectId : string -> option string)
    (RegExp_i : string -> option (string -> bool))
    (q : ThoughtsQuery) (st : Store) (r : Response) :
  ServerJs.get_thoughts castObjectId RegExp_i q st = Reply r ->
  status r = 200 ->
  exists minHearts regex so all,
    hearts_stage q = Continue minHearts
    /\ message_stage RegExp_i q = Continue regex
    /\ ServerJs.sort_stage q = Continue so
    /\ select castObjectId (mkQuery None minHearts regex) st = Ok all
    /\ 0 <= (pageNum q - 1) * limitNum q
    /\ r = let thoughts :=
               mongo_limit (limitNum q)
                 (skipn (Z.to_nat ((pageNum q - 1) * limitNum q))
                    (mongo_sort so all)) in
           mkResponse 200 true
             (PPage (Z.of_nat (List.length all)) (pageNum q)
                (Z.of_nat (List.length thoughts)) thoughts)
             "Thoughts retrieved successfully.".
Proof.
  intros H Hs. unfold ServerJs.get_thoughts in H.
  destruct (hearts_stage q) as [minHearts|o] eqn:Hh.
  2:{ apply hearts_stage_stop in Hh. subst o. cbn in H.
      injection H as <-. discriminate Hs. }
  destruct (message_stage RegExp_i q) as [regex|o] eqn:Hm.
  2:{ apply message_stage_stop in Hm. subst o. discriminate H. }
  destruct (ServerJs.sort_stage q) as [so|o] eqn:Hso.
  2:{ unfold ServerJs.sort_stage in Hso.
      destruct (q_sort q) as [sort|]; [|discriminate Hso].
      destruct (JS.truthy (Some sort)); [|discriminate Hso].
      repeat match type of Hso with
             | (if ?b then _ else _) = _ => destruct b; [discriminate Hso|]
             end.
      injection Hso as <-. cbn in H. injection H as <-. discriminate Hs. }
  cbn [bind] in H.
  destruct (run_query_200 castObjectId _ so _ _ st r H Hs) as (all & Hsel & Hk & Hr).
  exists minHearts, regex, so, all. repeat split; auto.
Qed.

(** *** Sort order *)

Section Descending.
Variable key : Thought -> Z.
Let cmp (a b : Thought) : Z := key b - key a.
Let above (a b : Thought) : Prop := key b <= key a.

Lemma insert_descending (x : Thought) (l : list Thought) :
  StronglySorted above l -> StronglySorted above (JS.insert cmp x l).
Proof.
  induction 1 as [|y l Hl IH Hy]; simpl.
  - repeat constructor.
  - unfold cmp at 1. destruct (key y - key x <? 0) eqn:E.
    + apply Z.ltb_lt in E. constructor; [now constructor|].
      constructor; [unfold above; lia|].
      eapply Forall_impl; [|exact Hy]. unfold above. intros b Hb. lia.
    + apply Z.ltb_ge in E. constructor; [exact IH|].
      apply Forall_insert; [unfold above; lia | exact Hy].
Qed.

Lemma sort_descending (l : list Thought) :
  StronglySorted above (JS.sort cmp l).
Proof.
  unfold JS.sort.
  generalize (@nil Thought) (SSorted_nil above).
  induction l as [|x l IH]; intros acc Hacc; simpl; [assumption|].
  apply IH. now apply insert_descending.
Qed.

End Descending.

Lemma StronglySorted_skipn {A} (R : A -> A -> Prop) (n : nat) (l : list A) :
  StronglySorted R l -> StronglySorted R (skipn n l).
Proof.
  revert l. induction n as [|n IH]; intros l H; [assumption|].
  destruct l as [|x l]; [constructor|].
  apply StronglySorted_inv in H. now apply IH.
Qed.

Lemma StronglySorted_firstn {A} (R : A -> A -> Prop) (n : nat) (l : list A) :
  StronglySorted R l -> StronglySorted R (firstn n l).
Proof.
  revert l. induction n as [|n IH]; intros l H; [constructor|].
  destruct l as [|x l]; [constructor|].
  apply StronglySorted_inv in H. destruct H as [Hl Hx]. simpl.
  constructor; [now apply IH | now apply Forall_firstn'].
Qed.

(** C6, as stated, fails on [server.js], which does not know
    "createdAt_desc": the same store and parameters give a page for
    [sort=createdAt] and 400 for [sort=createdAt_desc]. *)
Lemma server_js_rejects_createdAt_desc :
  ServerJs.get_thoughts Sample.castObjectId Sample.RegExp_i
    (Sample.query None None None None (Some "createdAt")) Sample.store
  = Reply (mkResponse 200 true
             (PPage 3 1 3 [Sample.happy; Sample.coffee; Sample.hello])
             "Thoughts retrieved successfully.")
  /\ ServerJs.get_thoughts Sample.castObjectId Sample.RegExp_i
       (Sample.query None None None None (Some "createdAt_desc")) Sample.store
     = Reply (mkResponse 400 false PNull
                "Invalid 'sort' parameter. Valid options are 'createdAt' or 'hearts'.")
  /\ ~ (forall q st,
          ServerJs.get_thoughts Sample.castObjectId Sample.RegExp_i
            (set_sort q (Some "createdAt")) st
          = ServerJs.get_thoughts Sample.castObjectId Sample.RegExp_i
              (set_sort q (Some "createdAt_desc")) st).
Proof.
  repeat split; try reflexivity.
  intros H.
  specialize (H (Sample.query None None None None None) Sample.store).
  discriminate H.
Qed.

(** C6, amended. On the authenticated server, for every store and every
    combination of the other parameters, [sort=createdAt] and
    [sort=createdAt_desc] give identical responses, and a page they
    return is ordered newest first; [server.js] has no [createdAt_desc]:
    there only [createdAt] sorts newest first. *)
Theorem createdAt_desc_alias
    (castObjectId : string -> option string)
    (RegExp_i : string -> option (string -> bool))
    (q : ThoughtsQuery) (st : Store) :
  get_thoughts castObjectId RegExp_i (set_sort q (Some "createdAt")) st
  = get_thoughts castObjectId RegExp_i (set_sort q (Some "createdAt_desc")) st
  /\ (forall total page count l msg,
         get_thoughts castObjectId RegExp_i (set_sort q (Some "createdAt")) st
         = Reply (mkResponse 200 true (PPage total page count l) msg) ->
         newest_first l)
  /\ (forall total page count l msg,
         ServerJs.get_thoughts castObjectId RegExp_i
           (set_sort q (Some "createdAt")) st
         = Reply (mkResponse 200 true (PPage total page count l) msg) ->
         newest_first l)
  /\ ServerJs.sort_stage (set_sort q (Some "createdAt_desc"))
     = Stop (Reply (mkResponse 400 false PNull
                      "Invalid 'sort' parameter. Valid options are 'createdAt' or 'hearts'.")).
Proof.
  assert (Hwin : forall n k all,
             newest_first
               (mongo_limit n (skipn k (mongo_sort (ByCreatedAt (-1)) all)))).
  { intros n k all. unfold newest_first, mongo_limit.
    assert (Hs : StronglySorted (fun a b => createdAt b <= createdAt a)
                   (skipn k (mongo_sort (ByCreatedAt (-1)) all))).
    { apply StronglySorted_skipn. simpl. apply (sort_descending createdAt). }
    destruct (n =? 0); [exact Hs | now apply StronglySorted_firstn]. }
  split; [reflexivity|]. split; [|split; [|reflexivity]].
  - intros total page count l msg H.
    destruct (get_thoughts_200 castObjectId RegExp_i _ st _ H eq_refl)
      as (minHearts & regex & so & all & _ & _ & Hso & _ & _ & Hr).
    injection Hso as <-. cbv zeta in Hr. injection Hr as _ _ _ ->. apply Hwin.
  - intros total page count l msg H.
    destruct (server_js_200 castObjectId RegExp_i _ st _ H eq_refl)
      as (minHearts & regex & so & all & _ & _ & Hso & _ & _ & Hr).
    injection Hso as <-. cbv zeta in Hr. injection Hr as _ _ _ ->. apply Hwin.
Qed.

Lemma createdAt_desc_alias_witness :
  newest_first [Sample.happy; Sample.coffee; Sample.hello].
Proof.
  destruct (createdAt_desc_alias Sample.castObjectId Sample.RegExp_i
              (Sample.query None None None None None) Sample.store)
    as (_ & H & _).
  apply (H 3 1 3 _ "Thoughts retrieved successfully."). reflexivity.
Defined.

(** *** Pagination *)



Lemma mongo_limit_window (page limit : Z) (l : list Thought) :
  1 <= limit ->
  mongo_limit limit (skipn (Z.to_nat ((page - 1) * limit)) l)
  = window page limit l.
Proof.
  intros H. unfold mongo_limit, window.
  destruct (limit =? 0) eqn:E; [lia|]. now rewrite Z.abs_eq by lia.
Qed.

Lemma slice_window {A} (page limit : Z) (l : list A) :
  1 <= page -> 1 <= limit ->
  JS.slice ((page - 1) * limit) (page * limit) l = window page limit l.
Proof.
  intros Hp Hl. unfold JS.slice, window.
  assert (H0 : 0 <= (page - 1) * limit) by nia.
  assert (H1 : page * limit = (page - 1) * limit + limit) by lia.
  rewrite H1. set (k := (page - 1) * limit) in *.
  destruct (k <? 0) eqn:E1; [lia|].
  destruct (k + limit <? 0) eqn:E2; [lia|].
  set (len := Z.of_nat (List.length l)).
  destruct (Z_lt_le_dec k len) as [Hlt|Hge].
  - rewrite (Z.min_l k len) by lia.
    destruct (Z_le_gt_dec (k + limit) len) as [Hfit|Hover].
    + rewrite Z.min_l by lia. f_equal. lia.
    + rewrite Z.min_r by lia.
      assert (Hlen : (List.length (skipn (Z.to_nat k) l)
                      <= Z.to_nat (Z.max (len - k) 0))%nat).
      { rewrite length_skipn. unfold len. lia. }
      assert (Hlen' : (List.length (skipn (Z.to_nat k) l) <= Z.to_nat limit)%nat).
      { rewrite length_skipn. unfold len in *. lia. }
      now rewrite (firstn_all2 _ Hlen), (firstn_all2 _ Hlen').
  - rewrite (Z.min_r k len) by lia.
    assert (Hnil : forall n, (List.length l <= n)%nat -> skipn n l = []).
    { intros n Hn. now apply skipn_all2. }
    rewrite (Hnil (Z.to_nat len)) by (unfold len; lia).
    rewrite (Hnil (Z.to_nat k)) by (unfold len in *; lia).
    now rewrite !firstn_nil.
Qed.

Lemma length_sort {A} (cmp : A -> A -> Z) (l : list A) :
  List.length (JS.sort cmp l) = List.length l.
Proof.
  unfold JS.sort.
  assert (H : forall acc,
             List.length (fold_left (fun acc x => JS.insert cmp x acc) l acc)
             = (List.length acc + List.length l)%nat).
  { induction l as [|x l IH]; intros acc; simpl; [lia|].
    rewrite IH, length_sort_insert. lia. }
  now rewrite H.
Qed.

Lemma in_memory_sort_length (q : ThoughtsQuery) (l sorted : list Thought) :
  InMemory.sort_thoughts q l = inr sorted ->
  List.length sorted = List.length l.
Proof.
  unfold InMemory.sort_thoughts. intros H.
  destruct (q_sort q) as [sort|].
  - destruct (JS.truthy (Some sort)).
    + destruct (sort =? "createdAt")%string.
      * injection H as <-. apply length_sort.
      * destruct (sort =? "hearts")%string; [|discriminate H].
        injection H as <-. apply length_sort.
    + now injection H as <-.
  - now injection H as <-.
Qed.






(** ** The combined update *)

(** C8, as stated, fails: when the body carries a message, the ownership
    check of the message edit also decides the unlike.  Bob, signed in,
    asks to edit and to unlike Alice's thought: the answer is 403 and the
    heart count stays 3. *)
Lemma unlike_refused_with_message :
  authenticateUser (Some "Bearer f00d") Sample.store = inr Sample.bob
  /\ lookup "111111111111111111111111" (thoughts Sample.store)
     = Some Sample.hello
  /\ hearts Sample.hello = 3
  /\ patch_thought Sample.castObjectId "111111111111111111111111"
       (mkPatchBody (Some "hello again") (Some (JBool true)))
       (Some "Bearer f00d") Sample.store
     = (Reply (mkResponse 403 false PNull
                 "You are not authorized to edit this thought's message."),
        Sample.store)
  /\ ~ (forall id o t body authorization u st,
          Sample.castObjectId id = Some o ->
          lookup o (thoughts st) = Some t ->
          authenticateUser authorization st = inr u ->
          truthy_json (body_unlike body) = true ->
          option_map hearts
            (lookup o
               (thoughts
                  (snd (patch_thought Sample.castObjectId id body
                          authorization st))))
          = Some (Z.max 0 (hearts t - 1))).
Proof.
  repeat split; try reflexivity.
  intros H.
  specialize (H "111111111111111111111111" "111111111111111111111111"
                Sample.hello
                (mkPatchBody (Some "hello again") (Some (JBool true)))
                (Some "Bearer f00d") Sample.bob Sample.store
                eq_refl eq_refl eq_refl eq_refl).
  discriminate H.
Qed.

Lemma patch_fields_message (t : Thought) (body : PatchBody) :
  set_message (fst (patch_fields t body)) = body_message body.
Proof.
  unfold patch_fields. now destruct (_ && _).
Qed.

Lemma patch_fields_perform (t : Thought) (body : PatchBody) (m : string) :
  body_message body = Some m -> snd (patch_fields t body) = true.
Proof.
  unfold patch_fields. intros ->. now destruct (_ && _).
Qed.

Lemma patch_fields_new_hearts (t : Thought) (body : PatchBody) :
  match set_hearts (fst (patch_fields t body)) with
  | Some h => h
  | None => hearts t
  end
  = if truthy_json (body_unlike body) then Z.max 0 (hearts t - 1)
    else hearts t.
Proof.
  unfold patch_fields. destruct (truthy_json (body_unlike body)); simpl.
  - destruct (Z.max 0 (hearts t - 1) =? hearts t) eqn:E; simpl; [|reflexivity].
    apply Z.eqb_eq in E. now rewrite E.
  - reflexivity.
Qed.

Section Update.
Variable castObjectId : string -> option string.

(** C8, amended. For an authenticated caller and an existing thought,
    [PATCH /thoughts/:id] makes one update out of the message edit and the
    unlike.  A body with a message from a caller who is not the owner is
    refused as a whole with 403: nothing is stored, the unlike it may
    carry included.  A body without a message has its unlike applied for
    every authenticated caller, owner or not.  The owner's valid message
    (a [length] of 5 to 140 UTF-16 code units once trimmed) is stored
    trimmed together with the unlike, and an invalid one is answered 400
    with nothing stored.  A body that asks for neither is
    answered 200 with the unmodified record. *)
Theorem patch_sub_operations
    (id o : string) (t : Thought) (u : User) (authorization : option string)
    (body : PatchBody) (st : Store) :
  castObjectId id = Some o ->
  lookup o (thoughts st) = Some t ->
  authenticateUser authorization st = inr u ->
  let res := patch_thought castObjectId id body authorization st in
  let unliked :=
    if truthy_json (body_unlike body) then Z.max 0 (hearts t - 1)
    else hearts t in
  (forall m,
      body_message body = Some m -> userId t <> user_id u ->
      res = (Reply (mkResponse 403 false PNull
                      "You are not authorized to edit this thought's message."),
             st))
  /\ (body_message body = None -> truthy_json (body_unlike body) = true ->
      (exists msg,
          fst res
          = Reply (mkResponse 200 true
                     (PThought (with_hearts t (Z.max 0 (hearts t - 1)))) msg))
      /\ lookup o (thoughts (snd res))
         = Some (with_hearts t (Z.max 0 (hearts t - 1))))
  /\ (body_message body = None -> truthy_json (body_unlike body) = false ->
      res = (Reply (mkResponse 200 true (PThought t)
                      "No valid update fields provided, thought not modified."),
             st))
  /\ (forall m m',
         body_message body = Some m -> userId t = user_id u ->
         validate_message (Some m) = Some m' ->
         let edited :=
           mkThought (thought_id t) m' unliked (createdAt t) (userId t) in
         fst res
         = Reply (mkResponse 200 true (PThought edited)
                    "Thought was successfully updated.")
         /\ lookup o (thoughts (snd res)) = Some edited)
  /\ (forall m,
         body_message body = Some m -> userId t = user_id u ->
         validate_message (Some m) = None ->
         res = (Reply (mkResponse 400 false PValidationErrors
                         "Validation failed for thought update."), st)).
Proof.
  intros Hc Hl Ha res unliked.
  assert (Hres : res = patch_thought castObjectId id body authorization st)
    by reflexivity.
  unfold patch_thought, protected, findById in Hres.
  rewrite Ha, Hc, Hl in Hres.
  pose proof (patch_fields_message t body) as Hmsg.
  pose proof (patch_fields_new_hearts t body) as Hnew.
  fold unliked in Hnew.
  destruct (patch_fields t body) as [f perform] eqn:Hpf.
  cbn [fst snd] in Hmsg, Hnew.
  repeat apply conj.
  - intros m Hm Hno. rewrite Hres, Hm.
    apply String.eqb_neq in Hno. now rewrite Hno.
  - intros Hm Hu.
    destruct (unlike_applied castObjectId id o t st authorization u
                (body_unlike body) Hc Hl Ha Hu) as ((r & Hr & Hs & Hp) & Hst & _).
    assert (Hb : body = mkPatchBody None (body_unlike body)).
    { destruct body as [bm bu]. simpl in Hm. now subst bm. }
    fold res in Hr, Hst. unfold res. rewrite Hb. split; [|exact Hst].
    exists (res_message r). rewrite Hr. f_equal. destruct r as [s b p msg].
    simpl in *. subst s p.
    unfold patch_thought, protected, findById in Hr.
    rewrite Ha, Hc, Hl in Hr. cbn [body_message] in Hr.
    destruct (patch_fields t (mkPatchBody None (body_unlike body))) as [f0 p0].
    destruct (negb p0).
    + injection Hr as <- _. reflexivity.
    + destruct (findByIdAndUpdate castObjectId id (Set_fields f0) true st)
        as [[[x|] st']|e].
      * injection Hr as <- _. reflexivity.
      * discriminate Hr.
      * destruct e; discriminate Hr.
  - intros Hm Hu. rewrite Hres, Hm.
    unfold patch_fields in Hpf. rewrite Hm, Hu in Hpf. cbn in Hpf.
    injection Hpf as <- <-. reflexivity.
  - intros m m' Hm Ho Hv edited. apply String.eqb_eq in Ho.
    rewrite Hm, Ho in Hres. cbn [negb] in Hres.
    pose proof (patch_fields_perform t body m Hm) as Hperf.
    rewrite Hpf in Hperf. cbn [snd] in Hperf. subst perform. cbn [negb] in Hres.
    unfold findByIdAndUpdate, cast_update in Hres.
    rewrite Hc, Hmsg, Hm, Hv, Hl in Hres. cbn [option_map] in Hres.
    assert (He : apply_update
                   (Set_fields (mkUpdateFields (Some m') (set_hearts f))) t
                 = edited).
    { unfold apply_update, edited. cbn [set_message set_hearts].
      now rewrite Hnew. }
    rewrite He in Hres. rewrite Hres. split; [reflexivity|]. cbn [snd thoughts].
    rewrite <- He.
    apply (lookup_update_first o
             (apply_update (Set_fields (mkUpdateFields (Some m') (set_hearts f))))
             (thoughts st) t); [|assumption].
    intros x. apply apply_update_id.
  - intros m Hm Ho Hv. apply String.eqb_eq in Ho.
    rewrite Hm, Ho in Hres. cbn [negb] in Hres.
    pose proof (patch_fields_perform t body m Hm) as Hperf.
    rewrite Hpf in Hperf. cbn [snd] in Hperf. subst perform. cbn [negb] in Hres.
    unfold findByIdAndUpdate, cast_update in Hres.
    rewrite Hc, Hmsg, Hm, Hv in Hres. exact Hres.
Qed.

End Update.

Lemma patch_sub_operations_witness :
  lookup "111111111111111111111111"
    (thoughts
       (snd (patch_thought Sample.castObjectId "111111111111111111111111"
               (mkPatchBody None (Some (JBool true))) (Some "Bearer f00d")
               Sample.store)))
  = Some (with_hearts Sample.hello (Z.max 0 (hearts Sample.hello - 1)))
  /\ patch_thought Sample.castObjectId "111111111111111111111111"
       (mkPatchBody (Some "hi") (Some (JBool true))) (Some "Bearer c0ffee")
       Sample.store
     = (Reply (mkResponse 400 false PValidationErrors
                 "Validation failed for thought update."), Sample.store).
Proof.
  split.
  - destruct (patch_sub_operations Sample.castObjectId
                "111111111111111111111111" "111111111111111111111111"
                Sample.hello Sample.bob (Some "Bearer f00d")
                (mkPatchBody None (Some (JBool true))) Sample.store
                eq_refl eq_refl eq_refl) as (_ & H & _).
    destruct (H eq_refl eq_refl) as (_ & Hstored). exact Hstored.
  - destruct (patch_sub_operations Sample.castObjectId
                "111111111111111111111111" "111111111111111111111111"
                Sample.hello Sample.alice (Some "Bearer c0ffee")
                (mkPatchBody (Some "hi") (Some (JBool true))) Sample.store
                eq_refl eq_refl eq_refl) as (_ & _ & _ & _ & H).
    exact (H "hi" eq_refl eq_refl eq_refl).
Defined.

(** ** Atomicity *)

Section Atomicity.
Variable castObjectId : string -> option string.
Variable RegExp_i : string -> option (string -> bool).
Variable hashSync : string -> string -> string.
Variable compareSync : string -> string -> bool.


End Atomicity.


(** * Further properties of the handlers *)

(** ** Creating a thought *)

Lemma validate_message_spec (msg : option string) (m' : string) :
  validate_message msg = Some m'
  <-> exists s,
        msg = Some s /\ m' = JS.trim s
        /\ 5 <= Z.of_nat (JS.length (JS.trim s)) <= 140.
Proof.
  unfold validate_message. split.
  - destruct msg as [s|]; [|intros H; discriminate H].
    destruct ((Z.of_nat (JS.length (JS.trim s)) =? 0)
              || (Z.of_nat (JS.length (JS.trim s)) <? 5)
              || (140 <? Z.of_nat (JS.length (JS.trim s)))) eqn:E;
      intros H; [discriminate H|].
    injection H as <-. exists s. repeat split; auto.
    + apply orb_false_elim in E. destruct E as [E _].
      apply orb_false_elim in E. destruct E as [_ E]. apply Z.ltb_ge in E. lia.
    + apply orb_false_elim in E. destruct E as [_ E]. apply Z.ltb_ge in E. lia.
  - intros (s & -> & -> & Hlo & Hhi).
    destruct (Z.of_nat (JS.length (JS.trim s)) =? 0) eqn:E0;
      [apply Z.eqb_eq in E0; lia|].
    destruct (Z.of_nat (JS.length (JS.trim s)) <? 5) eqn:E1;
      [apply Z.ltb_lt in E1; lia|].
    destruct (140 <? Z.of_nat (JS.length (JS.trim s))) eqn:E2;
      [apply Z.ltb_lt in E2; lia|].
    reflexivity.
Qed.

(** Text outside ASCII, by its bytes: "caf" and U+00E9 has a [length] of
    4 and is refused; a hundred U+00E9 are kept; U+00A0 in front of a
    number is white space; an integer beyond 2^53 is read as the nearest
    double. *)
Example text_outside_ascii :
  let e_acute := String (ascii_of_nat 195) (String (ascii_of_nat 169) "") in
  let nbsp := String (ascii_of_nat 194) (String (ascii_of_nat 160) "") in
  validate_message (Some ("caf" ++ e_acute)) = None
  /\ option_map JS.length
       (validate_message (Some (String.concat "" (repeat e_acute 100))))
     = Some 100%nat
  /\ JS.trim (nbsp ++ " hello world " ++ nbsp) = "hello world"
  /\ JS.parseInt (Some (nbsp ++ "3")) = Some 3
  /\ JS.parseInt (Some "9007199254740993") = Some 9007199254740992.
Proof. repeat split; vm_compute; reflexivity. Qed.

Lemma required_nonempty (s : string) : s <> "" -> required (Some s) = Some s.
Proof.
  intros H. unfold required. destruct (s =? "")%string eqn:E; [|reflexivity].
  apply String.eqb_eq in E. contradiction.
Qed.

Lemma lookup_app_absent (o : string) (l : list Thought) (t : Thought) :
  lookup o l = None -> lookup o (l ++ [t]) = lookup o [t].
Proof.
  unfold lookup. induction l as [|x l IH]; simpl; [reflexivity|].
  destruct (thought_id x =? o)%string; [intros H; discriminate H | exact IH].
Qed.

Lemma lookup_app_present (o : string) (l l' : list Thought) (x : Thought) :
  lookup o l = Some x -> lookup o (l ++ l') = Some x.
Proof.
  unfold lookup. induction l as [|y l IH]; simpl; [intros H; discriminate H|].
  destruct (thought_id y =? o)%string; [auto | exact IH].
Qed.

(** X1. For an authenticated caller, [POST /thoughts] answers 201 exactly
    when the message, once trimmed, has a [length] of 5 to 140 (UTF-16
    code units, after the ECMAScript white space is stripped); the thought
    is then appended to the collection with that trimmed message, no
    hearts, the clock's time and the caller as owner.  Any other message,
    an absent one included, is answered 400 and nothing is stored. *)
Theorem post_thoughts_created
    (authorization : option string) (u : User) (msg : option string)
    (new_id : string) (now : Z) (st : Store) :
  authenticateUser authorization st = inr u ->
  user_id u <> "" ->
  (forall s,
      msg = Some s ->
      5 <= Z.of_nat (JS.length (JS.trim s)) <= 140 ->
      let created := mkThought new_id (JS.trim s) 0 now (user_id u) in
      post_thoughts msg new_id now authorization st
      = (Reply (mkResponse 201 true (PThought created)
                  "Thought created successfully"),
         mkStore (users st) (thoughts st ++ [created])))
  /\ ((forall s,
          msg = Some s ->
          ~ 5 <= Z.of_nat (JS.length (JS.trim s)) <= 140) ->
      post_thoughts msg new_id now authorization st
      = (Reply (mkResponse 400 false PValidationErrors
                  "Validation failed for thought creation."), st)).
Proof.
  intros Ha Hu. unfold post_thoughts, protected. rewrite Ha.
  rewrite (required_nonempty _ Hu). split.
  - intros s Hs Hlen. cbv zeta.
    assert (Hv : validate_message msg = Some (JS.trim s)).
    { apply validate_message_spec. now exists s. }
    now rewrite Hv.
  - intros Hbad. destruct (validate_message msg) as [m'|] eqn:Hv; [|reflexivity].
    apply validate_message_spec in Hv. destruct Hv as (s & Hs & _ & Hlen).
    now destruct (Hbad s Hs).
Qed.

Lemma post_thoughts_created_witness :
  post_thoughts (Some "  hello world ") "444444444444444444444444" 300
    (Some "Bearer c0ffee") Sample.store
  = (Reply (mkResponse 201 true
              (PThought (mkThought "444444444444444444444444" "hello world" 0
                           300 "aaaaaaaaaaaaaaaaaaaaaaaa"))
              "Thought created successfully"),
     mkStore (users Sample.store)
       (thoughts Sample.store
        ++ [mkThought "444444444444444444444444" "hello world" 0 300
              "aaaaaaaaaaaaaaaaaaaaaaaa"]))
  /\ post_thoughts (Some "  hi  ") "444444444444444444444444" 300
       (Some "Bearer c0ffee") Sample.store
     = (Reply (mkResponse 400 false PValidationErrors
                 "Validation failed for thought creation."), Sample.store).
Proof.
  assert (Hu : user_id Sample.alice <> "") by discriminate.
  destruct (post_thoughts_created (Some "Bearer c0ffee") Sample.alice
              (Some "  hello world ") "444444444444444444444444" 300
              Sample.store eq_refl Hu) as (Hok & _).
  destruct (post_thoughts_created (Some "Bearer c0ffee") Sample.alice
              (Some "  hi  ") "444444444444444444444444" 300
              Sample.store eq_refl Hu) as (_ & Hbad).
  split.
  - apply (Hok "  hello world " eq_refl). vm_compute.
    split; intros H; discriminate H.
  - apply Hbad. intros s Hs. injection Hs as <-. vm_compute.
    intros [H _]. now apply H.
Defined.

Section RoundTrips.
Variable castObjectId : string -> option string.

(** X2. A thought just created is served by [GET /thoughts/:id] under its
    new id, and every thought that could be fetched before the creation
    is still fetched unchanged: here the new id is in the form documents
    carry it and no stored thought has it yet. *)
Theorem created_thought_is_served
    (authorization : option string) (msg : option string) (new_id : string)
    (now : Z) (st st' : Store) (created : Thought) (text : string) :
  castObjectId new_id = Some new_id ->
  lookup new_id (thoughts st) = None ->
  post_thoughts msg new_id now authorization st
  = (Reply (mkResponse 201 true (PThought created) text), st') ->
  get_thought castObjectId new_id st'
  = (Reply (mkResponse 200 true (PThought created)
              ("Thought with id '" ++ new_id ++ "' retrieved successfully.")),
     st')
  /\ forall id r,
      get_thought castObjectId id st = (Reply r, st) -> status r = 200 ->
      get_thought castObjectId id st' = (Reply r, st').
Proof.
  intros Hc Hfresh Hpost. unfold post_thoughts, protected in Hpost.
  destruct (authenticateUser authorization st) as [r0|u] eqn:Ha.
  { apply authenticateUser_401 in Ha. injection Hpost as Hr _.
    rewrite Hr in Ha. discriminate Ha. }
  destruct (validate_message msg) as [m|]; [|discriminate Hpost].
  destruct (required (Some (user_id u))) as [uid|]; [|discriminate Hpost].
  injection Hpost as Hcreated _ Hst. subst created st'. split.
  - unfold get_thought, findById. rewrite Hc. cbn [thoughts].
    rewrite (lookup_app_absent _ _ _ Hfresh). unfold lookup. simpl.
    now rewrite String.eqb_refl.
  - intros id r Hget Hs. unfold get_thought, findById in *.
    destruct (castObjectId id) as [o|].
    + destruct (lookup o (thoughts st)) as [x|] eqn:Hl.
      * cbn [thoughts]. rewrite (lookup_app_present o _ _ x Hl).
        injection Hget as <-. reflexivity.
      * injection Hget as <-. discriminate Hs.
    + injection Hget as <-. discriminate Hs.
Qed.

End RoundTrips.

Lemma created_thought_is_served_witness :
  get_thought Sample.castObjectId "444444444444444444444444"
    (mkStore (users Sample.store)
       (thoughts Sample.store
        ++ [mkThought "444444444444444444444444" "hello world" 0 300
              "aaaaaaaaaaaaaaaaaaaaaaaa"]))
  = (Reply (mkResponse 200 true
              (PThought (mkThought "444444444444444444444444" "hello world" 0
                           300 "aaaaaaaaaaaaaaaaaaaaaaaa"))
              ("Thought with id '" ++ "444444444444444444444444"
               ++ "' retrieved successfully.")),
     mkStore (users Sample.store)
       (thoughts Sample.store
        ++ [mkThought "444444444444444444444444" "hello world" 0 300
              "aaaaaaaaaaaaaaaaaaaaaaaa"])).
Proof.
  exact (proj1
           (created_thought_is_served Sample.castObjectId (Some "Bearer c0ffee")
              (Some "  hello world ") "444444444444444444444444" 300
              Sample.store
              (mkStore (users Sample.store)
                 (thoughts Sample.store
                  ++ [mkThought "444444444444444444444444" "hello world" 0 300
                        "aaaaaaaaaaaaaaaaaaaaaaaa"]))
              (mkThought "444444444444444444444444" "hello world" 0 300
                 "aaaaaaaaaaaaaaaaaaaaaaaa")
              "Thought created successfully" eq_refl eq_refl eq_refl)).
Defined.

(** ** The schema's hold on stored messages *)

Lemma string_app_assoc (a b c : string) :
  ((a ++ b) ++ c = a ++ (b ++ c))%string.
Proof. induction a as [|x a IH]; simpl; [reflexivity | now rewrite IH]. Qed.

Lemma string_app_nil_r (a : string) : (a ++ "")%string = a.
Proof. induction a as [|x a IH]; simpl; [reflexivity | now rewrite IH]. Qed.

Lemma rev_string_acc (acc s : string) :
  JS.rev_string acc s = (JS.rev_string "" s ++ acc)%string.
Proof.
  revert acc. induction s as [|c s IH]; intros acc; simpl; [reflexivity|].
  rewrite (IH (String c acc)), (IH (String c "")).
  now rewrite string_app_assoc.
Qed.

Lemma rev_string_app (a b : string) :
  JS.rev_string "" (a ++ b)
  = (JS.rev_string "" b ++ JS.rev_string "" a)%string.
Proof.
  induction a as [|c a IH]; simpl.
  - now rewrite string_app_nil_r.
  - rewrite (rev_string_acc (String c "") (a ++ b)), IH.
    rewrite (rev_string_acc (String c "") a).
    now rewrite string_app_assoc.
Qed.

Lemma rev_string_involutive (s : string) :
  JS.rev_string "" (JS.rev_string "" s) = s.
Proof.
  induction s as [|c s IH]; simpl; [reflexivity|].
  rewrite (rev_string_acc (String c "") s), rev_string_app, IH.
  reflexivity.
Qed.

Section Skipping.
Variable p1 : ascii -> bool.
Variable p2 : ascii -> ascii -> bool.
Variable p3 : ascii -> ascii -> ascii -> bool.

Lemma skip_begins_bounded (n : nat) (s : string) :
  (String.length s <= n)%nat ->
  JS.begins p1 p2 p3 (JS.skip p1 p2 p3 s) = false.
Proof.
  revert s. induction n as [|n IH]; intros s Hn.
  - destruct s; [reflexivity | simpl in Hn; lia].
  - destruct s as [|c1 s1]; [reflexivity|]. cbn [JS.skip].
    destruct (p1 c1) eqn:E1; [apply IH; simpl in Hn; lia|].
    destruct s1 as [|c2 s2]; [simpl; now rewrite E1|].
    destruct (p2 c1 c2) eqn:E2; [apply IH; simpl in Hn; lia|].
    destruct s2 as [|c3 s3]; [simpl; now rewrite E1, E2|].
    destruct (p3 c1 c2 c3) eqn:E3; [apply IH; simpl in Hn; lia|].
    simpl. now rewrite E1, E2, E3.
Qed.

Lemma skip_begins (s : string) :
  JS.begins p1 p2 p3 (JS.skip p1 p2 p3 s) = false.
Proof. now apply (skip_begins_bounded (String.length s)). Qed.

Lemma skip_fixed (s : string) :
  JS.begins p1 p2 p3 s = false -> JS.skip p1 p2 p3 s = s.
Proof.
  destruct s as [|c1 s1]; [reflexivity|]. cbn [JS.begins JS.skip].
  destruct (p1 c1); [intros H; discriminate H|].
  destruct s1 as [|c2 s2]; [reflexivity|].
  destruct (p2 c1 c2); [intros H; discriminate H|].
  destruct s2 as [|c3 s3]; [reflexivity|].
  destruct (p3 c1 c2 c3); [intros H; discriminate H | reflexivity].
Qed.

Lemma skip_suffix_bounded (n : nat) (s : string) :
  (String.length s <= n)%nat ->
  exists v, s = (v ++ JS.skip p1 p2 p3 s)%string.
Proof.
  revert s. induction n as [|n IH]; intros s Hn.
  - destruct s; [now exists "" | simpl in Hn; lia].
  - destruct s as [|c1 s1]; [now exists ""|]. cbn [JS.skip].
    destruct (p1 c1).
    { destruct (IH s1) as [v Hv]; [simpl in Hn; lia|].
      exists (String c1 v). simpl. now rewrite <- Hv. }
    destruct s1 as [|c2 s2]; [now exists ""|].
    destruct (p2 c1 c2).
    { destruct (IH s2) as [v Hv]; [simpl in Hn; lia|].
      exists (String c1 (String c2 v)). simpl. now rewrite <- Hv. }
    destruct s2 as [|c3 s3]; [now exists ""|].
    destruct (p3 c1 c2 c3); [|now exists ""].
    destruct (IH s3) as [v Hv]; [simpl in Hn; lia|].
    exists (String c1 (String c2 (String c3 v))). simpl. now rewrite <- Hv.
Qed.

Lemma skip_suffix (s : string) :
  exists v, s = (v ++ JS.skip p1 p2 p3 s)%string.
Proof. now apply (skip_suffix_bounded (String.length s)). Qed.

Lemma begins_prefix (a b : string) :
  JS.begins p1 p2 p3 (a ++ b) = false -> JS.begins p1 p2 p3 a = false.
Proof.
  destruct a as [|c1 a1]; [reflexivity|]. cbn [JS.begins append].
  destruct (p1 c1); [intros H; discriminate H|].
  destruct a1 as [|c2 a2]; [reflexivity|]. cbn [append].
  destruct (p2 c1 c2); [intros H; discriminate H|].
  destruct a2 as [|c3 a3]; [reflexivity|]. cbn [append]. auto.
Qed.

End Skipping.

Lemma trim_clean (s : string) : starts_clean (JS.trim s) = true.
Proof.
  unfold starts_clean, JS.trim, JS.skip_ws_end.
  destruct (skip_suffix JS.is_ws (fun c1 c2 => JS.is_ws2 c2 c1)
              (fun c1 c2 c3 => JS.is_ws3 c3 c2 c1)
              (JS.rev_string "" (JS.skip_ws s))) as [v Hv].
  set (u := JS.skip JS.is_ws (fun c1 c2 => JS.is_ws2 c2 c1)
              (fun c1 c2 c3 => JS.is_ws3 c3 c2 c1)
              (JS.rev_string "" (JS.skip_ws s))) in *.
  assert (Hr : JS.skip_ws s
               = (JS.rev_string "" u ++ JS.rev_string "" v)%string).
  { rewrite <- rev_string_app, <- Hv. now rewrite rev_string_involutive. }
  rewrite (begins_prefix _ _ _ _ (JS.rev_string "" v)); [reflexivity|].
  rewrite <- Hr. apply skip_begins.
Qed.

Lemma trim_idempotent (s : string) : JS.trim (JS.trim s) = JS.trim s.
Proof.
  pose proof (trim_clean s) as Hc. unfold starts_clean in Hc.
  apply negb_true_iff in Hc.
  unfold JS.trim at 1. unfold JS.skip_ws at 1.
  rewrite (skip_fixed _ _ _ _ Hc). unfold JS.trim.
  rewrite rev_string_involutive. unfold JS.skip_ws_end.
  rewrite (skip_fixed _ _ _ _ (skip_begins _ _ _ _)). reflexivity.
Qed.

Lemma validate_message_kept (msg : option string) (m' : string) :
  validate_message msg = Some m' ->
  5 <= Z.of_nat (JS.length m') <= 140 /\ JS.trim m' = m'.
Proof.
  intros H. apply validate_message_spec in H.
  destruct H as (s & _ & -> & Hlen). split; [exact Hlen|].
  apply trim_idempotent.
Qed.

Lemma cast_update_message (P : string -> Prop) (f : UpdateFields)
    (up' : Update) (x : Thought) :
  (forall m m', validate_message (Some m) = Some m' -> P m') ->
  cast_update (Set_fields f) true = Ok up' ->
  P (message x) -> P (message (apply_update up' x)).
Proof.
  intros HP H Hx. unfold cast_update in H.
  destruct (set_message f) as [m|] eqn:Hm.
  - destruct (validate_message (Some m)) as [m'|] eqn:Hv; [|discriminate H].
    injection H as <-. simpl. now apply (HP m m').
  - injection H as <-. simpl. now rewrite Hm.
Qed.

Section SchemaInvariant.
Variable castObjectId : string -> option string.
Variable RegExp_i : string -> option (string -> bool).
Variable hashSync : string -> string -> string.
Variable compareSync : string -> string -> bool.

Lemma handle_keeps_messages (P : string -> Prop) (r : Request) (st : Store) :
  (forall m m', validate_message m = Some m' -> P m') ->
  Forall (fun t => P (message t)) (thoughts st) ->
  Forall (fun t => P (message t))
    (thoughts (snd (handle castObjectId RegExp_i hashSync compareSync r st))).
Proof.
  intros HP H.
  destruct r as [|body salt new_id new_token|a|mail pw|q|id|a msg new_id now
                 |a id|id|a id body]; simpl.
  - assumption.
  - unfold post_users. destruct (body_password body); [|assumption].
    destruct (required (body_name body)); [|assumption].
    destruct (required (body_email body)); [|assumption].
    destruct (required _); [|assumption].
    destruct (existsb _ _); assumption.
  - unfold get_secrets, protected. now destruct (authenticateUser a st).
  - unfold post_sessions. destruct (findOne_email mail st); [|assumption].
    now destruct (compareSync pw _).
  - assumption.
  - unfold get_thought. now destruct (findById castObjectId id st) as [[t|]|e].
  - unfold post_thoughts, protected.
    destruct (authenticateUser a st) as [r|u]; [assumption|].
    destruct (validate_message msg) as [m'|] eqn:Hv; [|assumption].
    destruct (required _); [|assumption]. simpl.
    apply Forall_app. split; [assumption|].
    constructor; [simpl; now apply (HP msg m') | constructor].
  - unfold delete_thought, protected.
    destruct (authenticateUser a st) as [r|u]; [assumption|].
    destruct (findById castObjectId id st) as [[t|]|e]; try assumption.
    destruct (negb _); [assumption|]. unfold findByIdAndDelete.
    destruct (castObjectId id); [|assumption]. simpl.
    now apply Forall_remove_first.
  - unfold patch_like, findByIdAndUpdate.
    destruct (castObjectId id) as [o|]; [|assumption]. cbn.
    assert (Hu : Forall (fun t => P (message t))
                   (update_first o (apply_update (Inc_hearts 1)) (thoughts st))).
    { apply Forall_update_first; [|assumption]. intros t Ht. exact Ht. }
    now destruct (lookup o (thoughts st)).
  - unfold patch_thought, protected.
    destruct (authenticateUser a st) as [r|u]; [assumption|].
    destruct (findById castObjectId id st) as [[t|]|e]; try assumption.
    destruct (match body_message body with Some _ => _ | None => false end);
      [assumption|].
    destruct (patch_fields t body) as [f perform] eqn:Hpf.
    destruct (negb perform); [assumption|].
    unfold findByIdAndUpdate.
    destruct (castObjectId id) as [o|]; [|assumption].
    destruct (cast_update (Set_fields f) true) as [up'|e] eqn:Hup; [|assumption].
    assert (Hu : Forall (fun t => P (message t))
                   (update_first o (apply_update up') (thoughts st))).
    { apply Forall_update_first; [|assumption]. intros x Hx.
      apply (cast_update_message P f up' x); auto.
      intros m m'. apply HP. }
    now destruct (lookup o (thoughts st)).
Qed.

(** X3. The schema's rules for [message] hold of the whole collection at
    all times: if every stored message has a [length] of 5 to 140 (UTF-16
    code units) and no surrounding white space, this is still so after
    any request to any route. *)
Theorem stored_messages_valid (r : Request) (st : Store) :
  valid_messages st -> trimmed_messages st ->
  let st' := snd (handle castObjectId RegExp_i hashSync compareSync r st) in
  valid_messages st' /\ trimmed_messages st'.
Proof.
  intros Hv Ht. split.
  - apply (handle_keeps_messages
             (fun m => 5 <= Z.of_nat (JS.length m) <= 140)); [|exact Hv].
    intros m m' H. now apply (validate_message_kept m m').
  - apply (handle_keeps_messages (fun m => JS.trim m = m)); [|exact Ht].
    intros m m' H. now apply (validate_message_kept m m').
Qed.

End SchemaInvariant.

Lemma stored_messages_valid_witness :
  valid_messages
    (snd (handle Sample.castObjectId Sample.RegExp_i Sample.hashSync
            Sample.compareSync
            (PATCH_thought (Some "Bearer c0ffee") "111111111111111111111111"
               (mkPatchBody (Some "  edited text  ") None))
            Sample.store)).
Proof.
  apply (stored_messages_valid Sample.castObjectId Sample.RegExp_i
           Sample.hashSync Sample.compareSync
           (PATCH_thought (Some "Bearer c0ffee") "111111111111111111111111"
              (mkPatchBody (Some "  edited text  ") None))
           Sample.store).
  - unfold valid_messages. simpl. repeat constructor; simpl; lia.
  - unfold trimmed_messages. simpl. repeat constructor.
Defined.

(** ** What requests leave alone *)

Lemma map_identity_update_first (o : string) (f : Thought -> Thought)
    (l : list Thought) :
  (forall t, identity (f t) = identity t) ->
  map identity (update_first o f l) = map identity l.
Proof.
  intros Hf. induction l as [|t l IH]; simpl; [reflexivity|].
  destruct (thought_id t =? o)%string; simpl; [now rewrite Hf | now rewrite IH].
Qed.

Lemma apply_update_identity (up : Update) (t : Thought) :
  identity (apply_update up t) = identity t.
Proof. now destruct up. Qed.

Section Frames.
Variable castObjectId : string -> option string.
Variable RegExp_i : string -> option (string -> bool).
Variable hashSync : string -> string -> string.
Variable compareSync : string -> string -> bool.

(** X4. No request changes or removes a user record: at most one is
    added, at the end.  And of the thoughts, a request either appends
    one, or removes one, or leaves every thought's id, creation time and
    owner, and their order, as they were. *)
Theorem requests_keep_identity (r : Request) (st : Store) :
  let st' := snd (handle castObjectId RegExp_i hashSync compareSync r st) in
  (users st' = users st \/ exists u : User, users st' = (users st ++ [u])%list)
  /\ ((exists t : Thought, thoughts st' = (thoughts st ++ [t])%list)
      \/ (exists o, thoughts st' = remove_first o (thoughts st))
      \/ map identity (thoughts st') = map identity (thoughts st)).
Proof.
  assert (Hsame : (users st = users st
                   \/ exists u : User, users st = (users st ++ [u])%list)
                  /\ ((exists t : Thought,
                          thoughts st = (thoughts st ++ [t])%list)
                      \/ (exists o, thoughts st = remove_first o (thoughts st))
                      \/ map identity (thoughts st) = map identity (thoughts st))).
  { split; [now left | now right; right]. }
  destruct r as [|body salt new_id new_token|a|mail pw|q|id|a msg new_id now
                 |a id|id|a id body]; cbn [handle]; cbv zeta.
  - exact Hsame.
  - unfold post_users. destruct (body_password body); [|exact Hsame].
    destruct (required (body_name body)); [|exact Hsame].
    destruct (required (body_email body)); [|exact Hsame].
    destruct (required _); [|exact Hsame].
    destruct (existsb _ _); [exact Hsame|]. simpl.
    split; [right; eexists; reflexivity | now right; right].
  - unfold get_secrets, protected. now destruct (authenticateUser a st).
  - unfold post_sessions. destruct (findOne_email mail st); [|exact Hsame].
    now destruct (compareSync pw _).
  - exact Hsame.
  - unfold get_thought. now destruct (findById castObjectId id st) as [[t|]|e].
  - unfold post_thoughts, protected.
    destruct (authenticateUser a st) as [r|u]; [exact Hsame|].
    destruct (validate_message msg) as [m'|]; [|exact Hsame].
    destruct (required _); [|exact Hsame]. simpl.
    split; [now left | left; eexists; reflexivity].
  - unfold delete_thought, protected.
    destruct (authenticateUser a st) as [r|u]; [exact Hsame|].
    destruct (findById castObjectId id st) as [[t|]|e]; try exact Hsame.
    destruct (negb _); [exact Hsame|]. unfold findByIdAndDelete.
    destruct (castObjectId id) as [o|]; [|exact Hsame]. simpl.
    split; [now left | right; left; now exists o].
  - unfold patch_like, findByIdAndUpdate.
    destruct (castObjectId id) as [o|]; [|exact Hsame]. cbn [cast_update].
    assert (Hu : map identity
                   (update_first o (apply_update (Inc_hearts 1)) (thoughts st))
                 = map identity (thoughts st)).
    { apply map_identity_update_first. intros t. apply apply_update_identity. }
    destruct (lookup o (thoughts st)); simpl;
      (split; [now left | now right; right]).
  - unfold patch_thought, protected.
    destruct (authenticateUser a st) as [r|u]; [exact Hsame|].
    destruct (findById castObjectId id st) as [[t|]|e]; try exact Hsame.
    destruct (match body_message body with Some _ => _ | None => false end);
      [exact Hsame|].
    destruct (patch_fields t body) as [f perform].
    destruct (negb perform); [exact Hsame|].
    unfold findByIdAndUpdate.
    destruct (castObjectId id) as [o|]; [|exact Hsame].
    destruct (cast_update (Set_fields f) true) as [up'|e]; [|exact Hsame].
    assert (Hu : map identity (update_first o (apply_update up') (thoughts st))
                 = map identity (thoughts st)).
    { apply map_identity_update_first. intros x. apply apply_update_identity. }
    destruct (lookup o (thoughts st)); simpl;
      (split; [now left | now right; right]).
Qed.

End Frames.

(** ** Deleting a thought *)

Lemma lookup_remove_first_same (o : string) (l : list Thought) :
  NoDup (map thought_id l) -> lookup o (remove_first o l) = None.
Proof.
  unfold lookup. induction l as [|t l IH]; simpl; [reflexivity|].
  intros H. inversion H as [|x xs Hnot Hnd]; subst.
  destruct (thought_id t =? o)%string eqn:E.
  - apply String.eqb_eq in E. subst o. apply find_absent.
    intros x Hx. apply String.eqb_neq. intros Heq. apply Hnot.
    rewrite <- Heq. now apply in_map.
  - simpl. rewrite E. now apply IH.
Qed.

Lemma lookup_remove_first_other (o o' : string) (l : list Thought) :
  o' <> o -> lookup o' (remove_first o l) = lookup o' l.
Proof.
  unfold lookup. intros Hne. induction l as [|t l IH]; simpl; [reflexivity|].
  destruct (thought_id t =? o)%string eqn:E.
  - apply String.eqb_eq in E.
    destruct (thought_id t =? o')%string eqn:E'; [|reflexivity].
    apply String.eqb_eq in E'. congruence.
  - simpl. now rewrite IH.
Qed.

Lemma length_remove_first (o : string) (l : list Thought) (t : Thought) :
  lookup o l = Some t -> S (List.length (remove_first o l)) = List.length l.
Proof.
  unfold lookup. induction l as [|x l IH]; simpl; [intros H; discriminate H|].
  destruct (thought_id x =? o)%string; [reflexivity|].
  intros H. simpl. now rewrite IH.
Qed.

Section Deleting.
Variable castObjectId : string -> option string.

(** X5. After the owner has deleted a thought, [GET /thoughts/:id] for
    that id answers 404, there is one thought fewer, and every other id
    is answered as before; this, in a collection where no two thoughts
    share an id. *)
Theorem deleted_thought_is_gone
    (id o : string) (t : Thought) (u : User) (authorization : option string)
    (st : Store) :
  unique_ids st ->
  castObjectId id = Some o ->
  lookup o (thoughts st) = Some t ->
  authenticateUser authorization st = inr u ->
  userId t = user_id u ->
  let st' := snd (delete_thought castObjectId id authorization st) in
  get_thought castObjectId id st'
  = (Reply (mkResponse 404 false PNull
              ("Thought with id '" ++ id ++ "' not found.")), st')
  /\ S (List.length (thoughts st')) = List.length (thoughts st)
  /\ users st' = users st
  /\ forall id' o',
      castObjectId id' = Some o' -> o' <> o ->
      fst (get_thought castObjectId id' st')
      = fst (get_thought castObjectId id' st).
Proof.
  intros Hnd Hc Hl Ha Ho.
  assert (Hst : snd (delete_thought castObjectId id authorization st)
                = mkStore (users st) (remove_first o (thoughts st))).
  { unfold delete_thought, protected, findById, findByIdAndDelete.
    rewrite Ha, Hc, Hl. apply String.eqb_eq in Ho. now rewrite Ho. }
  cbv zeta. rewrite Hst. repeat apply conj.
  - unfold get_thought, findById. rewrite Hc. cbn [thoughts].
    now rewrite (lookup_remove_first_same o _ Hnd).
  - cbn [thoughts]. now apply length_remove_first with t.
  - reflexivity.
  - intros id' o' Hc' Hne. unfold get_thought, findById. rewrite Hc'.
    cbn [thoughts]. rewrite (lookup_remove_first_other o o' _ Hne).
    now destruct (lookup o' (thoughts st)).
Qed.

End Deleting.

Lemma deleted_thought_is_gone_witness :
  get_thought Sample.castObjectId "111111111111111111111111"
    (snd (delete_thought Sample.castObjectId "111111111111111111111111"
            (Some "Bearer c0ffee") Sample.store))
  = (Reply (mkResponse 404 false PNull
              ("Thought with id '" ++ "111111111111111111111111"
               ++ "' not found.")),
     snd (delete_thought Sample.castObjectId "111111111111111111111111"
            (Some "Bearer c0ffee") Sample.store)).
Proof.
  apply (deleted_thought_is_gone Sample.castObjectId
           "111111111111111111111111" "111111111111111111111111"
           Sample.hello Sample.alice (Some "Bearer c0ffee") Sample.store).
  - unfold unique_ids. simpl.
    repeat constructor; simpl; intuition discriminate.
  - reflexivity.
  - reflexivity.
  - reflexivity.
  - reflexivity.
Defined.

(** ** Users *)

Lemma NoDup_snoc {A} (l : list A) (x : A) :
  NoDup l -> ~ In x l -> NoDup (l ++ [x]).
Proof.
  induction 1 as [|y l Hy Hl IH]; simpl; intros Hx.
  - repeat constructor. intros [].
  - constructor.
    + intros Hin. apply in_app_or in Hin. destruct Hin as [Hin|[Heq|[]]].
      * contradiction.
      * apply Hx. now left.
    + apply IH. intros Hin. apply Hx. now right.
Qed.

Lemma existsb_taken (nm mail : string) (l : list User) :
  existsb (fun u => (name u =? nm)%string || (email u =? mail)%string) l = false ->
  ~ In nm (map name l) /\ ~ In mail (map email l).
Proof.
  intros H.
  assert (Hall : forall u, In u l ->
                   (name u =? nm)%string || (email u =? mail)%string = false).
  { intros u Hin.
    destruct ((name u =? nm)%string || (email u =? mail)%string) eqn:E;
      [|reflexivity].
    assert (Ht : existsb
                   (fun u => (name u =? nm)%string || (email u =? mail)%string)
                   l = true)
      by (apply existsb_exists; now exists u).
    rewrite H in Ht. discriminate Ht. }
  split; intros Hin; apply in_map_iff in Hin; destruct Hin as (u & Hu & Hin);
    specialize (Hall u Hin); rewrite Hu, String.eqb_refl in Hall.
  - discriminate Hall.
  - rewrite orb_true_r in Hall. discriminate Hall.
Qed.

(** What a 201 of [POST /users] tells. *)
Lemma post_users_201 (hashSync : string -> string -> string)
    (body : UserBody) (salt new_id new_token : string) (st st' : Store)
    (r : Response) :
  post_users hashSync body salt new_id new_token st = (Reply r, st') ->
  status r = 201 ->
  exists nm mail pw,
    body_name body = Some nm /\ body_email body = Some mail
    /\ body_password body = Some pw
    /\ ~ In nm (map name (users st)) /\ ~ In mail (map email (users st))
    /\ r = mkResponse 201 true (PNewUser new_id new_token nm mail)
             "User created successfully"
    /\ st' = mkStore
               (users st
                ++ [mkUser new_id nm mail (hashSync pw salt) new_token])
               (thoughts st).
Proof.
  unfold post_users. intros H Hs.
  destruct (body_password body) as [pw|];
    [|injection H as <- _; discriminate Hs].
  destruct (body_name body) as [nm|]; simpl in H;
    [|injection H as <- _; discriminate Hs].
  destruct (nm =? "")%string; [injection H as <- _; discriminate Hs|].
  destruct (body_email body) as [mail|]; simpl in H;
    [|injection H as <- _; discriminate Hs].
  destruct (mail =? "")%string; [injection H as <- _; discriminate Hs|].
  destruct (hashSync pw salt =? "")%string;
    [injection H as <- _; discriminate Hs|].
  destruct (existsb _ (users st)) eqn:E;
    [injection H as <- _; discriminate Hs|].
  apply existsb_taken in E. destruct E as [En Em].
  injection H as <- <-. exists nm, mail, pw. repeat split; auto.
Qed.

Section Users.
Variable castObjectId : string -> option string.
Variable RegExp_i : string -> option (string -> bool).
Variable hashSync : string -> string -> string.
Variable compareSync : string -> string -> bool.

Lemma handle_users (r : Request) (st : Store) :
  let st' := snd (handle castObjectId RegExp_i hashSync compareSync r st) in
  users st' = users st
  \/ exists u : User,
       users st' = (users st ++ [u])%list
       /\ ~ In (name u) (map name (users st))
       /\ ~ In (email u) (map email (users st)).
Proof.
  destruct r as [|body salt new_id new_token|a|mail pw|q|id|a msg new_id now
                 |a id|id|a id body]; cbn [handle]; cbv zeta.
  - now left.
  - unfold post_users. destruct (body_password body); [|now left].
    destruct (required (body_name body)) as [nm|]; [|now left].
    destruct (required (body_email body)) as [mail|]; [|now left].
    destruct (required _) as [h|]; [|now left].
    destruct (existsb _ _) eqn:E; [now left|].
    apply existsb_taken in E. right. eexists. split; [reflexivity|exact E].
  - left. unfold get_secrets, protected. now destruct (authenticateUser a st).
  - left. unfold post_sessions. destruct (findOne_email mail st); [|reflexivity].
    now destruct (compareSync pw _).
  - now left.
  - left. unfold get_thought.
    now destruct (findById castObjectId id st) as [[t|]|e].
  - left. unfold post_thoughts, protected.
    destruct (authenticateUser a st); [reflexivity|].
    destruct (validate_message msg); [|reflexivity].
    now destruct (required _).
  - left. unfold delete_thought, protected.
    destruct (authenticateUser a st); [reflexivity|].
    destruct (findById castObjectId id st) as [[t|]|e]; try reflexivity.
    destruct (negb _); [reflexivity|]. unfold findByIdAndDelete.
    now destruct (castObjectId id).
  - left. unfold patch_like, findByIdAndUpdate.
    destruct (castObjectId id) as [o|]; [|reflexivity]. cbn [cast_update].
    now destruct (lookup o (thoughts st)).
  - left. unfold patch_thought, protected.
    destruct (authenticateUser a st); [reflexivity|].
    destruct (findById castObjectId id st) as [[t|]|e]; try reflexivity.
    destruct (match body_message body with Some _ => _ | None => false end);
      [reflexivity|].
    destruct (patch_fields t body) as [f perform].
    destruct (negb perform); [reflexivity|].
    unfold findByIdAndUpdate.
    destruct (castObjectId id) as [o|]; [|reflexivity].
    destruct (cast_update (Set_fields f) true); [|reflexivity].
    now destruct (lookup o (thoughts st)).
Qed.

(** X6. Names and emails stay unique: if no two users share a name or an
    email, this is still so after any request.  [POST /users] with a name
    or an email some user already has is answered 409 and stores
    nothing. *)
Theorem users_stay_unique (r : Request) (st : Store) :
  unique_users st ->
  unique_users (snd (handle castObjectId RegExp_i hashSync compareSync r st))
  /\ forall body salt new_id new_token nm mail pw,
      r = POST_users body salt new_id new_token ->
      body_name body = Some nm -> body_email body = Some mail ->
      body_password body = Some pw ->
      nm <> "" -> mail <> "" -> hashSync pw salt <> "" ->
      In nm (map name (users st)) \/ In mail (map email (users st)) ->
      handle castObjectId RegExp_i hashSync compareSync r st
      = (Reply (mkResponse 409 false PError
                  "User with this name or email already exists."), st).
Proof.
  intros Hu. split.
  - destruct (handle_users r st) as [Heq | (u & Heq & Hn & Hm)];
      unfold unique_users in *.
    + now rewrite Heq.
    + rewrite Heq, !map_app. destruct Hu as [Hun Hue].
      split; now apply NoDup_snoc.
  - intros body salt new_id new_token nm mail pw -> Hn Hm Hp Hnn Hmn Hh Htaken.
    cbn [handle]. unfold post_users.
    rewrite Hp, Hn, Hm, !required_nonempty by assumption.
    assert (He : existsb (fun u => (name u =? nm)%string || (email u =? mail)%string)
                   (users st) = true).
    { apply existsb_exists. destruct Htaken as [Hin|Hin];
        apply in_map_iff in Hin; destruct Hin as (u & Heq & Hin);
        exists u; (split; [exact Hin|]); rewrite Heq, String.eqb_refl;
        auto using orb_true_r. }
    now rewrite He.
Qed.

End Users.

Lemma users_stay_unique_witness :
  unique_users
    (snd (handle Sample.castObjectId Sample.RegExp_i Sample.hashSync
            Sample.compareSync
            (POST_users (mkUserBody (Some "carol") (Some "carol@x.com")
                           (Some "pass1234")) "s" "cccccccccccccccccccccccc"
               "beef")
            Sample.store))
  /\ handle Sample.castObjectId Sample.RegExp_i Sample.hashSync
       Sample.compareSync
       (POST_users (mkUserBody (Some "alice") (Some "other@x.com")
                      (Some "pass1234")) "s" "cccccccccccccccccccccccc" "beef")
       Sample.store
     = (Reply (mkResponse 409 false PError
                 "User with this name or email already exists."),
        Sample.store).
Proof.
  assert (Hu : unique_users Sample.store).
  { unfold unique_users. simpl.
    split; repeat constructor; simpl; intuition discriminate. }
  split.
  - apply (users_stay_unique Sample.castObjectId Sample.RegExp_i
             Sample.hashSync Sample.compareSync _ Sample.store Hu).
  - destruct (users_stay_unique Sample.castObjectId Sample.RegExp_i
                Sample.hashSync Sample.compareSync
                (POST_users
                   (mkUserBody (Some "alice") (Some "other@x.com")
                      (Some "pass1234")) "s" "cccccccccccccccccccccccc" "beef")
                Sample.store Hu) as [_ H].
    apply (H (mkUserBody (Some "alice") (Some "other@x.com") (Some "pass1234"))
             "s" "cccccccccccccccccccccccc" "beef" "alice" "other@x.com"
             "pass1234" eq_refl eq_refl eq_refl eq_refl);
      try discriminate.
    left. simpl. auto.
Defined.

(** ** Signing up, signing in, and the token *)

Lemma find_snoc {A} (f : A -> bool) (l : list A) (x : A) :
  find f l = None -> f x = true -> find f (l ++ [x]) = Some x.
Proof.
  induction l as [|y l IH]; simpl; intros Hl Hx; [now rewrite Hx|].
  destruct (f y); [discriminate Hl | now apply IH].
Qed.

Lemma find_snoc_other {A} (f : A -> bool) (l : list A) (x : A) :
  f x = false -> find f (l ++ [x]) = find f l.
Proof.
  intros Hx. induction l as [|y l IH]; simpl; [now rewrite Hx|].
  now destruct (f y).
Qed.

Lemma substring_all (s : string) : substring 0 (String.length s) s = s.
Proof. induction s as [|c s IH]; simpl; [reflexivity | now rewrite IH]. Qed.

(** The scheme in front of a token is what [replace] removes. *)
Lemma bearer_token_scheme (tok : string) :
  bearer_token (Some ("Bearer " ++ tok)%string) = Some tok.
Proof.
  unfold bearer_token. simpl. unfold JS.drop. simpl.
  assert (Hp : prefix "" tok = true) by now destruct tok.
  now rewrite Hp, Nat.sub_0_r, substring_all.
Qed.

Section Accounts.
Variable hashSync : string -> string -> string.
Variable compareSync : string -> string -> bool.

(** X7. After a sign-up answered 201, signing in with the same email and
    password answers 200 with the new user's id, token and name, as long
    as bcrypt accepts a password against its own hash.  A password bcrypt
    rejects, and an email no user has, get one and the same 401: the
    answer does not tell which of the two was wrong. *)
Theorem sign_up_then_sign_in
    (body : UserBody) (salt new_id new_token : string) (st st' : Store)
    (r : Response) (mail pw : string) :
  post_users hashSync body salt new_id new_token st = (Reply r, st') ->
  status r = 201 ->
  body_email body = Some mail ->
  body_password body = Some pw ->
  compareSync pw (hashSync pw salt) = true ->
  (exists nm,
      body_name body = Some nm
      /\ post_sessions compareSync mail pw st'
         = (Reply (mkResponse 200 true (PSession new_id new_token nm)
                     "Login successful."), st'))
  /\ (forall pw',
         compareSync pw' (hashSync pw salt) = false ->
         post_sessions compareSync mail pw' st'
         = (Reply (mkResponse 401 false PNull
                     "Login failed: Invalid email or password."), st'))
  /\ (forall mail' pw',
         ~ In mail' (map email (users st')) ->
         post_sessions compareSync mail' pw' st'
         = (Reply (mkResponse 401 false PNull
                     "Login failed: Invalid email or password."), st')).
Proof.
  intros Hp Hs Hmail Hpw Hbcrypt.
  destruct (post_users_201 hashSync _ _ _ _ _ _ _ Hp Hs)
    as (nm & mail0 & pw0 & Hn & Hm & Hp0 & _ & Hfresh & _ & Hst).
  rewrite Hmail in Hm. injection Hm as <-.
  rewrite Hpw in Hp0. injection Hp0 as <-.
  assert (Hfind : findOne_email mail st'
                  = Some (mkUser new_id nm mail (hashSync pw salt) new_token)).
  { rewrite Hst. unfold findOne_email. cbn [users]. apply find_snoc.
    - apply find_absent. intros u Hu. apply String.eqb_neq. intros Heq.
      apply Hfresh. rewrite <- Heq. now apply in_map.
    - simpl. apply String.eqb_refl. }
  split; [|split].
  - exists nm. split; [exact Hn|]. unfold post_sessions.
    rewrite Hfind. cbn [password]. now rewrite Hbcrypt.
  - intros pw' Hbad. unfold post_sessions. rewrite Hfind. cbn [password].
    now rewrite Hbad.
  - intros mail' pw' Hno. unfold post_sessions.
    assert (Hnone : findOne_email mail' st' = None).
    { unfold findOne_email. apply find_absent. intros u Hu.
      apply String.eqb_neq. intros Heq. apply Hno. rewrite <- Heq.
      now apply in_map. }
    now rewrite Hnone.
Qed.

(** X8. After a sign-up answered 201, the token it returned, sent as
    "Bearer <token>", authenticates as the new user and [GET /secrets]
    greets that user by name; this for a token that is not empty and
    that no earlier user carries.  Users who could authenticate before
    still authenticate as themselves. *)
Theorem sign_up_then_authenticate
    (body : UserBody) (salt new_id new_token : string) (st st' : Store)
    (r : Response) :
  post_users hashSync body salt new_id new_token st = (Reply r, st') ->
  status r = 201 ->
  new_token <> "" ->
  ~ In new_token (map accessToken (users st)) ->
  (exists nm user,
      body_name body = Some nm
      /\ name user = nm /\ user_id user = new_id
      /\ authenticateUser (Some ("Bearer " ++ new_token)%string) st' = inr user
      /\ get_secrets (Some ("Bearer " ++ new_token)%string) st'
         = (Reply (mkResponse 200 true
                     (PSecret ("This is a secret, accessible only to authenticated user: "
                               ++ nm))
                     "Secret retrieved successfully."), st'))
  /\ (forall authorization u,
         authenticateUser authorization st = inr u ->
         authenticateUser authorization st' = inr u).
Proof.
  intros Hp Hs Hne Hfresh.
  destruct (post_users_201 hashSync _ _ _ _ _ _ _ Hp Hs)
    as (nm & mail & pw & Hn & _ & _ & _ & _ & _ & Hst).
  split.
  - exists nm, (mkUser new_id nm mail (hashSync pw salt) new_token).
    assert (Ha : authenticateUser (Some ("Bearer " ++ new_token)%string) st'
                 = inr (mkUser new_id nm mail (hashSync pw salt) new_token)).
    { apply (authenticateUser_found _ new_token);
        [apply bearer_token_scheme | exact Hne |].
      rewrite Hst. unfold findOne_accessToken. cbn [users]. apply find_snoc.
      - apply find_absent. intros u Hu. apply String.eqb_neq. intros Heq.
        apply Hfresh. rewrite <- Heq. now apply in_map.
      - simpl. apply String.eqb_refl. }
    repeat split; auto. unfold get_secrets, protected. now rewrite Ha.
  - intros authorization u. unfold authenticateUser.
    destruct (negb (JS.truthy (bearer_token authorization)));
      [intros H; discriminate H|].
    destruct (bearer_token authorization) as [tok|]; [|intros H; discriminate H].
    unfold findOne_accessToken. rewrite Hst. cbn [users].
    destruct (find (fun u0 => (accessToken u0 =? tok)%string) (users st))
      as [u0|] eqn:Hf; intros H; [|discriminate H].
    injection H as <-.
    assert (Hfind : find (fun u1 => (accessToken u1 =? tok)%string)
                      (users st
                       ++ [mkUser new_id nm mail (hashSync pw salt) new_token])
                    = Some u0).
    { clear - Hf. induction (users st) as [|y l IH]; simpl in *;
        [discriminate Hf|].
      destruct (accessToken y =? tok)%string; [exact Hf | now apply IH]. }
    now rewrite Hfind.
Qed.

End Accounts.

Lemma sign_up_then_sign_in_witness :
  exists nm,
    Some "carol" = Some nm
    /\ post_sessions Sample.compareSync "carol@x.com" "pass1234"
         (mkStore
            (users Sample.store
             ++ [mkUser "cccccccccccccccccccccccc" "carol" "carol@x.com"
                   (Sample.hashSync "pass1234" "s") "beef"])
            (thoughts Sample.store))
       = (Reply (mkResponse 200 true
                   (PSession "cccccccccccccccccccccccc" "beef" nm)
                   "Login successful."),
          mkStore
            (users Sample.store
             ++ [mkUser "cccccccccccccccccccccccc" "carol" "carol@x.com"
                   (Sample.hashSync "pass1234" "s") "beef"])
            (thoughts Sample.store)).
Proof.
  exact (proj1
           (sign_up_then_sign_in Sample.hashSync Sample.compareSync
              (mkUserBody (Some "carol") (Some "carol@x.com") (Some "pass1234"))
              "s" "cccccccccccccccccccccccc" "beef" Sample.store
              (mkStore
                 (users Sample.store
                  ++ [mkUser "cccccccccccccccccccccccc" "carol" "carol@x.com"
                        (Sample.hashSync "pass1234" "s") "beef"])
                 (thoughts Sample.store))
              (mkResponse 201 true
                 (PNewUser "cccccccccccccccccccccccc" "beef" "carol" "carol@x.com")
                 "User created successfully")
              "carol@x.com" "pass1234"
              eq_refl eq_refl eq_refl eq_refl eq_refl)).
Defined.

Lemma sign_up_then_authenticate_witness :
  exists user,
    name user = "carol"
    /\ authenticateUser (Some "Bearer beef")
         (mkStore
            (users Sample.store
             ++ [mkUser "cccccccccccccccccccccccc" "carol" "carol@x.com"
                   (Sample.hashSync "pass1234" "s") "beef"])
            (thoughts Sample.store))
       = inr user.
Proof.
  assert (Hne : "beef" <> "") by discriminate.
  assert (Hfresh : ~ In "beef" (map accessToken (users Sample.store))).
  { simpl. intuition discriminate. }
  destruct (sign_up_then_authenticate Sample.hashSync
              (mkUserBody (Some "carol") (Some "carol@x.com") (Some "pass1234"))
              "s" "cccccccccccccccccccccccc" "beef" Sample.store
              (mkStore
                 (users Sample.store
                  ++ [mkUser "cccccccccccccccccccccccc" "carol" "carol@x.com"
                        (Sample.hashSync "pass1234" "s") "beef"])
                 (thoughts Sample.store))
              (mkResponse 201 true
                 (PNewUser "cccccccccccccccccccccccc" "beef" "carol" "carol@x.com")
                 "User created successfully")
              eq_refl eq_refl Hne Hfresh)
    as ((nm & user & Hn & Hname & _ & Ha & _) & _).
  exists user. split; [|exact Ha].
  rewrite Hname. now injection Hn as <-.
Defined.

(** ** Orders of the listing *)

Lemma insert_ext {A} (cmp cmp' : A -> A -> Z) (x : A) (l : list A) :
  (forall a b, cmp a b = cmp' a b) -> JS.insert cmp x l = JS.insert cmp' x l.
Proof.
  intros H. induction l as [|y l IH]; simpl; [reflexivity|].
  now rewrite H, IH.
Qed.

Lemma sort_ext {A} (cmp cmp' : A -> A -> Z) (l : list A) :
  (forall a b, cmp a b = cmp' a b) -> JS.sort cmp l = JS.sort cmp' l.
Proof.
  intros H. unfold JS.sort. generalize (@nil A).
  induction l as [|x l IH]; intros acc; simpl; [reflexivity|].
  now rewrite (insert_ext cmp cmp' x acc H), IH.
Qed.

Lemma StronglySorted_impl {A} (R R' : A -> A -> Prop) (l : list A) :
  (forall a b, R a b -> R' a b) -> StronglySorted R l -> StronglySorted R' l.
Proof.
  intros H. induction 1 as [|x l Hl IH Hx]; constructor; [exact IH|].
  eapply Forall_impl; [|exact Hx]. intros b. apply H.
Qed.

Lemma sort_hearts_descending (l : list Thought) :
  most_hearts_first (JS.sort (fun a b => hearts b - hearts a) l).
Proof. apply (sort_descending hearts). Qed.

Lemma sort_createdAt_descending (l : list Thought) :
  newest_first (JS.sort (fun a b => createdAt b - createdAt a) l).
Proof. apply (sort_descending createdAt). Qed.

Lemma sort_createdAt_ascending (l : list Thought) :
  oldest_first (JS.sort (fun a b => createdAt a - createdAt b) l).
Proof.
  rewrite (sort_ext _ (fun a b => - createdAt b - - createdAt a));
    [|intros a b; lia].
  eapply StronglySorted_impl;
    [|apply (sort_descending (fun t => - createdAt t))].
  intros a b H. simpl in H. lia.
Qed.

Lemma sorted_window {R : Thought -> Thought -> Prop} (n : Z) (k : nat)
    (l : list Thought) :
  StronglySorted R l -> StronglySorted R (mongo_limit n (skipn k l)).
Proof.
  intros H. unfold mongo_limit.
  destruct (n =? 0);
    [|apply StronglySorted_firstn]; now apply StronglySorted_skipn.
Qed.

Lemma sorted_slice {R : Thought -> Thought -> Prop} (i j : Z)
    (l : list Thought) :
  StronglySorted R l -> StronglySorted R (JS.slice i j l).
Proof.
  intros H. unfold JS.slice.
  now apply StronglySorted_firstn, StronglySorted_skipn.
Qed.

(** X9. The orders of the listing the claims leave out: on the
    authenticated server a page for [sort=hearts] has the most hearts
    first and a page for [sort=createdAt_asc] the oldest first; on
    [server.js] a page for [sort=hearts] has the most hearts first; on
    the in-memory server [sort=hearts] gives the most hearts first and
    [sort=createdAt] the newest first. *)
Theorem listing_orders
    (castObjectId : string -> option string)
    (RegExp_i : string -> option (string -> bool))
    (toLowerCase : string -> string)
    (q : ThoughtsQuery) (st : Store) (data : list Thought)
    (total page count : Z) (l : list Thought) (msg : string) :
  (q_sort q = Some "hearts" ->
   get_thoughts castObjectId RegExp_i q st
   = Reply (mkResponse 200 true (PPage total page count l) msg) ->
   most_hearts_first l)
  /\ (q_sort q = Some "createdAt_asc" ->
      get_thoughts castObjectId RegExp_i q st
      = Reply (mkResponse 200 true (PPage total page count l) msg) ->
      oldest_first l)
  /\ (q_sort q = Some "hearts" ->
      ServerJs.get_thoughts castObjectId RegExp_i q st
      = Reply (mkResponse 200 true (PPage total page count l) msg) ->
      most_hearts_first l)
  /\ (q_sort q = Some "hearts" ->
      InMemory.get_thoughts toLowerCase data q = InMemory.Page total page count l ->
      most_hearts_first l)
  /\ (q_sort q = Some "createdAt" ->
      InMemory.get_thoughts toLowerCase data q = InMemory.Page total page count l ->
      newest_first l).
Proof.
  repeat apply conj.
  - intros Hq H.
    destruct (get_thoughts_200 castObjectId RegExp_i q st _ H eq_refl)
      as (minHearts & regex & so & all & _ & _ & Hso & _ & _ & Hr).
    unfold sort_stage in Hso. rewrite Hq in Hso. injection Hso as <-.
    cbv zeta in Hr. injection Hr as _ _ _ ->.
    apply sorted_window. simpl. apply sort_hearts_descending.
  - intros Hq H.
    destruct (get_thoughts_200 castObjectId RegExp_i q st _ H eq_refl)
      as (minHearts & regex & so & all & _ & _ & Hso & _ & _ & Hr).
    unfold sort_stage in Hso. rewrite Hq in Hso. injection Hso as <-.
    cbv zeta in Hr. injection Hr as _ _ _ ->.
    apply sorted_window. simpl. apply sort_createdAt_ascending.
  - intros Hq H.
    destruct (server_js_200 castObjectId RegExp_i q st _ H eq_refl)
      as (minHearts & regex & so & all & _ & _ & Hso & _ & _ & Hr).
    unfold ServerJs.sort_stage in Hso. rewrite Hq in Hso. injection Hso as <-.
    cbv zeta in Hr. injection Hr as _ _ _ ->.
    apply sorted_window. simpl. apply sort_hearts_descending.
  - intros Hq H.
    destruct (in_memory_page toLowerCase data q total page count l H)
      as (kept & sorted & _ & Hs & _ & _ & -> & _).
    unfold InMemory.sort_thoughts in Hs. rewrite Hq in Hs. injection Hs as <-.
    apply sorted_slice, sort_hearts_descending.
  - intros Hq H.
    destruct (in_memory_page toLowerCase data q total page count l H)
      as (kept & sorted & _ & Hs & _ & _ & -> & _).
    unfold InMemory.sort_thoughts in Hs. rewrite Hq in Hs. injection Hs as <-.
    apply sorted_slice, sort_createdAt_descending.
Qed.

Lemma listing_orders_witness :
  most_hearts_first [Sample.coffee; Sample.hello; Sample.happy]
  /\ oldest_first [Sample.hello; Sample.coffee; Sample.happy].
Proof.
  split.
  - destruct (listing_orders Sample.castObjectId Sample.RegExp_i
                Sample.toLowerCase
                (Sample.query None None None None (Some "hearts")) Sample.store
                [] 3 1 3 [Sample.coffee; Sample.hello; Sample.happy]
                "Thoughts retrieved successfully.") as (H & _).
    exact (H eq_refl eq_refl).
  - destruct (listing_orders Sample.castObjectId Sample.RegExp_i
                Sample.toLowerCase
                (Sample.query None None None None (Some "createdAt_asc"))
                Sample.store [] 3 1 3
                [Sample.hello; Sample.coffee; Sample.happy]
                "Thoughts retrieved successfully.") as (_ & H & _).
    exact (H eq_refl eq_refl).
Defined.

(** ** What a listing contains *)

Lemma length_mongo_sort (so : SortOptions) (l : list Thought) :
  List.length (mongo_sort so l) = List.length l.
Proof.
  destruct so as [|dir|dir]; simpl; [reflexivity| |];
    destruct (dir <? 0); apply length_sort.
Qed.

Lemma length_mongo_window (n : Z) (k : nat) (l : list Thought) :
  (List.length (mongo_limit n (skipn k l)) <= List.length l)%nat.
Proof.
  unfold mongo_limit. destruct (n =? 0).
  - rewrite length_skipn. lia.
  - rewrite length_firstn, length_skipn. lia.
Qed.

Lemma length_slice {A} (i j : Z) (l : list A) :
  (List.length (JS.slice i j l) <= List.length l)%nat.
Proof.
  unfold JS.slice. rewrite length_firstn, length_skipn. lia.
Qed.

Lemma select_matches (castObjectId : string -> option string)
    (query : Query) (st : Store) (all : list Thought) :
  select castObjectId query st = Ok all ->
  exists oid,
    match query_id query with
    | Some id => castObjectId id = oid
    | None => oid = None
    end
    /\ Forall (fun t => In t (thoughts st) /\ matches oid query t = true) all.
Proof.
  unfold select. intros H.
  assert (Hf : forall oid,
             Forall (fun t => In t (thoughts st) /\ matches oid query t = true)
               (filter (matches oid query) (thoughts st))).
  { intros oid. apply Forall_forall. intros t Ht. now apply filter_In in Ht. }
  destruct (query_id query) as [id|].
  - destruct (castObjectId id) as [o|] eqn:Hc; [|discriminate H].
    injection H as <-. exists (Some o). split; [reflexivity | apply Hf].
  - injection H as <-. exists None. split; [reflexivity | apply Hf].
Qed.

(** X10. What [GET /thoughts] returns with a 200.  On the authenticated
    server: every listed thought is a stored one, its message matches the
    regular expression made of a non-empty [message] parameter, it has
    the id a non-empty [id] parameter casts to, and no more thoughts are
    listed than the total says; an [id] that does not cast never gets a
    200.  On the in-memory server: every listed thought is one of
    [thoughtData], its message, lowered by [toLowerCase], contains the
    lowered non-empty [message] parameter, whatever [toLowerCase] does to
    a string, and the count is at most the total, which is at most the
    size of [thoughtData]. *)
Theorem listing_contents
    (castObjectId : string -> option string)
    (RegExp_i : string -> option (string -> bool))
    (toLowerCase : string -> string)
    (q : ThoughtsQuery) (st : Store) (data : list Thought) :
  (forall total page count l msg,
      get_thoughts castObjectId RegExp_i q st
      = Reply (mkResponse 200 true (PPage total page count l) msg) ->
      Forall (fun t => In t (thoughts st)) l
      /\ (forall m re,
             q_message q = Some m -> m <> "" -> RegExp_i m = Some re ->
             Forall (fun t => re (message t) = true) l)
      /\ (forall id o,
             q_id q = Some id -> id <> "" -> castObjectId id = Some o ->
             Forall (fun t => thought_id t = o) l)
      /\ count = Z.of_nat (List.length l) /\ count <= total)
  /\ (forall id r,
         q_id q = Some id -> id <> "" -> castObjectId id = None ->
         get_thoughts castObjectId RegExp_i q st = Reply r ->
         status r <> 200)
  /\ (forall total page count l,
         InMemory.get_thoughts toLowerCase data q = InMemory.Page total page count l ->
         Forall (fun t => In t data) l
         /\ (forall m,
                q_message q = Some m -> m <> "" ->
                Forall (fun t =>
                          JS.includes (toLowerCase m)
                            (toLowerCase (message t)) = true) l)
         /\ count = Z.of_nat (List.length l) /\ count <= total
         /\ total <= Z.of_nat (List.length data)).
Proof.
  repeat apply conj.
  - intros total page count l msg H.
    destruct (get_thoughts_200 castObjectId RegExp_i q st _ H eq_refl)
      as (minHearts & regex & so & all & _ & Hm & _ & Hsel & _ & Hr).
    cbv zeta in Hr. injection Hr as -> _ -> ->.
    destruct (select_matches castObjectId _ st all Hsel) as (oid & Hoid & Hall).
    cbn [query_id] in Hoid.
    assert (Hkeep : forall P : Thought -> Prop,
               Forall P all ->
               Forall P
                 (mongo_limit (limitNum q)
                    (skipn (Z.to_nat ((pageNum q - 1) * limitNum q))
                       (mongo_sort so all)))).
    { intros P HP.
      now apply Forall_mongo_limit, Forall_skipn', Forall_mongo_sort. }
    repeat apply conj.
    + apply Hkeep. eapply Forall_impl; [|exact Hall]. now intros t [Ht _].
    + intros m re Hq Hne Hre. apply Hkeep.
      unfold message_stage in Hm. rewrite Hq in Hm.
      rewrite (truthy_nonempty m Hne), Hre in Hm. injection Hm as <-.
      eapply Forall_impl; [|exact Hall]. intros t [_ Ht].
      unfold matches in Ht. cbn [query_message_regex] in Ht.
      now apply andb_prop in Ht.
    + intros id o Hq Hne Hc. apply Hkeep.
      unfold id_filter in Hoid. rewrite Hq, (truthy_nonempty id Hne) in Hoid.
      rewrite Hc in Hoid. subst oid.
      eapply Forall_impl; [|exact Hall]. intros t [_ Ht].
      unfold matches in Ht. apply andb_prop in Ht. destruct Ht as [Ht _].
      apply andb_prop in Ht. destruct Ht as [Ht _]. now apply String.eqb_eq.
    + reflexivity.
    + pose proof (length_mongo_window (limitNum q)
                    (Z.to_nat ((pageNum q - 1) * limitNum q))
                    (mongo_sort so all)) as Hlen.
      rewrite length_mongo_sort in Hlen. lia.
  - intros id r Hq Hne Hc H Hs.
    destruct (get_thoughts_200 castObjectId RegExp_i q st _ H Hs)
      as (minHearts & regex & so & all & _ & _ & _ & Hsel & _).
    unfold select in Hsel. cbn [query_id] in Hsel. unfold id_filter in Hsel.
    rewrite Hq, (truthy_nonempty id Hne), Hc in Hsel. discriminate Hsel.
  - intros total page count l H.
    destruct (in_memory_page toLowerCase data q total page count l H)
      as (kept & sorted & Hk & Hs & -> & _ & -> & ->).
    assert (Hkept : Forall (fun t => In t data) kept
                    /\ (List.length kept <= List.length data)%nat).
    { unfold InMemory.filter_hearts in Hk.
      destruct (JS.truthy (q_hearts q)).
      - destruct (JS.parseInt (q_hearts q)) as [m|]; [|discriminate Hk].
        injection Hk as <-. split.
        + apply Forall_forall. intros t Ht. now apply filter_In in Ht.
        + apply filter_length_le.
      - injection Hk as <-. split; [|lia].
        apply Forall_forall. now intros t Ht. }
    destruct Hkept as [Hin Hlen].
    assert (Hmsg : (List.length (InMemory.filter_message toLowerCase q kept)
                    <= List.length kept)%nat).
    { unfold InMemory.filter_message. destruct (q_message q); [|lia].
      destruct (JS.truthy _); [apply filter_length_le | lia]. }
    pose proof (in_memory_sort_length q _ sorted Hs) as Hsl.
    repeat apply conj.
    + apply Forall_slice. apply (in_memory_sorted_keeps _ q _ sorted Hs).
      now apply in_memory_message_keeps.
    + intros m Hq Hne. apply Forall_slice.
      apply (in_memory_sorted_keeps _ q _ sorted Hs).
      unfold InMemory.filter_message.
      rewrite Hq, (truthy_nonempty m Hne). apply Forall_filter.
    + reflexivity.
    + pose proof (length_slice ((pageNum q - 1) * limitNum q)
                    (pageNum q * limitNum q) sorted). lia.
    + lia.
Qed.

Lemma listing_contents_witness :
  Forall (fun t => JS.includes (JS.toLowerCase "H")
                     (JS.toLowerCase (message t)) = true)
    [Sample.hello; Sample.happy]
  /\ (forall r,
         get_thoughts Sample.castObjectId Sample.RegExp_i
           (mkThoughtsQuery None None None None None (Some "not-an-id"))
           Sample.store = Reply r ->
         status r <> 200).
Proof.
  destruct (listing_contents Sample.castObjectId Sample.RegExp_i
                Sample.toLowerCase
              (Sample.query None (Some "H") None None None) Sample.store
              [Sample.hello; Sample.happy; Sample.coffee]) as (_ & _ & Hmem).
  destruct (listing_contents Sample.castObjectId Sample.RegExp_i
                Sample.toLowerCase
              (mkThoughtsQuery None None None None None (Some "not-an-id"))
              Sample.store []) as (_ & Hid & _).
  split.
  - destruct (Hmem 2 1 2 [Sample.hello; Sample.happy] eq_refl)
      as (_ & H & _).
    apply (H "H" eq_refl). discriminate.
  - intros r. apply (Hid "not-an-id" r eq_refl); [discriminate | reflexivity].
Defined.

(** ** Paging through a listing *)

Lemma firstn_add {A} (a b : nat) (l : list A) :
  firstn (a + b) l = (firstn a l ++ firstn b (skipn a l))%list.
Proof.
  revert l. induction a as [|a IH]; intros l; simpl; [reflexivity|].
  destruct l as [|x l]; simpl; [now rewrite firstn_nil | now rewrite IH].
Qed.

Lemma pages_firstn {A} (n : nat) (limit : Z) (l : list A) :
  0 <= limit -> pages n limit l = firstn (n * Z.to_nat limit) l.
Proof.
  intros Hl. unfold pages. induction n as [|n IH]; [reflexivity|].
  rewrite seq_S, map_app, concat_app, IH. simpl.
  rewrite app_nil_r. unfold window.
  replace (Z.to_nat ((Z.of_nat n + 1 - 1) * limit))
    with (n * Z.to_nat limit)%nat by nia.
  rewrite <- firstn_add. f_equal. lia.
Qed.

(** X11. Paging covers a listing once: with a limit of at least 1, the
    pages 1 to [n], cut as the handlers cut them ([slice] on the
    in-memory server, [skip] and [limit] on the others) and put one after
    the other, are the first [n * limit] records in order, hence all of
    them as soon as [n * limit] reaches their number; and a page that
    starts at or after the end is empty. *)
Theorem pages_cover (limit : Z) (n : nat) (l : list Thought) :
  1 <= limit ->
  let sliced p :=
    JS.slice ((Z.of_nat p + 1 - 1) * limit) ((Z.of_nat p + 1) * limit) l in
  let skipped p :=
    mongo_limit limit (skipn (Z.to_nat ((Z.of_nat p + 1 - 1) * limit)) l) in
  List.concat (map sliced (seq 0 n)) = firstn (n * Z.to_nat limit) l
  /\ List.concat (map skipped (seq 0 n)) = firstn (n * Z.to_nat limit) l
  /\ (Z.of_nat (List.length l) <= Z.of_nat n * limit ->
      List.concat (map sliced (seq 0 n)) = l
      /\ List.concat (map skipped (seq 0 n)) = l)
  /\ (forall page,
         1 <= page -> Z.of_nat (List.length l) <= (page - 1) * limit ->
         JS.slice ((page - 1) * limit) (page * limit) l = []
         /\ mongo_limit limit (skipn (Z.to_nat ((page - 1) * limit)) l) = []).
Proof.
  intros Hl sliced skipped.
  assert (Hs : map sliced (seq 0 n)
               = map (fun p => window (Z.of_nat p + 1) limit l) (seq 0 n)).
  { apply map_ext. intros p. unfold sliced. apply slice_window; lia. }
  assert (Hk : map skipped (seq 0 n)
               = map (fun p => window (Z.of_nat p + 1) limit l) (seq 0 n)).
  { apply map_ext. intros p. unfold skipped. apply mongo_limit_window; lia. }
  assert (Hp : List.concat
                 (map (fun p => window (Z.of_nat p + 1) limit l) (seq 0 n))
               = firstn (n * Z.to_nat limit) l).
  { apply (pages_firstn n limit l). lia. }
  rewrite Hs, Hk, Hp. split; [reflexivity|]. split; [reflexivity|]. split.
  - intros Hall. split; apply firstn_all2; nia.
  - intros page H1 Hend. split.
    + rewrite slice_window by lia. unfold window.
      rewrite skipn_all2 by lia. apply firstn_nil.
    + rewrite mongo_limit_window by lia. unfold window.
      rewrite skipn_all2 by lia. apply firstn_nil.
Qed.

Lemma pages_cover_witness :
  List.concat
    (map (fun p =>
            JS.slice ((Z.of_nat p + 1 - 1) * 2) ((Z.of_nat p + 1) * 2)
              [Sample.hello; Sample.happy; Sample.coffee])
       (seq 0 2))
  = [Sample.hello; Sample.happy; Sample.coffee].
Proof.
  assert (H1 : 1 <= 2) by lia.
  destruct (pages_cover 2 2 [Sample.hello; Sample.happy; Sample.coffee] H1)
    as (_ & _ & H & _).
  apply H. simpl. lia.
Defined.

(** ** Seeding *)

Lemma seed_document_valid (thought : SeedThought) (new_id : string) (now : Z)
    (m : string) :
  validate_message (seed_message thought) = Some m ->
  seed_document thought new_id now
  = Some (mkThought new_id m (JS.or_default (seed_hearts thought) 0)
            (match seed_createdAt thought with Some d => d | None => now end)
            (match seed_userId thought with
             | Some u => if (u =? "")%string then "seed-user-id" else u
             | None => "seed-user-id"
             end)).
Proof.
  intros Hv. unfold seed_document. rewrite Hv.
  destruct (seed_userId thought) as [u|]; simpl; [|reflexivity].
  destruct (u =? "")%string eqn:E; simpl; [reflexivity|]. now rewrite E.
Qed.

Lemma seed_document_invalid (thought : SeedThought) (new_id : string) (now : Z) :
  validate_message (seed_message thought) = None ->
  seed_document thought new_id now = None.
Proof. intros Hv. unfold seed_document. now rewrite Hv. Qed.

Section SeedingProperties.
Variable fresh : nat -> string * Z.

Lemma seed_loop_prefix (good rest : list SeedThought) (i : nat)
    (saved : list Thought) :
  Forall (fun s => validate_message (seed_message s) <> None) good ->
  exists docs,
    seed_loop fresh (good ++ rest) i saved
    = seed_loop fresh rest (i + List.length good) (saved ++ docs)
    /\ map (fun t => Some (message t)) docs
       = map (fun s => validate_message (seed_message s)) good
    /\ map hearts docs = map (fun s => JS.or_default (seed_hearts s) 0) good
    /\ map userId docs
       = map (fun s => match seed_userId s with
                       | Some u => if (u =? "")%string then "seed-user-id" else u
                       | None => "seed-user-id"
                       end) good
    /\ map thought_id docs
       = map (fun k => fst (fresh k)) (seq i (List.length good)).
Proof.
  intros Hgood. revert i saved.
  induction Hgood as [|s good Hs Hgood IH]; intros i saved.
  - exists []. simpl. rewrite app_nil_r, Nat.add_0_r. repeat split.
  - destruct (validate_message (seed_message s)) as [m|] eqn:Hv;
      [|now destruct Hs].
    destruct (IH (S i)
                ((saved
                 ++ [mkThought (fst (fresh i)) m
                       (JS.or_default (seed_hearts s) 0)
                       (match seed_createdAt s with
                        | Some d => d
                        | None => snd (fresh i)
                        end)
                       (match seed_userId s with
                        | Some u =>
                            if (u =? "")%string then "seed-user-id" else u
                        | None => "seed-user-id"
                        end)])%list))
      as (docs & Hloop & Hm & Hh & Hu & Hi).
    eexists (_ :: docs). simpl.
    rewrite (seed_document_valid s _ _ m Hv), Hloop.
    rewrite <- app_assoc. simpl.
    replace (i + S (List.length good))%nat with (S i + List.length good)%nat
      by lia.
    split; [reflexivity|]. simpl. rewrite Hv.
    now rewrite Hm, Hh, Hu, Hi.
Qed.

(** X12. [seedDatabase] replaces the collection by the entries of
    [thoughtData] up to the first one whose message the schema refuses,
    in order, and stores nothing of what follows it; the users are left
    alone.  Each stored entry has its message trimmed, [hearts || 0] for
    hearts and [userId || 'seed-user-id'] for owner, and the stored
    messages respect the schema's bounds on [length] (UTF-16 code
    units). *)
Theorem seeding_stops_at_first_invalid
    (good rest : list SeedThought) (st : Store) :
  Forall (fun s => validate_message (seed_message s) <> None) good ->
  (rest = []
   \/ exists bad rest',
       rest = bad :: rest' /\ validate_message (seed_message bad) = None) ->
  let st' := seedDatabase fresh (good ++ rest) st in
  users st' = users st
  /\ List.length (thoughts st') = List.length good
  /\ map (fun t => Some (message t)) (thoughts st')
     = map (fun s => validate_message (seed_message s)) good
  /\ map hearts (thoughts st')
     = map (fun s => JS.or_default (seed_hearts s) 0) good
  /\ map userId (thoughts st')
     = map (fun s => match seed_userId s with
                     | Some u => if (u =? "")%string then "seed-user-id" else u
                     | None => "seed-user-id"
                     end) good
  /\ map thought_id (thoughts st')
     = map (fun k => fst (fresh k)) (seq 0 (List.length good))
  /\ valid_messages st'.
Proof.
  intros Hgood Hrest. cbv zeta. unfold seedDatabase. cbn [users thoughts].
  destruct (seed_loop_prefix good rest 0 [] Hgood)
    as (docs & Hloop & Hm & Hh & Hu & Hi).
  assert (Hend : seed_loop fresh rest (0 + List.length good) ([] ++ docs)
                 = docs).
  { destruct Hrest as [-> | (bad & rest' & -> & Hbad)]; simpl; [reflexivity|].
    now rewrite (seed_document_invalid bad _ _ Hbad). }
  rewrite Hloop, Hend. split; [reflexivity|]. split.
  { apply (f_equal (@List.length _)) in Hm. now rewrite !length_map in Hm. }
  repeat split; auto.
  unfold valid_messages. cbn [thoughts]. clear - Hm. revert good Hm.
  induction docs as [|t docs IH]; intros good Hm; [constructor|].
  destruct good as [|s good]; [discriminate Hm|]. simpl in Hm.
  injection Hm as Ht Hm. constructor; [|now apply (IH good)].
  symmetry in Ht. now apply validate_message_kept in Ht.
Qed.

End SeedingProperties.

Lemma seeding_stops_at_first_invalid_witness :
  map message
    (thoughts
       (seedDatabase (fun k => ("seed", Z.of_nat k))
          ([mkSeedThought (Some " good morning ") None None None]
           ++ [mkSeedThought (Some "no") (Some 4) None None;
               mkSeedThought (Some "never stored") None None None])
          Sample.store))
  = ["good morning"].
Proof.
  destruct (seeding_stops_at_first_invalid (fun k => ("seed", Z.of_nat k))
              [mkSeedThought (Some " good morning ") None None None]
              [mkSeedThought (Some "no") (Some 4) None None;
               mkSeedThought (Some "never stored") None None None]
              Sample.store) as (_ & _ & H & _).
  - repeat constructor. discriminate.
  - right. eexists. eexists. split; reflexivity.
  - cbv zeta in H. apply (f_equal (map (fun o => match o with
                                                    | Some m => m
                                                    | None => ""
                                                    end))) in H.
    rewrite map_map in H. exact H.
Defined.

(** ** Deleting on [server.js] *)

Section ServerJsDelete.
Variable castObjectId : string -> option string.

(** X13. [DELETE /thoughts/:id] of [server.js] asks for no caller: a
    stored thought is deleted for whoever sends the request, answered 200
    with the thought, and can no longer be fetched (ids being unique); an
    id no thought has is answered 404 and nothing changes; an id that
    does not cast gets no response at all, the store unchanged, because
    the [catch] throws on its undeclared [error]. *)
Theorem server_js_delete (id : string) (st : Store) :
  (forall o t,
      unique_ids st ->
      castObjectId id = Some o -> lookup o (thoughts st) = Some t ->
      let res := ServerJs.delete_thought castObjectId id st in
      fst res
      = Reply (mkResponse 200 true (PThought t)
                 "Thought was successfully deleted.")
      /\ users (snd res) = users st
      /\ ServerJs.get_thought castObjectId id (snd res)
         = (Reply (mkResponse 404 false PNull
                     ("Thought with id '" ++ id ++ "' not found.")),
            snd res))
  /\ (forall o,
         castObjectId id = Some o -> lookup o (thoughts st) = None ->
         ServerJs.delete_thought castObjectId id st
         = (Reply (mkResponse 404 false PNull
                     "Thought could not be found, can't delete."), st))
  /\ (castObjectId id = None ->
      ServerJs.delete_thought castObjectId id st = (Uncaught, st)).
Proof.
  repeat apply conj.
  - intros o t Hnd Hc Hl. cbv zeta.
    unfold ServerJs.delete_thought, findByIdAndDelete. rewrite Hc, Hl.
    cbn [fst snd users]. repeat split.
    unfold ServerJs.get_thought, findById. rewrite Hc. cbn [thoughts].
    now rewrite (lookup_remove_first_same o _ Hnd).
  - intros o Hc Hl. unfold ServerJs.delete_thought, findByIdAndDelete.
    rewrite Hc, Hl. unfold lookup in Hl.
    assert (Hr : remove_first o (thoughts st) = thoughts st).
    { clear Hc. induction (thoughts st) as [|x l IH]; simpl in *; [reflexivity|].
      destruct (thought_id x =? o)%string; [discriminate Hl|].
      now rewrite IH. }
    now rewrite Hr, store_eta.
  - intros Hc. unfold ServerJs.delete_thought, findByIdAndDelete.
    now rewrite Hc.
Qed.

End ServerJsDelete.

Lemma server_js_delete_witness :
  fst (ServerJs.delete_thought Sample.castObjectId "222222222222222222222222"
         Sample.store)
  = Reply (mkResponse 200 true (PThought Sample.happy)
             "Thought was successfully deleted.")
  /\ ServerJs.delete_thought Sample.castObjectId "nonsense" Sample.store
     = (Uncaught, Sample.store).
Proof.
  destruct (server_js_delete Sample.castObjectId "222222222222222222222222"
              Sample.store) as (Hfound & _).
  destruct (server_js_delete Sample.castObjectId "nonsense" Sample.store)
    as (_ & _ & Hbad).
  split.
  - apply (Hfound "222222222222222222222222" Sample.happy);
      [|reflexivity|reflexivity].
    unfold unique_ids. simpl.
    repeat constructor; simpl; intuition discriminate.
  - apply Hbad. reflexivity.
Defined.

(** ** Ids stay unique *)

Lemma In_remove_first (o x : string) (l : list Thought) :
  In x (map thought_id (remove_first o l)) -> In x (map thought_id l).
Proof.
  induction l as [|t l IH]; simpl; [auto|].
  destruct (thought_id t =? o)%string; simpl; [auto|].
  intros [H|H]; auto.
Qed.

Lemma NoDup_remove_first (o : string) (l : list Thought) :
  NoDup (map thought_id l) -> NoDup (map thought_id (remove_first o l)).
Proof.
  induction l as [|t l IH]; simpl; [auto|].
  intros H. inversion H as [|x xs Hnot Hnd]; subst.
  destruct (thought_id t =? o)%string; [assumption|]. simpl.
  constructor; [|now apply IH].
  intros Hin. apply Hnot. now apply In_remove_first with o.
Qed.

Lemma map_id_update_first (o : string) (f : Thought -> Thought)
    (l : list Thought) :
  (forall t, thought_id (f t) = thought_id t) ->
  map thought_id (update_first o f l) = map thought_id l.
Proof.
  intros Hf. induction l as [|t l IH]; simpl; [reflexivity|].
  destruct (thought_id t =? o)%string; simpl; [now rewrite Hf | now rewrite IH].
Qed.

Section UniqueIds.
Variable castObjectId : string -> option string.
Variable RegExp_i : string -> option (string -> bool).
Variable hashSync : string -> string -> string.
Variable compareSync : string -> string -> bool.

(** X14. Ids stay unique: if no two stored thoughts share an id, this is
    still so after any request, provided the id drawn for a thought that
    [POST /thoughts] creates is not the id of a stored thought. *)
Theorem ids_stay_unique (r : Request) (st : Store) :
  unique_ids st ->
  (forall a msg new_id now,
      r = POST_thoughts a msg new_id now ->
      ~ In new_id (map thought_id (thoughts st))) ->
  unique_ids (snd (handle castObjectId RegExp_i hashSync compareSync r st)).
Proof.
  unfold unique_ids. intros H Hfresh.
  destruct r as [|body salt new_id new_token|a|mail pw|q|id|a msg new_id now
                 |a id|id|a id body]; cbn [handle].
  - assumption.
  - unfold post_users. destruct (body_password body); [|assumption].
    destruct (required (body_name body)); [|assumption].
    destruct (required (body_email body)); [|assumption].
    destruct (required _); [|assumption].
    destruct (existsb _ _); assumption.
  - unfold get_secrets, protected. now destruct (authenticateUser a st).
  - unfold post_sessions. destruct (findOne_email mail st); [|assumption].
    now destruct (compareSync pw _).
  - assumption.
  - unfold get_thought. now destruct (findById castObjectId id st) as [[t|]|e].
  - unfold post_thoughts, protected.
    destruct (authenticateUser a st) as [r|u]; [assumption|].
    destruct (validate_message msg) as [m'|]; [|assumption].
    destruct (required _); [|assumption]. cbn [snd thoughts].
    rewrite map_app. apply NoDup_snoc; [assumption|].
    now apply (Hfresh a msg new_id now).
  - unfold delete_thought, protected.
    destruct (authenticateUser a st) as [r|u]; [assumption|].
    destruct (findById castObjectId id st) as [[t|]|e]; try assumption.
    destruct (negb _); [assumption|]. unfold findByIdAndDelete.
    destruct (castObjectId id); [|assumption]. cbn [snd thoughts].
    now apply NoDup_remove_first.
  - unfold patch_like, findByIdAndUpdate.
    destruct (castObjectId id) as [o|]; [|assumption]. cbn [cast_update].
    assert (Hu : NoDup (map thought_id
                          (update_first o (apply_update (Inc_hearts 1))
                             (thoughts st)))).
    { rewrite map_id_update_first; [assumption|].
      intros t. apply apply_update_id. }
    now destruct (lookup o (thoughts st)).
  - unfold patch_thought, protected.
    destruct (authenticateUser a st) as [r|u]; [assumption|].
    destruct (findById castObjectId id st) as [[t|]|e]; try assumption.
    destruct (match body_message body with Some _ => _ | None => false end);
      [assumption|].
    destruct (patch_fields t body) as [f perform].
    destruct (negb perform); [assumption|].
    unfold findByIdAndUpdate.
    destruct (castObjectId id) as [o|]; [|assumption].
    destruct (cast_update (Set_fields f) true) as [up'|e]; [|assumption].
    assert (Hu : NoDup (map thought_id
                          (update_first o (apply_update up') (thoughts st)))).
    { rewrite map_id_update_first; [assumption|].
      intros x. apply apply_update_id. }
    now destruct (lookup o (thoughts st)).
Qed.

End UniqueIds.

Lemma ids_stay_unique_witness :
  unique_ids
    (snd (handle Sample.castObjectId Sample.RegExp_i Sample.hashSync
            Sample.compareSync
            (POST_thoughts (Some "Bearer f00d") (Some "a new thought")
               "444444444444444444444444" 400)
            Sample.store)).
Proof.
  apply (ids_stay_unique Sample.castObjectId Sample.RegExp_i Sample.hashSync
           Sample.compareSync).
  - unfold unique_ids. simpl.
    repeat constructor; simpl; intuition discriminate.
  - intros a msg new_id now H. injection H as _ _ <- _.
    simpl. intuition discriminate.
Defined.

(** ** Like and unlike together *)

Lemma authenticateUser_users (authorization : option string) (st st' : Store) :
  users st' = users st ->
  authenticateUser authorization st' = authenticateUser authorization st.
Proof.
  intros H. unfold authenticateUser, findOne_accessToken. now rewrite H.
Qed.

Section LikeUnlike.
Variable castObjectId : string -> option string.

(** X15. An unlike undoes a like: for a stored thought whose heart count
    is not negative, a like followed by an unlike (by any authenticated
    caller, in a body without message) leaves the thought exactly as it
    was.  The other way round it is so only above 0: an unlike followed
    by a like gives the thought back when it had at least one heart, and
    gives it one heart when it had none. *)
Theorem like_then_unlike
    (id o : string) (t : Thought) (u : User) (authorization : option string)
    (unlike : option Json) (st : Store) :
  castObjectId id = Some o ->
  lookup o (thoughts st) = Some t ->
  0 <= hearts t ->
  authenticateUser authorization st = inr u ->
  truthy_json unlike = true ->
  let body := mkPatchBody None unlike in
  lookup o
    (thoughts
       (snd (patch_thought castObjectId id body authorization
               (snd (patch_like castObjectId id st)))))
  = Some t
  /\ lookup o
       (thoughts
          (snd (patch_like castObjectId id
                  (snd (patch_thought castObjectId id body authorization st)))))
     = Some (with_hearts t (if hearts t =? 0 then 1 else hearts t)).
Proof.
  intros Hc Hl Hh Ha Hu. cbv zeta. split.
  - pose proof (patch_like_stored castObjectId id o t st Hc Hl) as Hl1.
    assert (Ha1 : authenticateUser authorization
                    (snd (patch_like castObjectId id st)) = inr u).
    { rewrite <- Ha. apply authenticateUser_users.
      now rewrite (patch_like_found castObjectId id o t st Hc Hl). }
    destruct (unlike_applied castObjectId id o _ _ authorization u unlike
                Hc Hl1 Ha1 Hu) as (_ & Hst & _).
    rewrite Hst. f_equal. unfold with_hearts. cbn.
    replace (Z.max 0 (hearts t + 1 - 1)) with (hearts t) by lia.
    now destruct t.
  - destruct (unlike_applied castObjectId id o t st authorization u unlike
                Hc Hl Ha Hu) as (_ & Hst & _).
    rewrite (patch_like_stored castObjectId id o _ _ Hc Hst).
    f_equal. unfold with_hearts. cbn. f_equal.
    destruct (hearts t =? 0) eqn:E.
    + apply Z.eqb_eq in E. rewrite E. reflexivity.
    + apply Z.eqb_neq in E. lia.
Qed.

End LikeUnlike.

Lemma like_then_unlike_witness :
  lookup "222222222222222222222222"
    (thoughts
       (snd (patch_thought Sample.castObjectId "222222222222222222222222"
               (mkPatchBody None (Some (JBool true))) (Some "Bearer c0ffee")
               (snd (patch_like Sample.castObjectId "222222222222222222222222"
                       Sample.store)))))
  = Some Sample.happy.
Proof.
  assert (H0 : 0 <= hearts Sample.happy) by (simpl; lia).
  exact (proj1
           (like_then_unlike Sample.castObjectId "222222222222222222222222"
              "222222222222222222222222" Sample.happy Sample.alice
              (Some "Bearer c0ffee") (Some (JBool true)) Sample.store
              eq_refl eq_refl H0 eq_refl eq_refl)).
Defined.
